(** * monaco-yaml: the schema validator of [languageservice/parser/jsonParser.ts]

    A shallow embedding of the validation engine (the AST classes,
    [ValidationResult], the schema collectors, [validate] with its per-type
    validators, and the [JSONDocument] facade), followed by the properties
    proved about it. *)

From Stdlib Require Import ZArith String List Bool Lia.
From Stdlib Require Import Floats.SpecFloat.
From stdpp Require Import base option list gmap strings.

Set Warnings "-register-all".
Open Scope string_scope.
Open Scope Z_scope.

(** ** JavaScript numbers

    A [number] is an IEEE-754 binary64 value.  The comparisons are the
    IEEE ones: every comparison with NaN is false, and the two zeros are
    equal. *)
Module Number.

Definition number := spec_float.

Definition prec : Z := 53.
Definition emax : Z := 1024.

Definition of_Z (z : Z) : number := binary_normalize prec emax z 0 false.
Definition of_nat (n : nat) : number := of_Z (Z.of_nat n).

Definition NaN : number := S754_nan.
Definition zero : number := S754_zero false.

Definition ltb (a b : number) : bool := SFltb a b.
Definition leb (a b : number) : bool := SFleb a b.
Definition gtb (a b : number) : bool := SFltb b a.
Definition geb (a b : number) : bool := SFleb b a.
(** [a === b] on numbers. *)
Definition eqb (a b : number) : bool := SFeqb a b.

Definition isNaN (a : number) : bool :=
  match a with S754_nan => true | _ => false end.

(** [x % y]: the remainder of the truncating division, with the sign of
    the dividend; it is always representable, so no rounding occurs. *)
Definition rem (x y : number) : number :=
  match x, y with
  | S754_nan, _ | _, S754_nan => S754_nan
  | S754_infinity _, _ => S754_nan
  | _, S754_zero _ => S754_nan
  | S754_zero s, _ => S754_zero s
  | S754_finite _ _ _, S754_infinity _ => x
  | S754_finite sx mx ex, S754_finite _ my ey =>
      let e := Z.min ex ey in
      let X := Z.pos mx * 2 ^ (ex - e) in
      let Y := Z.pos my * 2 ^ (ey - e) in
      let R := Z.rem X Y in
      if R =? 0 then S754_zero sx
      else binary_normalize prec emax (if sx then - R else R) e sx
  end.

(** The decimal digits of a non-negative integer, most significant first. *)
Fixpoint digits (fuel : nat) (z : Z) (acc : string) : string :=
  match fuel with
  | O => acc
  | S fuel' =>
      let d := String (Ascii.ascii_of_nat (48 + Z.to_nat (z mod 10))) acc in
      if z <? 10 then d else digits fuel' (z / 10) d
  end.

Definition Z_toString (z : Z) : string :=
  if z <? 0 then "-" ++ digits (Z.to_nat (Z.log2 (- z)) + 1) (- z) EmptyString
  else digits (Z.to_nat (Z.log2 z) + 1) z EmptyString.

(** [String(n)] for the numbers whose rendering is plain: NaN, the
    infinities, the zeros, and the integers of magnitude below 2^53.
    Every other number is left unrendered ([None]). *)
Definition toString (n : number) : option string :=
  match n with
  | S754_nan => Some "NaN"
  | S754_infinity false => Some "Infinity"
  | S754_infinity true => Some "-Infinity"
  | S754_zero _ => Some "0"
  | S754_finite s m e =>
      if (e <=? 0) && (Z.pos m mod 2 ^ (- e) =? 0) && (Z.pos m / 2 ^ (- e) <? 2 ^ 53)
      then Some (Z_toString ((if s then -1 else 1) * (Z.pos m / 2 ^ (- e))))
      else None
  end.

End Number.

Abbreviation number := Number.number.

(** ** JavaScript values

    The values [getNodeValue] builds from a document and the values a
    schema lists under [enum] and [const].  An object is kept as its
    list of own properties. *)
Inductive JSValue :=
| JUndefined
| JNull
| JBool (b : bool)
| JNumber (n : number)
| JString (s : string)
| JArray (elements : list JSValue)
| JObject (members : list (string * JSValue)).

Module JSObject.

Fixpoint get (key : string) (members : list (string * JSValue)) : option JSValue :=
  match members with
  | [] => None
  | (k, v) :: rest => if String.eqb k key then Some v else get key rest
  end.

(** [obj[key] = v]: an existing member keeps its place. *)
Fixpoint set (key : string) (v : JSValue) (members : list (string * JSValue))
  : list (string * JSValue) :=
  match members with
  | [] => [(key, v)]
  | (k, w) :: rest =>
      if String.eqb k key then (k, v) :: rest else (k, w) :: set key v rest
  end.

Definition keys (members : list (string * JSValue)) : list string := map fst members.

Definition has (key : string) (members : list (string * JSValue)) : bool :=
  existsb (String.eqb key) (keys members).

End JSObject.

(** Modelled from the spec: [equals] of [utils/objects.ts], which is not
    among the sources.  "Deep equality is structural: null, booleans,
    numbers, strings by identity of value; arrays element-wise in order;
    objects by the same key set and key-wise equal values." *)
Fixpoint equals (one other : JSValue) {struct one} : bool :=
  match one, other with
  | JUndefined, JUndefined => true
  | JNull, JNull => true
  | JBool a, JBool b => Bool.eqb a b
  | JNumber a, JNumber b => Number.eqb a b
  | JString a, JString b => String.eqb a b
  | JArray l1, JArray l2 =>
      (fix elementwise (xs ys : list JSValue) {struct xs} : bool :=
         match xs, ys with
         | [], [] => true
         | x :: xs', y :: ys' => equals x y && elementwise xs' ys'
         | _, _ => false
         end) l1 l2
  | JObject o1, JObject o2 =>
      forallb (fun k => JSObject.has k o2) (JSObject.keys o1)
      && forallb (fun k => JSObject.has k o1) (JSObject.keys o2)
      && (fix keywise (ms : list (string * JSValue)) {struct ms} : bool :=
            match ms with
            | [] => true
            | (k, v) :: ms' =>
                match JSObject.get k o2 with
                | Some w => equals v w
                | None => false
                end && keywise ms'
            end) o1
  | _, _ => false
  end.

(** ** Messages

    [localize] belongs to vscode-nls: what it returns depends on the
    message bundle that is loaded.  A localized message is therefore kept
    as the call that produced it: the key, the default (English) text and
    the arguments.  [JSON.stringify] and the conversion of a number to a
    string stay inside the arguments. *)
Inductive Message :=
| Text (s : string)
| Localized (key : string) (message : string) (args : list MessageArg)
with MessageArg :=
| ArgString (s : string)
| ArgNumber (n : number)
| ArgMessage (m : Message)
| ArgStringified (v : JSValue)
| ArgStringifiedJoined (vs : list JSValue) (separator : string).

Definition localize (key message : string) (args : list MessageArg) : Message :=
  Localized key message args.

(** [a || b] where [a] is an optional string of the schema: the empty
    string is falsy. *)
Definition orMessage (a : option string) (b : Message) : Message :=
  match a with
  | Some s => if String.eqb s EmptyString then b else Text s
  | None => b
  end.

Module Render.

Definition isDigit (c : Ascii.ascii) : bool :=
  let n := Ascii.nat_of_ascii c in (48 <=? n)%nat && (n <=? 57)%nat.

(** After an opening brace: the digits up to the closing brace. *)
Fixpoint placeholder (s : string) (first : option Ascii.ascii)
  : option (Ascii.ascii * string) :=
  match s with
  | String c rest =>
      if isDigit c then placeholder rest (Some (default c first))
      else if Ascii.eqb c (Ascii.ascii_of_nat 125) then
             match first with Some d => Some (d, rest) | None => None end
           else None
  | EmptyString => None
  end.

(** The default formatting of vscode-nls: each [{n}] is replaced by the
    argument whose index is the first digit of [n]; a placeholder with
    no argument stays as it is. *)
Fixpoint format (fuel : nat) (message : string) (args : list (option string)) : string :=
  match fuel with
  | O => message
  | S fuel' =>
      match message with
      | EmptyString => EmptyString
      | String c rest =>
          if Ascii.eqb c (Ascii.ascii_of_nat 123) then
            match placeholder rest None with
            | Some (d, rest') =>
                match args !! (Ascii.nat_of_ascii d - 48)%nat with
                | Some (Some a) => a ++ format fuel' rest' args
                | _ => String c (format fuel' rest args)
                end
            | None => String c (format fuel' rest args)
            end
          else String c (format fuel' rest args)
      end
  end.

(** The English text of a message whose arguments are strings, plain
    numbers or such messages; [None] for any other message. *)
Fixpoint render (m : Message) : option string :=
  match m with
  | Text s => Some s
  | Localized _ message args =>
      (fix all (l : list MessageArg) (acc : list (option string)) : option string :=
         match l with
         | [] => Some (if (List.length args =? 0)%nat then message
                       else format (String.length message) message (rev acc))
         | a :: l' =>
             match a with
             | ArgString s => all l' (Some s :: acc)
             | ArgNumber n =>
                 match Number.toString n with
                 | Some s => all l' (Some s :: acc)
                 | None => None
                 end
             | ArgMessage m' =>
                 match render m' with
                 | Some s => all l' (Some s :: acc)
                 | None => None
                 end
             | _ => None
             end
         end) args []
  end.

End Render.

(** ** The syntax tree *)

Module IRange.
Record t := mk { offset : Z; length : Z }.
End IRange.
Abbreviation IRange := IRange.t.

(** What the validator reads through [node.parent]: the parent's type and
    span and, when the parent is a property, the span of its key node. *)
Record ParentRef := {
  parent_type : string;
  parent_offset : Z;
  parent_length : Z;
  parent_keyNode : option IRange
}.

(** [ASTNodeImpl]: the fields every node has.  [ident] stands for the
    identity of the node object, which [!==] compares. *)
Module Base.
Record t := mk {
  ident : nat;
  offset : Z;
  length : Z;
  parent : option ParentRef
}.
End Base.

Record StringASTNodeImpl := {
  string_base : Base.t;
  string_value : string
}.

Record PropertyASTNodeOf (N : Type) := {
  property_base : Base.t;
  keyNode : StringASTNodeImpl;
  valueNode : option N;
  colonOffset : Z
}.
Arguments property_base {N}.
Arguments keyNode {N}.
Arguments valueNode {N}.
Arguments colonOffset {N}.

Inductive ASTNode :=
| NullASTNode (base : Base.t)
| BooleanASTNode (base : Base.t) (value : bool)
| ArrayASTNode (base : Base.t) (items : list ASTNode)
| NumberASTNode (base : Base.t) (isInteger : bool) (value : number)
| StringASTNode (node : StringASTNodeImpl)
| PropertyASTNode (node : PropertyASTNodeOf ASTNode)
| ObjectASTNode (base : Base.t) (properties : list (PropertyASTNodeOf ASTNode)).

Abbreviation PropertyASTNodeImpl := (PropertyASTNodeOf ASTNode).

Definition base_of (node : ASTNode) : Base.t :=
  match node with
  | NullASTNode b | BooleanASTNode b _ | ArrayASTNode b _
  | NumberASTNode b _ _ | ObjectASTNode b _ => b
  | StringASTNode s => string_base s
  | PropertyASTNode p => property_base p
  end.

Definition type_of (node : ASTNode) : string :=
  match node with
  | NullASTNode _ => "null"
  | BooleanASTNode _ _ => "boolean"
  | ArrayASTNode _ _ => "array"
  | NumberASTNode _ _ _ => "number"
  | StringASTNode _ => "string"
  | PropertyASTNode _ => "property"
  | ObjectASTNode _ _ => "object"
  end.

Definition span_of (node : ASTNode) : IRange :=
  IRange.mk (Base.offset (base_of node)) (Base.length (base_of node)).

(** The [children] getters. *)
Definition children (node : ASTNode) : list ASTNode :=
  match node with
  | ArrayASTNode _ items => items
  | PropertyASTNode p =>
      match valueNode p with
      | Some v => [StringASTNode (keyNode p); v]
      | None => [StringASTNode (keyNode p)]
      end
  | ObjectASTNode _ properties => map PropertyASTNode properties
  | _ => []
  end.

(** [a === b] on node objects. *)
Definition same_node (a b : ASTNode) : bool :=
  (Base.ident (base_of a) =? Base.ident (base_of b))%nat.

Fixpoint ndepth (node : ASTNode) : nat :=
  match node with
  | ArrayASTNode _ items => S (foldr (fun x acc => Nat.max (ndepth x) acc) O items)
  | PropertyASTNode p =>
      S (match valueNode p with Some v => ndepth v | None => O end)
  | ObjectASTNode _ properties =>
      S (foldr (fun p acc =>
                  Nat.max (S (match valueNode p with Some v => ndepth v | None => O end)) acc)
               O properties)
  | _ => O
  end.

(** [getNodeValue] of jsonc-parser: the JavaScript value a node denotes.
    An object takes its members from the properties that have a value
    node; a property node itself denotes [undefined]. *)
Fixpoint getNodeValue (node : ASTNode) : JSValue :=
  match node with
  | NullASTNode _ => JNull
  | BooleanASTNode _ value => JBool value
  | NumberASTNode _ _ value => JNumber value
  | StringASTNode s => JString (string_value s)
  | ArrayASTNode _ items => JArray (map getNodeValue items)
  | ObjectASTNode _ properties =>
      JObject
        ((fix members (ps : list PropertyASTNodeImpl) (obj : list (string * JSValue)) :=
            match ps with
            | [] => obj
            | p :: ps' =>
                members ps'
                  match valueNode p with
                  | Some v => JSObject.set (string_value (keyNode p)) (getNodeValue v) obj
                  | None => obj
                  end
            end) properties [])
  | PropertyASTNode _ => JUndefined
  end.

(** [contains(node, offset, includeRightBound)]. *)
Definition contains (node : ASTNode) (offset : Z) (includeRightBound : bool) : bool :=
  let b := base_of node in
  (Base.offset b <=? offset) && (offset <? Base.offset b + Base.length b)
  || includeRightBound && (offset =? Base.offset b + Base.length b).

(** ** Schemas

    [JSONSchema] of [jsonSchema.ts], with the fields the validator reads.
    A [JSONSchemaRef] is a schema or a boolean. *)

Inductive SchemaType :=
| TypeName (name : string)
| TypeNames (names : list string).

Inductive Exclusive :=
| ExclusiveFlag (flag : bool)
| ExclusiveLimit (limit : number).

Inductive ItemsOf (R : Type) :=
| ItemSchema (item : R)
| ItemSchemas (tuple : list R).
Arguments ItemSchema {R}.
Arguments ItemSchemas {R}.

Inductive DependencyOf (R : Type) :=
| DependencySchema (dependency : R)
| DependencyNames (names : list string).
Arguments DependencySchema {R}.
Arguments DependencyNames {R}.

Module Schema.

Record JSONSchemaOf (R : Type) := mk {
  type : option SchemaType;
  allOf : option (list R);
  not : option R;
  anyOf : option (list R);
  oneOf : option (list R);
  if_ : option R;
  then_ : option R;
  else_ : option R;
  enum : option (list JSValue);
  const : option JSValue;
  errorMessage : option string;
  deprecationMessage : option string;
  multipleOf : option number;
  minimum : option number;
  maximum : option number;
  exclusiveMinimum : option Exclusive;
  exclusiveMaximum : option Exclusive;
  minLength : option number;
  maxLength : option number;
  pattern : option string;
  patternErrorMessage : option string;
  format : option string;
  items : option (ItemsOf R);
  additionalItems : option R;
  contains : option R;
  minItems : option number;
  maxItems : option number;
  uniqueItems : option bool;
  required : option (list string);
  properties : option (list (string * R));
  patternProperties : option (list (string * R));
  additionalProperties : option R;
  maxProperties : option number;
  minProperties : option number;
  dependencies : option (list (string * DependencyOf R));
  propertyNames : option R
}.

Arguments type {R}.
Arguments allOf {R}.
Arguments not {R}.
Arguments anyOf {R}.
Arguments oneOf {R}.
Arguments if_ {R}.
Arguments then_ {R}.
Arguments else_ {R}.
Arguments enum {R}.
Arguments const {R}.
Arguments errorMessage {R}.
Arguments deprecationMessage {R}.
Arguments multipleOf {R}.
Arguments minimum {R}.
Arguments maximum {R}.
Arguments exclusiveMinimum {R}.
Arguments exclusiveMaximum {R}.
Arguments minLength {R}.
Arguments maxLength {R}.
Arguments pattern {R}.
Arguments patternErrorMessage {R}.
Arguments format {R}.
Arguments items {R}.
Arguments additionalItems {R}.
Arguments contains {R}.
Arguments minItems {R}.
Arguments maxItems {R}.
Arguments uniqueItems {R}.
Arguments required {R}.
Arguments properties {R}.
Arguments patternProperties {R}.
Arguments additionalProperties {R}.
Arguments maxProperties {R}.
Arguments minProperties {R}.
Arguments dependencies {R}.
Arguments propertyNames {R}.

(** The schema [{}]. *)
Definition empty {R : Type} : JSONSchemaOf R :=
  mk R None None None None None None None None None None None None None
  None None None None None None None None None None None None None None
  None None None None None None None None None.

(** Field updates, to write schemas down: [set_type t s] is [s] with
    [type: t]. *)
Definition set_type {R : Type} (v : SchemaType) (s : JSONSchemaOf R) : JSONSchemaOf R :=
  mk R (Some v) (allOf s) (not s) (anyOf s) (oneOf s) (if_ s) (then_ s)
  (else_ s) (enum s) (const s) (errorMessage s) (deprecationMessage s)
  (multipleOf s) (minimum s) (maximum s) (exclusiveMinimum s)
  (exclusiveMaximum s) (minLength s) (maxLength s) (pattern s)
  (patternErrorMessage s) (format s) (items s) (additionalItems s)
  (contains s) (minItems s) (maxItems s) (uniqueItems s) (required s)
  (properties s) (patternProperties s) (additionalProperties s)
  (maxProperties s) (minProperties s) (dependencies s) (propertyNames s).

Definition set_allOf {R : Type} (v : list R) (s : JSONSchemaOf R) : JSONSchemaOf R :=
  mk R (type s) (Some v) (not s) (anyOf s) (oneOf s) (if_ s) (then_ s)
  (else_ s) (enum s) (const s) (errorMessage s) (deprecationMessage s)
  (multipleOf s) (minimum s) (maximum s) (exclusiveMinimum s)
  (exclusiveMaximum s) (minLength s) (maxLength s) (pattern s)
  (patternErrorMessage s) (format s) (items s) (additionalItems s)
  (contains s) (minItems s) (maxItems s) (uniqueItems s) (required s)
  (properties s) (patternProperties s) (additionalProperties s)
  (maxProperties s) (minProperties s) (dependencies s) (propertyNames s).

Definition set_not {R : Type} (v : R) (s : JSONSchemaOf R) : JSONSchemaOf R :=
  mk R (type s) (allOf s) (Some v) (anyOf s) (oneOf s) (if_ s) (then_ s)
  (else_ s) (enum s) (const s) (errorMessage s) (deprecationMessage s)
  (multipleOf s) (minimum s) (maximum s) (exclusiveMinimum s)
  (exclusiveMaximum s) (minLength s) (maxLength s) (pattern s)
  (patternErrorMessage s) (format s) (items s) (additionalItems s)
  (contains s) (minItems s) (maxItems s) (uniqueItems s) (required s)
  (properties s) (patternProperties s) (additionalProperties s)
  (maxProperties s) (minProperties s) (dependencies s) (propertyNames s).

Definition set_anyOf {R : Type} (v : list R) (s : JSONSchemaOf R) : JSONSchemaOf R :=
  mk R (type s) (allOf s) (not s) (Some v) (oneOf s) (if_ s) (then_ s)
  (else_ s) (enum s) (const s) (errorMessage s) (deprecationMessage s)
  (multipleOf s) (minimum s) (maximum s) (exclusiveMinimum s)
  (exclusiveMaximum s) (minLength s) (maxLength s) (pattern s)
  (patternErrorMessage s) (format s) (items s) (additionalItems s)
  (contains s) (minItems s) (maxItems s) (uniqueItems s) (required s)
  (properties s) (patternProperties s) (additionalProperties s)
  (maxProperties s) (minProperties s) (dependencies s) (propertyNames s).

Definition set_oneOf {R : Type} (v : list R) (s : JSONSchemaOf R) : JSONSchemaOf R :=
  mk R (type s) (allOf s) (not s) (anyOf s) (Some v) (if_ s) (then_ s)
  (else_ s) (enum s) (const s) (errorMessage s) (deprecationMessage s)
  (multipleOf s) (minimum s) (maximum s) (exclusiveMinimum s)
  (exclusiveMaximum s) (minLength s) (maxLength s) (pattern s)
  (patternErrorMessage s) (format s) (items s) (additionalItems s)
  (contains s) (minItems s) (maxItems s) (uniqueItems s) (required s)
  (properties s) (patternProperties s) (additionalProperties s)
  (maxProperties s) (minProperties s) (dependencies s) (propertyNames s).

Definition set_minimum {R : Type} (v : number) (s : JSONSchemaOf R) : JSONSchemaOf R :=
  mk R (type s) (allOf s) (not s) (anyOf s) (oneOf s) (if_ s) (then_ s)
  (else_ s) (enum s) (const s) (errorMessage s) (deprecationMessage s)
  (multipleOf s) (Some v) (maximum s) (exclusiveMinimum s)
  (exclusiveMaximum s) (minLength s) (maxLength s) (pattern s)
  (patternErrorMessage s) (format s) (items s) (additionalItems s)
  (contains s) (minItems s) (maxItems s) (uniqueItems s) (required s)
  (properties s) (patternProperties s) (additionalProperties s)
  (maxProperties s) (minProperties s) (dependencies s) (propertyNames s).

Definition set_maximum {R : Type} (v : number) (s : JSONSchemaOf R) : JSONSchemaOf R :=
  mk R (type s) (allOf s) (not s) (anyOf s) (oneOf s) (if_ s) (then_ s)
  (else_ s) (enum s) (const s) (errorMessage s) (deprecationMessage s)
  (multipleOf s) (minimum s) (Some v) (exclusiveMinimum s)
  (exclusiveMaximum s) (minLength s) (maxLength s) (pattern s)
  (patternErrorMessage s) (format s) (items s) (additionalItems s)
  (contains s) (minItems s) (maxItems s) (uniqueItems s) (required s)
  (properties s) (patternProperties s) (additionalProperties s)
  (maxProperties s) (minProperties s) (dependencies s) (propertyNames s).

Definition set_exclusiveMinimum {R : Type} (v : Exclusive) (s : JSONSchemaOf R) : JSONSchemaOf R :=
  mk R (type s) (allOf s) (not s) (anyOf s) (oneOf s) (if_ s) (then_ s)
  (else_ s) (enum s) (const s) (errorMessage s) (deprecationMessage s)
  (multipleOf s) (minimum s) (maximum s) (Some v) (exclusiveMaximum s)
  (minLength s) (maxLength s) (pattern s) (patternErrorMessage s) (format
  s) (items s) (additionalItems s) (contains s) (minItems s) (maxItems s)
  (uniqueItems s) (required s) (properties s) (patternProperties s)
  (additionalProperties s) (maxProperties s) (minProperties s)
  (dependencies s) (propertyNames s).

Definition set_exclusiveMaximum {R : Type} (v : Exclusive) (s : JSONSchemaOf R) : JSONSchemaOf R :=
  mk R (type s) (allOf s) (not s) (anyOf s) (oneOf s) (if_ s) (then_ s)
  (else_ s) (enum s) (const s) (errorMessage s) (deprecationMessage s)
  (multipleOf s) (minimum s) (maximum s) (exclusiveMinimum s) (Some v)
  (minLength s) (maxLength s) (pattern s) (patternErrorMessage s) (format
  s) (items s) (additionalItems s) (contains s) (minItems s) (maxItems s)
  (uniqueItems s) (required s) (properties s) (patternProperties s)
  (additionalProperties s) (maxProperties s) (minProperties s)
  (dependencies s) (propertyNames s).

Definition set_pattern {R : Type} (v : string) (s : JSONSchemaOf R) : JSONSchemaOf R :=
  mk R (type s) (allOf s) (not s) (anyOf s) (oneOf s) (if_ s) (then_ s)
  (else_ s) (enum s) (const s) (errorMessage s) (deprecationMessage s)
  (multipleOf s) (minimum s) (maximum s) (exclusiveMinimum s)
  (exclusiveMaximum s) (minLength s) (maxLength s) (Some v)
  (patternErrorMessage s) (format s) (items s) (additionalItems s)
  (contains s) (minItems s) (maxItems s) (uniqueItems s) (required s)
  (properties s) (patternProperties s) (additionalProperties s)
  (maxProperties s) (minProperties s) (dependencies s) (propertyNames s).

Definition set_minItems {R : Type} (v : number) (s : JSONSchemaOf R) : JSONSchemaOf R :=
  mk R (type s) (allOf s) (not s) (anyOf s) (oneOf s) (if_ s) (then_ s)
  (else_ s) (enum s) (const s) (errorMessage s) (deprecationMessage s)
  (multipleOf s) (minimum s) (maximum s) (exclusiveMinimum s)
  (exclusiveMaximum s) (minLength s) (maxLength s) (pattern s)
  (patternErrorMessage s) (format s) (items s) (additionalItems s)
  (contains s) (Some v) (maxItems s) (uniqueItems s) (required s)
  (properties s) (patternProperties s) (additionalProperties s)
  (maxProperties s) (minProperties s) (dependencies s) (propertyNames s).

Definition set_uniqueItems {R : Type} (v : bool) (s : JSONSchemaOf R) : JSONSchemaOf R :=
  mk R (type s) (allOf s) (not s) (anyOf s) (oneOf s) (if_ s) (then_ s)
  (else_ s) (enum s) (const s) (errorMessage s) (deprecationMessage s)
  (multipleOf s) (minimum s) (maximum s) (exclusiveMinimum s)
  (exclusiveMaximum s) (minLength s) (maxLength s) (pattern s)
  (patternErrorMessage s) (format s) (items s) (additionalItems s)
  (contains s) (minItems s) (maxItems s) (Some v) (required s) (properties
  s) (patternProperties s) (additionalProperties s) (maxProperties s)
  (minProperties s) (dependencies s) (propertyNames s).

Definition set_required {R : Type} (v : list string) (s : JSONSchemaOf R) : JSONSchemaOf R :=
  mk R (type s) (allOf s) (not s) (anyOf s) (oneOf s) (if_ s) (then_ s)
  (else_ s) (enum s) (const s) (errorMessage s) (deprecationMessage s)
  (multipleOf s) (minimum s) (maximum s) (exclusiveMinimum s)
  (exclusiveMaximum s) (minLength s) (maxLength s) (pattern s)
  (patternErrorMessage s) (format s) (items s) (additionalItems s)
  (contains s) (minItems s) (maxItems s) (uniqueItems s) (Some v)
  (properties s) (patternProperties s) (additionalProperties s)
  (maxProperties s) (minProperties s) (dependencies s) (propertyNames s).


Definition set_patternProperties {R : Type} (v : list (string * R)) (s : JSONSchemaOf R) : JSONSchemaOf R :=
  mk R (type s) (allOf s) (not s) (anyOf s) (oneOf s) (if_ s) (then_ s)
  (else_ s) (enum s) (const s) (errorMessage s) (deprecationMessage s)
  (multipleOf s) (minimum s) (maximum s) (exclusiveMinimum s)
  (exclusiveMaximum s) (minLength s) (maxLength s) (pattern s)
  (patternErrorMessage s) (format s) (items s) (additionalItems s)
  (contains s) (minItems s) (maxItems s) (uniqueItems s) (required s)
  (properties s) (Some v) (additionalProperties s) (maxProperties s)
  (minProperties s) (dependencies s) (propertyNames s).
End Schema.

Inductive JSONSchemaRef :=
| SchemaBool (b : bool)
| SchemaObj (s : Schema.JSONSchemaOf JSONSchemaRef).

Abbreviation JSONSchema := (Schema.JSONSchemaOf JSONSchemaRef).

(** [asSchema]: [true] stands for [{}], [false] for [{ "not": {} }]. *)
Definition asSchema (schema : JSONSchemaRef) : JSONSchema :=
  match schema with
  | SchemaBool true => Schema.empty
  | SchemaBool false => Schema.set_not (SchemaObj Schema.empty) Schema.empty
  | SchemaObj s => s
  end.

(** [asSchema] of a field that may be missing. *)
Definition asSchema_opt (schema : option JSONSchemaRef) : option JSONSchema :=
  option_map asSchema schema.

(** The nesting depth of a schema; a boolean counts as the schema
    [asSchema] makes of it. *)
Fixpoint rdepth (r : JSONSchemaRef) : nat :=
  match r with
  | SchemaBool _ => 2
  | SchemaObj s =>
      let one (o : option JSONSchemaRef) : nat :=
        match o with Some x => rdepth x | None => O end in
      let many (o : option (list JSONSchemaRef)) : nat :=
        match o with
        | Some l => foldr (fun x acc => Nat.max (rdepth x) acc) O l
        | None => O
        end in
      let named (o : option (list (string * JSONSchemaRef))) : nat :=
        match o with
        | Some l => foldr (fun kx acc => Nat.max (let '(_, x) := kx in rdepth x) acc) O l
        | None => O
        end in
      S (list_max
           [ many (Schema.allOf s); one (Schema.not s); many (Schema.anyOf s);
             many (Schema.oneOf s); one (Schema.if_ s); one (Schema.then_ s);
             one (Schema.else_ s);
             match Schema.items s with
             | Some (ItemSchema x) => rdepth x
             | Some (ItemSchemas l) => foldr (fun x acc => Nat.max (rdepth x) acc) O l
             | None => O
             end;
             one (Schema.additionalItems s); one (Schema.contains s);
             named (Schema.properties s); named (Schema.patternProperties s);
             one (Schema.additionalProperties s);
             match Schema.dependencies s with
             | Some l =>
                 foldr (fun kd acc =>
                          Nat.max (match kd with
                                   | (_, DependencySchema x) => rdepth x
                                   | (_, DependencyNames _) => O
                                   end) acc) O l
             | None => O
             end;
             one (Schema.propertyNames s) ])
  end.

Definition sdepth (s : JSONSchema) : nat := rdepth (SchemaObj s).

(** ** Problems and validation results *)

Inductive DiagnosticSeverity := Error | Warning | Information | Hint.

(** [ErrorCode] of [jsonLanguageTypes.ts]; the validator uses one member. *)
Inductive ErrorCode := EnumValueMismatch.

Record IProblem := {
  location : IRange;
  severity : DiagnosticSeverity;
  code : option ErrorCode;
  message : Message
}.

Definition warning (location : IRange) (message : Message) : IProblem :=
  {| location := location; severity := Warning; code := None; message := message |}.

Definition enumWarning (enumValues : list JSValue) : Message :=
  localize "enumWarning" "Value is not accepted. Valid values: {0}."
    [ArgStringifiedJoined enumValues ", "].

Module ValidationResult.

Record t := mk {
  problems : list IProblem;
  propertiesMatches : Z;
  propertiesValueMatches : Z;
  primaryValueMatches : Z;
  enumValueMatch : bool;
  enumValues : option (list JSValue)
}.

Definition new : t := mk [] 0 0 0 false None.

Definition set_problems (ps : list IProblem) (this : t) : t :=
  mk ps (propertiesMatches this) (propertiesValueMatches this)
     (primaryValueMatches this) (enumValueMatch this) (enumValues this).

(** [this.problems.push(p)]. *)
Definition push (p : IProblem) (this : t) : t :=
  set_problems (problems this ++ [p]) this.

Definition add_propertiesMatches (n : Z) (this : t) : t :=
  mk (problems this) (propertiesMatches this + n) (propertiesValueMatches this)
     (primaryValueMatches this) (enumValueMatch this) (enumValues this).

Definition add_propertiesValueMatches (n : Z) (this : t) : t :=
  mk (problems this) (propertiesMatches this) (propertiesValueMatches this + n)
     (primaryValueMatches this) (enumValueMatch this) (enumValues this).

Definition add_primaryValueMatches (n : Z) (this : t) : t :=
  mk (problems this) (propertiesMatches this) (propertiesValueMatches this)
     (primaryValueMatches this + n) (enumValueMatch this) (enumValues this).

Definition set_enum (matched : bool) (values : option (list JSValue)) (this : t) : t :=
  mk (problems this) (propertiesMatches this) (propertiesValueMatches this)
     (primaryValueMatches this) matched values.

Definition hasProblems (this : t) : bool :=
  negb (List.length (problems this) =? 0)%nat.

Definition merge (this validationResult : t) : t :=
  set_problems (problems this ++ problems validationResult) this.

Definition mergeAll (this : t) (validationResults : list t) : t :=
  fold_left merge validationResults this.

Definition mergeEnumValues (this validationResult : t) : t :=
  if negb (enumValueMatch this) && negb (enumValueMatch validationResult) then
    match enumValues this, enumValues validationResult with
    | Some mine, Some theirs =>
        let all := (mine ++ theirs)%list in
        mk (map (fun error =>
                   match code error with
                   | Some EnumValueMismatch =>
                       {| location := location error; severity := severity error;
                          code := code error; message := enumWarning all |}
                   | None => error
                   end) (problems this))
           (propertiesMatches this) (propertiesValueMatches this)
           (primaryValueMatches this) (enumValueMatch this) (Some all)
    | _, _ => this
    end
  else this.

Definition mergePropertyMatch (this propertyValidationResult : t) : t :=
  let this := merge this propertyValidationResult in
  let this := add_propertiesMatches 1 this in
  let this :=
    if enumValueMatch propertyValidationResult
       || negb (hasProblems propertyValidationResult)
          && negb (propertiesMatches propertyValidationResult =? 0)
    then add_propertiesValueMatches 1 this else this in
  if enumValueMatch propertyValidationResult
     && match enumValues propertyValidationResult with
        | Some values => (List.length values =? 1)%nat
        | None => false
        end
  then add_primaryValueMatches 1 this else this.

Definition compare (this other : t) : Z :=
  let hasProblems_ := hasProblems this in
  if negb (Bool.eqb hasProblems_ (hasProblems other)) then
    if hasProblems_ then -1 else 1
  else if negb (Bool.eqb (enumValueMatch this) (enumValueMatch other)) then
    if enumValueMatch other then -1 else 1
  else if negb (primaryValueMatches this =? primaryValueMatches other) then
    primaryValueMatches this - primaryValueMatches other
  else if negb (propertiesValueMatches this =? propertiesValueMatches other) then
    propertiesValueMatches this - propertiesValueMatches other
  else propertiesMatches this - propertiesMatches other.

End ValidationResult.

Abbreviation ValidationResult := ValidationResult.t.

(** ** Schema collectors *)

(** [crossed] is specification state that no code reads: the number of
    [not] keywords that enclose the [validate] call which made the
    record. *)
Record IApplicableSchema := {
  node : ASTNode;
  inverted : option bool;
  schema : JSONSchema;
  crossed : nat
}.

(** [ms.inverted = !ms.inverted]; a missing field is falsy. *)
Definition flip (ms : IApplicableSchema) : IApplicableSchema :=
  {| node := node ms;
     inverted := Some (negb (default false (inverted ms)));
     schema := schema ms;
     crossed := crossed ms |}.

Inductive ISchemaCollector :=
| SchemaCollector (focusOffset : Z) (exclude : option ASTNode)
                  (schemas : list IApplicableSchema)
| NoOpSchemaCollector.

Module Collector.

Definition schemas (this : ISchemaCollector) : list IApplicableSchema :=
  match this with
  | SchemaCollector _ _ schemas => schemas
  | NoOpSchemaCollector => []
  end.

Definition add (this : ISchemaCollector) (schema : IApplicableSchema) : ISchemaCollector :=
  match this with
  | SchemaCollector focusOffset exclude schemas =>
      SchemaCollector focusOffset exclude (schemas ++ [schema])
  | NoOpSchemaCollector => NoOpSchemaCollector
  end.

Definition merge (this other : ISchemaCollector) : ISchemaCollector :=
  match this with
  | SchemaCollector focusOffset exclude schemas =>
      SchemaCollector focusOffset exclude (schemas ++ Collector.schemas other)
  | NoOpSchemaCollector => NoOpSchemaCollector
  end.

Definition include (this : ISchemaCollector) (node : ASTNode) : bool :=
  match this with
  | SchemaCollector focusOffset exclude _ =>
      ((focusOffset =? -1) || contains node focusOffset false)
      && match exclude with
         | Some excluded => negb (same_node node excluded)
         | None => true
         end
  | NoOpSchemaCollector => true
  end.

Definition newSub (this : ISchemaCollector) : ISchemaCollector :=
  match this with
  | SchemaCollector _ exclude _ => SchemaCollector (-1) exclude []
  | NoOpSchemaCollector => NoOpSchemaCollector
  end.

End Collector.

(** ** Outcomes

    A call returns, throws, or is cut off because the bound on the
    nesting of calls is used up. *)

Inductive Exception :=
| SyntaxError (pattern : string)
| TypeError (reading : string).

Inductive outcome (A : Type) :=
| Ok (a : A)
| Throw (e : Exception)
| OutOfFuel.
Arguments Ok {A}.
Arguments Throw {A}.
Arguments OutOfFuel {A}.

Definition bind {A B : Type} (m : outcome A) (k : A -> outcome B) : outcome B :=
  match m with
  | Ok a => k a
  | Throw e => Throw e
  | OutOfFuel => OutOfFuel
  end.

Notation "'let*' x := m 'in' k" := (bind m (fun x => k))
  (at level 10, x pattern, m at level 100, k at level 200).

(** [for (const x of xs) body]: the state goes from one turn to the
    next, and a throw ends the loop. *)
Fixpoint forEach {A S : Type} (xs : list A) (body : A -> S -> outcome S) (s : S)
  : outcome S :=
  match xs with
  | [] => Ok s
  | x :: xs' => let* s' := body x s in forEach xs' body s'
  end.

(** [xs.some(test)] for a test that may throw: the first [true] ends
    the scan. *)
Fixpoint some {A : Type} (xs : list A) (test : A -> outcome bool) : outcome bool :=
  match xs with
  | [] => Ok false
  | x :: xs' =>
      let* found := test x in
      if found then Ok true else some xs' test
  end.

(** ** The host

    The regular-expression engine and the URI parser the validator
    calls. *)
Record Host := {
  (** [new RegExp(source)]: [None] when the constructor throws a
      SyntaxError, otherwise the answers of [test]. *)
  RegExp : string -> option (string -> bool);
  (** The matcher of a regular-expression literal of the module. *)
  literal : string -> string -> bool;
  (** [Uri.parse(value)]: the scheme of the URI ([inr]), or the message
      of the error thrown ([inl]). *)
  Uri_parse : string -> string + string
}.

Definition quote : string := String (Ascii.ascii_of_nat 34) EmptyString.

Definition colorHexPattern : string :=
  "^#([0-9A-Fa-f]{3,4}|([0-9A-Fa-f]{2}){3,4})$".

Definition emailPattern : string :=
  "^(([^<>()\[\]\\.,;:\s@" ++ quote ++ "]+(\.[^<>()\[\]\\.,;:\s@" ++ quote
  ++ "]+)*)|(" ++ quote ++ ".+" ++ quote
  ++ "))@((\[[0-9]{1,3}\.[0-9]{1,3}\.[0-9]{1,3}\.[0-9]{1,3}])|(([a-zA-Z\-0-9]+\.)+[a-zA-Z]{2,}))$".

Definition State : Type := ValidationResult * ISchemaCollector.

(** The type of [validate]; the first argument counts the [not] keywords
    entered so far (it only feeds [crossed]). *)
Definition Validator : Type :=
  nat -> option ASTNode -> JSONSchema -> ValidationResult -> ISchemaCollector
  -> outcome State.

(** ** Numbers *)

Definition getExclusiveLimit (limit : option number) (exclusive : option Exclusive)
  : option number :=
  match exclusive with
  | Some (ExclusiveLimit e) => Some e
  | Some (ExclusiveFlag true) => limit
  | _ => None
  end.

Definition getLimit (limit : option number) (exclusive : option Exclusive)
  : option number :=
  match exclusive with
  | Some (ExclusiveFlag true) => None
  | _ => limit
  end.

Definition multipleOfWarning (here : IRange) (m : number) : IProblem :=
  warning here (localize "multipleOfWarning" "Value is not divisible by {0}." [ArgNumber m]).
Definition exclusiveMinimumWarning (here : IRange) (m : number) : IProblem :=
  warning here (localize "exclusiveMinimumWarning"
                  "Value is below the exclusive minimum of {0}." [ArgNumber m]).
Definition exclusiveMaximumWarning (here : IRange) (m : number) : IProblem :=
  warning here (localize "exclusiveMaximumWarning"
                  "Value is above the exclusive maximum of {0}." [ArgNumber m]).
Definition minimumWarning (here : IRange) (m : number) : IProblem :=
  warning here (localize "minimumWarning" "Value is below the minimum of {0}." [ArgNumber m]).
Definition maximumWarning (here : IRange) (m : number) : IProblem :=
  warning here (localize "maximumWarning" "Value is above the maximum of {0}." [ArgNumber m]).

(** [if (isNumber(limit) && test(limit)) problems.push(problem(limit))]. *)
Definition checkLimit (limit : option number) (test : number -> bool)
  (problem : number -> IProblem) (validationResult : ValidationResult)
  : ValidationResult :=
  match limit with
  | Some l => if test l then ValidationResult.push (problem l) validationResult
              else validationResult
  | None => validationResult
  end.

Definition _validateNumberNode (node : ASTNode) (val : number) (schema : JSONSchema)
  (validationResult : ValidationResult) : ValidationResult :=
  let here := span_of node in
  let validationResult :=
    checkLimit (Schema.multipleOf schema)
      (fun m => negb (Number.eqb (Number.rem val m) Number.zero))
      (multipleOfWarning here) validationResult in
  let exclusiveMinimum :=
    getExclusiveLimit (Schema.minimum schema) (Schema.exclusiveMinimum schema) in
  let validationResult :=
    checkLimit exclusiveMinimum (fun l => Number.leb val l)
      (exclusiveMinimumWarning here) validationResult in
  let exclusiveMaximum :=
    getExclusiveLimit (Schema.maximum schema) (Schema.exclusiveMaximum schema) in
  let validationResult :=
    checkLimit exclusiveMaximum (fun l => Number.geb val l)
      (exclusiveMaximumWarning here) validationResult in
  let minimum := getLimit (Schema.minimum schema) (Schema.exclusiveMinimum schema) in
  let validationResult :=
    checkLimit minimum (fun l => Number.ltb val l) (minimumWarning here) validationResult in
  let maximum := getLimit (Schema.maximum schema) (Schema.exclusiveMaximum schema) in
  checkLimit maximum (fun l => Number.gtb val l) (maximumWarning here) validationResult.

Section Validator.

Context (host : Host).

(** ** Strings *)

(** The length of a string, in code units. *)
Definition length_of (value : string) : number := Number.of_nat (String.length value).

Definition formatMessage (schema : JSONSchema) (fallback : Message) : Message :=
  orMessage (Schema.patternErrorMessage schema)
    (orMessage (Schema.errorMessage schema) fallback).

Definition _validateStringNode (node : StringASTNodeImpl) (schema : JSONSchema)
  (validationResult : ValidationResult) : outcome ValidationResult :=
  let here := span_of (StringASTNode node) in
  let value := string_value node in
  let validationResult :=
    checkLimit (Schema.minLength schema) (fun l => Number.ltb (length_of value) l)
      (fun l => warning here
                  (localize "minLengthWarning"
                     "String is shorter than the minimum length of {0}." [ArgNumber l]))
      validationResult in
  let validationResult :=
    checkLimit (Schema.maxLength schema) (fun l => Number.gtb (length_of value) l)
      (fun l => warning here
                  (localize "maxLengthWarning"
                     "String is longer than the maximum length of {0}." [ArgNumber l]))
      validationResult in
  let* validationResult :=
    match Schema.pattern schema with
    | Some pattern =>
        match RegExp host pattern with
        | None => Throw (SyntaxError pattern)
        | Some test =>
            if negb (test value) then
              Ok (ValidationResult.push
                    (warning here
                       (formatMessage schema
                          (localize "patternWarning"
                             ("String does not match the pattern of " ++ quote ++ "{0}"
                              ++ quote ++ ".")
                             [ArgString pattern])))
                    validationResult)
            else Ok validationResult
        end
    | None => Ok validationResult
    end in
  match Schema.format schema with
  | Some format =>
      if String.eqb format "uri" || String.eqb format "uri-reference" then
        let errorMessage : option Message :=
          if String.eqb value EmptyString then Some (localize "uriEmpty" "URI expected." [])
          else
            match Uri_parse host value with
            | inr scheme =>
                if String.eqb scheme EmptyString && String.eqb format "uri"
                then Some (localize "uriSchemeMissing" "URI with a scheme is expected." [])
                else None
            | inl thrown =>
                if String.eqb thrown EmptyString then None else Some (Text thrown)
            end in
        match errorMessage with
        | Some errorMessage =>
            Ok (ValidationResult.push
                  (warning here
                     (formatMessage schema
                        (localize "uriFormatWarning" "String is not a URI: {0}"
                           [ArgMessage errorMessage])))
                  validationResult)
        | None => Ok validationResult
        end
      else if String.eqb format "email" then
        if negb (literal host emailPattern value) then
          Ok (ValidationResult.push
                (warning here
                   (formatMessage schema
                      (localize "emailFormatWarning" "String is not an e-mail address." [])))
                validationResult)
        else Ok validationResult
      else if String.eqb format "color-hex" then
        if negb (literal host colorHexPattern value) then
          Ok (ValidationResult.push
                (warning here
                   (formatMessage schema
                      (localize "colorHexFormatWarning"
                         "Invalid color format. Use #RGB, #RGBA, #RRGGBB or #RRGGBBAA." [])))
                validationResult)
        else Ok validationResult
      else Ok validationResult
  | None => Ok validationResult
  end.

(** ** Arrays *)

(** [validate(item, schema, new ValidationResult(), matchingSchemas)]
    followed by [validationResult.mergePropertyMatch]. *)
Definition validateInto (validate : Validator) (nots : nat) (child : ASTNode)
  (schema : JSONSchema) (st : State) : outcome State :=
  let '(validationResult, matchingSchemas) := st in
  let* (propertyValidationResult, matchingSchemas) :=
    validate nots (Some child) schema ValidationResult.new matchingSchemas in
  Ok (ValidationResult.mergePropertyMatch validationResult propertyValidationResult,
      matchingSchemas).

(** [a === b] for two members of the array that [getNodeValue] has just
    built, at the indices [i] and [j]: null, undefined, booleans,
    numbers and strings are equal by value (NaN is equal to nothing);
    an array or an object is a fresh allocation, equal to itself only. *)
Definition strictEqualsAt (values : list JSValue) (i j : nat) : bool :=
  match values !! i, values !! j with
  | Some a, Some b =>
      match a, b with
      | JUndefined, JUndefined => true
      | JNull, JNull => true
      | JBool x, JBool y => Bool.eqb x y
      | JNumber x, JNumber y => Number.eqb x y
      | JString x, JString y => String.eqb x y
      | JArray _, JArray _ => (i =? j)%nat
      | JObject _, JObject _ => (i =? j)%nat
      | _, _ => false
      end
  | _, _ => false
  end.

(** [values.lastIndexOf(values[index])]. *)
Definition lastIndexOf (values : list JSValue) (index : nat) : Z :=
  fold_left (fun found j => if strictEqualsAt values j index then Z.of_nat j else found)
    (seq 0 (List.length values)) (-1).

Definition hasDuplicates (values : list JSValue) : bool :=
  existsb (fun index => negb (Z.of_nat index =? lastIndexOf values index))
    (seq 0 (List.length values)).

Definition uniqueItemsWarning (here : IRange) : IProblem :=
  warning here (localize "uniqueItemsWarning" "Array has duplicate items." []).

(** The [uniqueItems] step of [_validateArrayNode]. *)
Definition validateUniqueItems (node : ASTNode) (items : list ASTNode)
  (schema : JSONSchema) (validationResult : ValidationResult) : ValidationResult :=
  match Schema.uniqueItems schema with
  | Some true =>
      let values := map getNodeValue items in
      if hasDuplicates values
      then ValidationResult.push (uniqueItemsWarning (span_of node)) validationResult
      else validationResult
  | _ => validationResult
  end.

(** The steps of [_validateArrayNode] that come before [uniqueItems]. *)
Definition validateItems (validate : Validator) (nots : nat) (node : ASTNode)
  (items : list ASTNode) (schema : JSONSchema) (st : State) : outcome State :=
  let here := span_of node in
  let* st :=
    match Schema.items schema with
    | Some (ItemSchemas subSchemas) =>
        let* st :=
          forEach (zip (seq 0 (List.length subSchemas)) subSchemas)
            (fun entry st =>
               let '(index, subSchemaRef) := entry in
               let subSchema := asSchema subSchemaRef in
               match items !! index with
               | Some item => validateInto validate nots item subSchema st
               | None =>
                   if (List.length subSchemas <=? List.length items)%nat
                   then Ok (ValidationResult.add_propertiesValueMatches 1 (fst st), snd st)
                   else Ok st
               end) st in
        if (List.length subSchemas <? List.length items)%nat then
          match Schema.additionalItems schema with
          | Some (SchemaObj additionalItems) =>
              forEach (drop (List.length subSchemas) items)
                (fun item st => validateInto validate nots item additionalItems st) st
          | Some (SchemaBool false) =>
              Ok (ValidationResult.push
                    (warning here
                       (localize "additionalItemsWarning"
                          "Array has too many items according to schema. Expected {0} or fewer."
                          [ArgNumber (Number.of_nat (List.length subSchemas))]))
                    (fst st), snd st)
          | _ => Ok st
          end
        else Ok st
    | Some (ItemSchema itemSchemaRef) =>
        let itemSchema := asSchema itemSchemaRef in
        forEach items (fun item st => validateInto validate nots item itemSchema st) st
    | None => Ok st
    end in
  let '(validationResult, matchingSchemas) := st in
  let* validationResult :=
    match asSchema_opt (Schema.contains schema) with
    | Some containsSchema =>
        let* doesContain :=
          some items
            (fun item =>
               let* (itemValidationResult, _) :=
                 validate nots (Some item) containsSchema ValidationResult.new
                   NoOpSchemaCollector in
               Ok (negb (ValidationResult.hasProblems itemValidationResult))) in
        if negb doesContain then
          Ok (ValidationResult.push
                (warning here
                   (orMessage (Schema.errorMessage schema)
                      (localize "requiredItemMissingWarning"
                         "Array does not contain required item." [])))
                validationResult)
        else Ok validationResult
    | None => Ok validationResult
    end in
  let validationResult :=
    checkLimit (Schema.minItems schema)
      (fun l => Number.ltb (Number.of_nat (List.length items)) l)
      (fun l => warning here
                  (localize "minItemsWarning"
                     "Array has too few items. Expected {0} or more." [ArgNumber l]))
      validationResult in
  let validationResult :=
    checkLimit (Schema.maxItems schema)
      (fun l => Number.gtb (Number.of_nat (List.length items)) l)
      (fun l => warning here
                  (localize "maxItemsWarning"
                     "Array has too many items. Expected {0} or fewer." [ArgNumber l]))
      validationResult in
  Ok (validationResult, matchingSchemas).

Definition _validateArrayNode (validate : Validator) (nots : nat) (node : ASTNode)
  (items : list ASTNode) (schema : JSONSchema) (st : State) : outcome State :=
  let* (validationResult, matchingSchemas) :=
    validateItems validate nots node items schema st in
  Ok (validateUniqueItems node items schema validationResult, matchingSchemas).

(** ** Objects *)

(** [seenKeys[name]]; a key bound to a missing value node is falsy like
    a key that is not there. *)
Definition seen (seenKeys : gmap string (option ASTNode)) (name : string)
  : option ASTNode :=
  match seenKeys !! name with
  | Some child => child
  | None => None
  end.

(** [(<PropertyASTNode>child.parent).keyNode], as a span. *)
Definition keyNodeOfParent (child : ASTNode) : outcome IRange :=
  match Base.parent (base_of child) with
  | Some propertyNode =>
      match parent_keyNode propertyNode with
      | Some keyNode => Ok keyNode
      | None => Throw (TypeError "offset")
      end
  | None => Throw (TypeError "keyNode")
  end.

Definition disallowedExtraProp (schema : JSONSchema) (child : ASTNode)
  (propertyName : string) (validationResult : ValidationResult)
  : outcome ValidationResult :=
  let* keyNode := keyNodeOfParent child in
  Ok (ValidationResult.push
        (warning keyNode
           (orMessage (Schema.errorMessage schema)
              (localize "DisallowedExtraPropWarning" "Property {0} is not allowed."
                 [ArgString propertyName])))
        validationResult).

(** What [properties] and [patternProperties] do with a property that is
    there. *)
Definition validateProperty (validate : Validator) (nots : nat) (schema : JSONSchema)
  (propertyName : string) (propertySchema : JSONSchemaRef) (child : ASTNode)
  (st : State) : outcome State :=
  match propertySchema with
  | SchemaBool false =>
      let* validationResult := disallowedExtraProp schema child propertyName (fst st) in
      Ok (validationResult, snd st)
  | SchemaBool true =>
      Ok (ValidationResult.add_propertiesValueMatches 1
            (ValidationResult.add_propertiesMatches 1 (fst st)), snd st)
  | SchemaObj propertySchema => validateInto validate nots child propertySchema st
  end.

(** The first loop of [_validateObjectNode].  Under the merge key the
    code reads [propertyNode.value] and, inside the loops, [.key] and
    [.value] of the properties: a property node has [keyNode] and
    [valueNode] but no such fields, so [propertyNode.value] is
    undefined and reading ["properties"] or ["items"] from it throws. *)
Definition collectKeys (properties : list PropertyASTNodeImpl)
  : outcome (gmap string (option ASTNode) * list string) :=
  forEach properties
    (fun propertyNode acc =>
       let '(seenKeys, unprocessedProperties) := acc in
       let key := string_value (keyNode propertyNode) in
       match valueNode propertyNode with
       | Some value =>
           if String.eqb key "<<" then
             match value with
             | ObjectASTNode _ _ => Throw (TypeError "properties")
             | ArrayASTNode _ _ => Throw (TypeError "items")
             | _ => Ok acc
             end
           else Ok (<[key := Some value]> seenKeys, (unprocessedProperties ++ [key])%list)
       | None =>
           Ok (<[key := None]> seenKeys, (unprocessedProperties ++ [key])%list)
       end)
    (∅, []).

(** [propertyProcessed(prop)]: every occurrence goes. *)
Definition propertyProcessed (prop : string) (unprocessedProperties : list string)
  : list string :=
  List.filter (fun name => negb (String.eqb name prop)) unprocessedProperties.

Definition _validateObjectNode (validate : Validator) (nots : nat) (node : ASTNode)
  (properties : list PropertyASTNodeImpl) (schema : JSONSchema) (st : State)
  : outcome State :=
  let here := span_of node in
  let* (seenKeys, unprocessedProperties) := collectKeys properties in
  let st :=
    match Schema.required schema with
    | Some required =>
        fold_left
          (fun (st : State) propertyName =>
             match seen seenKeys propertyName with
             | Some _ => st
             | None =>
                 let keyNode :=
                   match Base.parent (base_of node) with
                   | Some parent =>
                       if String.eqb (parent_type parent) "property"
                       then parent_keyNode parent else None
                   | None => None
                   end in
                 let location :=
                   match keyNode with
                   | Some keyNode => keyNode
                   | None => IRange.mk (Base.offset (base_of node)) 1
                   end in
                 (ValidationResult.push
                    (warning location
                       (localize "MissingRequiredPropWarning"
                          ("Missing property " ++ quote ++ "{0}" ++ quote ++ ".")
                          [ArgString propertyName]))
                    (fst st), snd st)
             end) required st
    | None => st
    end in
  let* (unprocessedProperties, st) :=
    match Schema.properties schema with
    | Some schemaProperties =>
        forEach schemaProperties
          (fun entry acc =>
             let '(propertyName, propertySchema) := entry in
             let '(unprocessedProperties, st) := acc in
             let unprocessedProperties :=
               propertyProcessed propertyName unprocessedProperties in
             match seen seenKeys propertyName with
             | Some child =>
                 let* st :=
                   validateProperty validate nots schema propertyName propertySchema
                     child st in
                 Ok (unprocessedProperties, st)
             | None => Ok (unprocessedProperties, st)
             end) (unprocessedProperties, st)
    | None => Ok (unprocessedProperties, st)
    end in
  let* (unprocessedProperties, st) :=
    match Schema.patternProperties schema with
    | Some patternProperties =>
        forEach patternProperties
          (fun entry acc =>
             let '(propertyPattern, propertySchema) := entry in
             match RegExp host propertyPattern with
             | None => Throw (SyntaxError propertyPattern)
             | Some test =>
                 forEach (fst acc)
                   (fun propertyName acc =>
                      let '(unprocessedProperties, st) := acc in
                      if test propertyName then
                        let unprocessedProperties :=
                          propertyProcessed propertyName unprocessedProperties in
                        match seen seenKeys propertyName with
                        | Some child =>
                            let* st :=
                              validateProperty validate nots schema propertyName
                                propertySchema child st in
                            Ok (unprocessedProperties, st)
                        | None => Ok (unprocessedProperties, st)
                        end
                      else Ok acc) acc
             end) (unprocessedProperties, st)
    | None => Ok (unprocessedProperties, st)
    end in
  let* st :=
    match Schema.additionalProperties schema with
    | Some (SchemaObj additionalProperties) =>
        forEach unprocessedProperties
          (fun propertyName st =>
             match seen seenKeys propertyName with
             | Some child => validateInto validate nots child additionalProperties st
             | None => Ok st
             end) st
    | Some (SchemaBool false) =>
        forEach unprocessedProperties
          (fun propertyName st =>
             match seen seenKeys propertyName with
             | Some child =>
                 let* validationResult :=
                   disallowedExtraProp schema child propertyName (fst st) in
                 Ok (validationResult, snd st)
             | None => Ok st
             end) st
    | _ => Ok st
    end in
  let count := Number.of_nat (List.length properties) in
  let st :=
    (checkLimit (Schema.maxProperties schema) (fun l => Number.gtb count l)
       (fun l => warning here
                   (localize "MaxPropWarning"
                      "Object has more properties than limit of {0}." [ArgNumber l]))
       (fst st), snd st) in
  let st :=
    (checkLimit (Schema.minProperties schema) (fun l => Number.ltb count l)
       (fun l => warning here
                   (localize "MinPropWarning"
                      "Object has fewer properties than the required number of {0}"
                      [ArgNumber l]))
       (fst st), snd st) in
  let* st :=
    match Schema.dependencies schema with
    | Some dependencies =>
        forEach dependencies
          (fun entry st =>
             let '(key, propertyDep) := entry in
             match seen seenKeys key with
             | Some _ =>
                 match propertyDep with
                 | DependencyNames names =>
                     Ok (fold_left
                           (fun (st : State) requiredProp =>
                              match seen seenKeys requiredProp with
                              | None =>
                                  (ValidationResult.push
                                     (warning here
                                        (localize "RequiredDependentPropWarning"
                                           "Object is missing property {0} required by property {1}."
                                           [ArgString requiredProp; ArgString key]))
                                     (fst st), snd st)
                              | Some _ =>
                                  (ValidationResult.add_propertiesValueMatches 1 (fst st),
                                   snd st)
                              end) names st)
                 | DependencySchema propertyDep =>
                     validateInto validate nots node (asSchema propertyDep) st
                 end
             | None => Ok st
             end) st
    | None => Ok st
    end in
  match asSchema_opt (Schema.propertyNames schema) with
  | Some propertyNames =>
      let '(validationResult, matchingSchemas) := st in
      let* validationResult :=
        forEach properties
          (fun f validationResult =>
             let* (validationResult, _) :=
               validate nots (Some (StringASTNode (keyNode f))) propertyNames
                 validationResult NoOpSchemaCollector in
             Ok validationResult) validationResult in
      Ok (validationResult, matchingSchemas)
  | None => Ok st
  end.

(** ** The keywords every node shares *)

Definition matchesType (node : ASTNode) (type : string) : bool :=
  String.eqb (type_of node) type
  || String.eqb type "integer"
     && match node with
        | NumberASTNode _ isInteger _ => isInteger
        | _ => false
        end.

Definition BestMatch : Type := JSONSchema * ValidationResult * ISchemaCollector.

Definition testAlternatives (validate : Validator) (nots : nat) (node : ASTNode)
  (alternatives : list JSONSchemaRef) (maxOneMatch : bool) (st : State)
  : outcome State :=
  let '(validationResult, matchingSchemas) := st in
  let* (matches, bestMatch) :=
    forEach alternatives
      (fun subSchemaRef (acc : nat * option BestMatch) =>
         let '(matches, bestMatch) := acc in
         let subSchema := asSchema subSchemaRef in
         let* (subValidationResult, subMatchingSchemas) :=
           validate nots (Some node) subSchema ValidationResult.new
             (Collector.newSub matchingSchemas) in
         let matches :=
           if negb (ValidationResult.hasProblems subValidationResult)
           then S matches else matches in
         match bestMatch with
         | None =>
             Ok (matches, Some (subSchema, subValidationResult, subMatchingSchemas))
         | Some (bestSchema, bestValidationResult, bestMatchingSchemas) =>
             if negb maxOneMatch
                && negb (ValidationResult.hasProblems subValidationResult)
                && negb (ValidationResult.hasProblems bestValidationResult)
             then
               Ok (matches,
                   Some (bestSchema,
                         ValidationResult.add_propertiesValueMatches
                           (ValidationResult.propertiesValueMatches subValidationResult)
                           (ValidationResult.add_propertiesMatches
                              (ValidationResult.propertiesMatches subValidationResult)
                              bestValidationResult),
                         Collector.merge bestMatchingSchemas subMatchingSchemas))
             else
               let compareResult :=
                 ValidationResult.compare subValidationResult bestValidationResult in
               if 0 <? compareResult then
                 Ok (matches, Some (subSchema, subValidationResult, subMatchingSchemas))
               else if compareResult =? 0 then
                 Ok (matches,
                     Some (bestSchema,
                           ValidationResult.mergeEnumValues bestValidationResult
                             subValidationResult,
                           Collector.merge bestMatchingSchemas subMatchingSchemas))
               else Ok (matches, bestMatch)
         end) (O, None) in
  let validationResult :=
    if (1 <? matches)%nat && maxOneMatch then
      ValidationResult.push
        (warning (IRange.mk (Base.offset (base_of node)) 1)
           (localize "oneOfWarning"
              "Matches multiple schemas when only one must validate." []))
        validationResult
    else validationResult in
  match bestMatch with
  | Some (_, bestValidationResult, bestMatchingSchemas) =>
      Ok (ValidationResult.add_propertiesValueMatches
            (ValidationResult.propertiesValueMatches bestValidationResult)
            (ValidationResult.add_propertiesMatches
               (ValidationResult.propertiesMatches bestValidationResult)
               (ValidationResult.merge validationResult bestValidationResult)),
          Collector.merge matchingSchemas bestMatchingSchemas)
  | None => Ok (validationResult, matchingSchemas)
  end.

Definition testBranch (validate : Validator) (nots : nat) (node : ASTNode)
  (schema : JSONSchema) (st : State) : outcome State :=
  let '(validationResult, matchingSchemas) := st in
  let* (subValidationResult, subMatchingSchemas) :=
    validate nots (Some node) (asSchema (SchemaObj schema)) ValidationResult.new
      (Collector.newSub matchingSchemas) in
  Ok (ValidationResult.add_propertiesValueMatches
        (ValidationResult.propertiesValueMatches subValidationResult)
        (ValidationResult.add_propertiesMatches
           (ValidationResult.propertiesMatches subValidationResult)
           (ValidationResult.merge validationResult subValidationResult)),
      Collector.merge matchingSchemas subMatchingSchemas).

Definition testCondition (validate : Validator) (nots : nat) (node : ASTNode)
  (ifSchema : JSONSchema) (thenSchema elseSchema : option JSONSchema) (st : State)
  : outcome State :=
  let '(validationResult, matchingSchemas) := st in
  let subSchema := asSchema (SchemaObj ifSchema) in
  let* (subValidationResult, subMatchingSchemas) :=
    validate nots (Some node) subSchema ValidationResult.new
      (Collector.newSub matchingSchemas) in
  let st := (validationResult, Collector.merge matchingSchemas subMatchingSchemas) in
  if negb (ValidationResult.hasProblems subValidationResult) then
    match thenSchema with
    | Some thenSchema => testBranch validate nots node thenSchema st
    | None => Ok st
    end
  else
    match elseSchema with
    | Some elseSchema => testBranch validate nots node elseSchema st
    | None => Ok st
    end.

Definition _validateNode (validate : Validator) (nots : nat) (node : ASTNode)
  (schema : JSONSchema) (st : State) : outcome State :=
  let here := span_of node in
  let st : State :=
    match Schema.type schema with
    | Some (TypeNames types) =>
        if negb (existsb (matchesType node) types) then
          (ValidationResult.push
             (warning here
                (orMessage (Schema.errorMessage schema)
                   (localize "typeArrayMismatchWarning"
                      "Incorrect type. Expected one of {0}."
                      [ArgString (String.concat ", " types)])))
             (fst st), snd st)
        else st
    | Some (TypeName type) =>
        if negb (String.eqb type EmptyString) && negb (matchesType node type) then
          (ValidationResult.push
             (warning here
                (orMessage (Schema.errorMessage schema)
                   (localize "typeMismatchWarning"
                      ("Incorrect type. Expected " ++ quote ++ "{0}" ++ quote ++ ".")
                      [ArgString type])))
             (fst st), snd st)
        else st
    | None => st
    end in
  let* st :=
    match Schema.allOf schema with
    | Some allOf =>
        forEach allOf
          (fun subSchemaRef (st : State) =>
             validate nots (Some node) (asSchema subSchemaRef) (fst st) (snd st)) st
    | None => Ok st
    end in
  let* st :=
    match asSchema_opt (Schema.not schema) with
    | Some notSchema =>
        let '(validationResult, matchingSchemas) := st in
        let* (subValidationResult, subMatchingSchemas) :=
          validate (S nots) (Some node) notSchema ValidationResult.new
            (Collector.newSub matchingSchemas) in
        let validationResult :=
          if negb (ValidationResult.hasProblems subValidationResult) then
            ValidationResult.push
              (warning here
                 (localize "notSchemaWarning" "Matches a schema that is not allowed." []))
              validationResult
          else validationResult in
        Ok (validationResult,
            fold_left (fun matchingSchemas ms => Collector.add matchingSchemas (flip ms))
              (Collector.schemas subMatchingSchemas) matchingSchemas)
    | None => Ok st
    end in
  let* st :=
    match Schema.anyOf schema with
    | Some anyOf => testAlternatives validate nots node anyOf false st
    | None => Ok st
    end in
  let* st :=
    match Schema.oneOf schema with
    | Some oneOf => testAlternatives validate nots node oneOf true st
    | None => Ok st
    end in
  let* st :=
    match asSchema_opt (Schema.if_ schema) with
    | Some ifSchema =>
        testCondition validate nots node ifSchema (asSchema_opt (Schema.then_ schema))
          (asSchema_opt (Schema.else_ schema)) st
    | None => Ok st
    end in
  let '(validationResult, matchingSchemas) := st in
  let validationResult :=
    match Schema.enum schema with
    | Some enum =>
        let val := getNodeValue node in
        let enumValueMatch := existsb (equals val) enum in
        let validationResult :=
          ValidationResult.set_enum enumValueMatch (Some enum) validationResult in
        if negb enumValueMatch then
          ValidationResult.push
            {| location := here; severity := Warning; code := Some EnumValueMismatch;
               message := orMessage (Schema.errorMessage schema) (enumWarning enum) |}
            validationResult
        else validationResult
    | None => validationResult
    end in
  let validationResult :=
    match Schema.const schema with
    | Some JUndefined | None => validationResult
    | Some const =>
        let val := getNodeValue node in
        if negb (equals val const) then
          ValidationResult.set_enum false (Some [const])
            (ValidationResult.push
               {| location := here; severity := Warning; code := Some EnumValueMismatch;
                  message :=
                    orMessage (Schema.errorMessage schema)
                      (localize "constWarning" "Value must be {0}." [ArgStringified const])
               |}
               validationResult)
        else ValidationResult.set_enum true (Some [const]) validationResult
    end in
  let validationResult :=
    match Schema.deprecationMessage schema, Base.parent (base_of node) with
    | Some deprecationMessage, Some parent =>
        if String.eqb deprecationMessage EmptyString then validationResult
        else
          ValidationResult.push
            (warning (IRange.mk (parent_offset parent) (parent_length parent))
               (Text deprecationMessage))
            validationResult
    | _, _ => validationResult
    end in
  Ok (validationResult, matchingSchemas).

(** ** [validate]

    [fuel] bounds the nesting of the calls. *)
Fixpoint validate (fuel : nat) (nots : nat) (node : option ASTNode)
  (schema : JSONSchema) (validationResult : ValidationResult)
  (matchingSchemas : ISchemaCollector) {struct fuel} : outcome State :=
  match node with
  | None => Ok (validationResult, matchingSchemas)
  | Some node =>
      if negb (Collector.include matchingSchemas node) then
        Ok (validationResult, matchingSchemas)
      else
        match fuel with
        | O => OutOfFuel
        | S fuel' =>
            match node with
            | PropertyASTNode property =>
                validate fuel' nots (valueNode property) schema validationResult
                  matchingSchemas
            | _ =>
                let* st :=
                  match node with
                  | ObjectASTNode _ properties =>
                      _validateObjectNode (validate fuel') nots node properties schema
                        (validationResult, matchingSchemas)
                  | ArrayASTNode _ items =>
                      _validateArrayNode (validate fuel') nots node items schema
                        (validationResult, matchingSchemas)
                  | StringASTNode stringNode =>
                      let* validationResult :=
                        _validateStringNode stringNode schema validationResult in
                      Ok (validationResult, matchingSchemas)
                  | NumberASTNode _ _ value =>
                      Ok (_validateNumberNode node value schema validationResult,
                          matchingSchemas)
                  | _ => Ok (validationResult, matchingSchemas)
                  end in
                let* (validationResult, matchingSchemas) :=
                  _validateNode (validate fuel') nots node schema st in
                Ok (validationResult,
                    Collector.add matchingSchemas
                      {| node := node; inverted := None; schema := schema;
                         crossed := nots |})
            end
        end
  end.

End Validator.

(** ** [JSONDocument] *)

Record Position := { line : Z; character : Z }.
Record Range := { range_start : Position; range_end : Position }.

Record Diagnostic := {
  diagnostic_range : Range;
  diagnostic_message : Message;
  diagnostic_severity : DiagnosticSeverity;
  diagnostic_code : option ErrorCode
}.

(** The part of [TextDocument] the facade calls. *)
Record TextDocument := { positionAt : Z -> Position }.

Record JSONDocument := {
  root : option ASTNode;
  syntaxErrors : list Diagnostic;
  comments : list Range
}.

Definition newJSONDocument (root : option ASTNode) (diagnostics : list Diagnostic)
  : JSONDocument :=
  {| root := root; syntaxErrors := diagnostics; comments := [] |}.

(** A bound on the nesting of the calls of [validate] on a node and a
    schema (see [validate_returns]). *)
Definition enough (node : ASTNode) (schema : JSONSchema) : nat :=
  S (ndepth node + sdepth schema).

Module Document.

Section Visit.

Context {V : Type}.
(** A visitor, with the state it works on. *)
Context (visitor : ASTNode -> V -> bool * V).

Fixpoint doVisit (fuel : nat) (node : ASTNode) (v : V) : option (bool * V) :=
  match fuel with
  | O => None
  | S fuel' =>
      let '(ctn, v) := visitor node v in
      (fix loop (children : list ASTNode) (ctn : bool) (v : V) : option (bool * V) :=
         match children with
         | [] => Some (ctn, v)
         | child :: rest =>
             if ctn then
               match doVisit fuel' child v with
               | Some (ctn, v) => loop rest ctn v
               | None => None
               end
             else Some (ctn, v)
         end) (children node) ctn v
  end.

(** [visit]; [None] would mean that the bound on the nesting was too
    small (see [doVisit_returns]). *)
Definition visit (this : JSONDocument) (v : V) : option V :=
  match root this with
  | Some root =>
      match doVisit (S (ndepth root)) root v with
      | Some (_, v) => Some v
      | None => None
      end
  | None => Some v
  end.

End Visit.

Definition toDiagnostic (textDocument : TextDocument) (p : IProblem) : Diagnostic :=
  {| diagnostic_range :=
       {| range_start := positionAt textDocument (IRange.offset (location p));
          range_end :=
            positionAt textDocument
              (IRange.offset (location p) + IRange.length (location p)) |};
     diagnostic_message := message p;
     diagnostic_severity := severity p;
     diagnostic_code := code p |}.

Definition getMatchingSchemas (host : Host) (this : JSONDocument)
  (schema : option JSONSchema) (focusOffset : Z) (exclude : option ASTNode)
  : outcome (list IApplicableSchema) :=
  let matchingSchemas := SchemaCollector focusOffset exclude [] in
  match root this, schema with
  | Some root, Some schema =>
      let* (_, matchingSchemas) :=
        validate host (enough root schema) O (Some root) schema
          ValidationResult.new matchingSchemas in
      Ok (Collector.schemas matchingSchemas)
  | _, _ => Ok (Collector.schemas matchingSchemas)
  end.

(** [validate]; [Ok None] is the [null] it returns. *)
Definition validate (host : Host) (this : JSONDocument) (textDocument : TextDocument)
  (schema : option JSONSchema) : outcome (option (list Diagnostic)) :=
  match root this, schema with
  | Some root, Some schema =>
      let* (validationResult, _) :=
        validate host (enough root schema) O (Some root) schema ValidationResult.new
          NoOpSchemaCollector in
      Ok (Some (map (toDiagnostic textDocument)
                  (ValidationResult.problems validationResult)))
  | _, _ => Ok None
  end.

End Document.

(** ** The loop of [propertyProcessed]

    The source removes the occurrences of a name one [splice] at a time;
    [propertyProcessed] above is what the loop leaves (see
    [propertyProcessed_loop_filter]). *)

(** [names.indexOf(prop)]: the first index, or -1. *)
Fixpoint indexOf (prop : string) (names : list string) : Z :=
  match names with
  | [] => -1
  | name :: rest =>
      if String.eqb name prop then 0
      else
        let index := indexOf prop rest in
        if index <? 0 then -1 else index + 1
  end.

(** [names.splice(index, 1)] for an index that is not negative. *)
Definition splice1 (index : Z) (names : list string) : list string :=
  (take (Z.to_nat index) names ++ drop (S (Z.to_nat index)) names)%list.

(** The [while] loop; [turns] bounds the number of its turns, and [None]
    says that the bound was reached. *)
Fixpoint propertyProcessed_loop (turns : nat) (prop : string)
  (unprocessedProperties : list string) : option (list string) :=
  let index := indexOf prop unprocessedProperties in
  if 0 <=? index then
    match turns with
    | O => None
    | S turns' =>
        propertyProcessed_loop turns' prop (splice1 index unprocessedProperties)
    end
  else Some unprocessedProperties.

(** * Specification-level definitions *)

(** ** The ranking of validation results *)

(** The order as the specification words it: lexicographic on "no
    problems", [enumValueMatch], [primaryValueMatches],
    [propertiesValueMatches] and [propertiesMatches]; [better a b] says
    that [a] ranks strictly above [b]. *)
Definition better (a b : ValidationResult) : Prop :=
  let clean r := negb (ValidationResult.hasProblems r) in
  (clean a = true /\ clean b = false)
  \/ clean a = clean b
     /\ ((ValidationResult.enumValueMatch a = true
          /\ ValidationResult.enumValueMatch b = false)
         \/ ValidationResult.enumValueMatch a = ValidationResult.enumValueMatch b
            /\ (ValidationResult.primaryValueMatches b
                < ValidationResult.primaryValueMatches a
                \/ ValidationResult.primaryValueMatches a
                   = ValidationResult.primaryValueMatches b
                   /\ (ValidationResult.propertiesValueMatches b
                       < ValidationResult.propertiesValueMatches a
                       \/ ValidationResult.propertiesValueMatches a
                          = ValidationResult.propertiesValueMatches b
                          /\ ValidationResult.propertiesMatches b
                             < ValidationResult.propertiesMatches a))).

(** ** The bounds of a number, as the specification derives them *)

(** One warning when the test holds, none otherwise. *)
Definition warnIf (test : bool) (problem : IProblem) : list IProblem :=
  if test then [problem] else [].

(** The warnings of the lower bound: those of the exclusive bound, then
    those of the inclusive one.  A flag [true] turns [minimum] into an
    exclusive bound and leaves no inclusive bound; a number is an
    exclusive bound of its own and [minimum] stays inclusive. *)
Definition lowerBoundWarnings (here : IRange) (v : number) (minimum : option number)
  (exclusiveMinimum : option Exclusive) : list IProblem * list IProblem :=
  let inclusive :=
    match minimum with
    | Some m => warnIf (Number.ltb v m) (minimumWarning here m)
    | None => []
    end in
  match exclusiveMinimum with
  | Some (ExclusiveFlag true) =>
      (match minimum with
       | Some m => warnIf (Number.leb v m) (exclusiveMinimumWarning here m)
       | None => []
       end, [])
  | Some (ExclusiveLimit e) =>
      (warnIf (Number.leb v e) (exclusiveMinimumWarning here e), inclusive)
  | Some (ExclusiveFlag false) | None => ([], inclusive)
  end.

Definition upperBoundWarnings (here : IRange) (v : number) (maximum : option number)
  (exclusiveMaximum : option Exclusive) : list IProblem * list IProblem :=
  let inclusive :=
    match maximum with
    | Some m => warnIf (Number.gtb v m) (maximumWarning here m)
    | None => []
    end in
  match exclusiveMaximum with
  | Some (ExclusiveFlag true) =>
      (match maximum with
       | Some m => warnIf (Number.geb v m) (exclusiveMaximumWarning here m)
       | None => []
       end, [])
  | Some (ExclusiveLimit e) =>
      (warnIf (Number.geb v e) (exclusiveMaximumWarning here e), inclusive)
  | Some (ExclusiveFlag false) | None => ([], inclusive)
  end.

Definition multipleOfWarnings (here : IRange) (v : number) (multipleOf : option number)
  : list IProblem :=
  match multipleOf with
  | Some m =>
      warnIf (negb (Number.eqb (Number.rem v m) Number.zero)) (multipleOfWarning here m)
  | None => []
  end.

(** ** Sample inputs *)

(** A host whose engine rejects the pattern [(] (an unterminated group),
    as ECMAScript does, and takes any other pattern as a plain text to
    find at the start of the subject. *)
Definition sampleHost : Host :=
  {| RegExp := fun source =>
       if String.eqb source "(" then None
       else Some (fun subject => String.prefix source subject);
     literal := fun _ _ => false;
     Uri_parse := fun value => inr EmptyString |}.

(** The text document of a one-line text. *)
Definition oneLine : TextDocument :=
  {| positionAt := fun offset => {| line := 0; character := offset |} |}.

Definition numberAt (ident : nat) (offset length : Z) (parent : option ParentRef)
  (value : Z) : ASTNode :=
  NumberASTNode (Base.mk ident offset length parent) true (Number.of_Z value).

Definition stringAt (ident : nat) (offset length : Z) (parent : option ParentRef)
  (value : string) : StringASTNodeImpl :=
  {| string_base := Base.mk ident offset length parent; string_value := value |}.

Definition parentRef (type : string) (offset length : Z) (keyNode : option IRange)
  : option ParentRef :=
  Some {| parent_type := type; parent_offset := offset; parent_length := length;
          parent_keyNode := keyNode |}.

(** The document [5]. *)
Definition five : ASTNode := numberAt 0 0 1 None 5.

(** [{anyOf: [{type: "string"}, {type: "number", minimum: 10}]}]. *)
Definition stringSchema : JSONSchema := Schema.set_type (TypeName "string") Schema.empty.
Definition numberMin10Schema : JSONSchema :=
  Schema.set_minimum (Number.of_Z 10) (Schema.set_type (TypeName "number") Schema.empty).
Definition stringOrMin10 : JSONSchema :=
  Schema.set_anyOf [SchemaObj stringSchema; SchemaObj numberMin10Schema] Schema.empty.

Definition typeMismatchString (here : IRange) : IProblem :=
  warning here
    (localize "typeMismatchWarning"
       ("Incorrect type. Expected " ++ quote ++ "{0}" ++ quote ++ ".")
       [ArgString "string"]).

(** The document [{"<<": {"a":1}, "b":2}], with the offsets of that
    text. *)
Definition mergeDocument : ASTNode :=
  let object := parentRef "object" 0 22 None in
  let mergeProperty := parentRef "property" 1 13 (Some (IRange.mk 1 4)) in
  let inner := parentRef "object" 7 7 None in
  let aProperty := parentRef "property" 8 5 (Some (IRange.mk 8 3)) in
  let bProperty := parentRef "property" 16 5 (Some (IRange.mk 16 3)) in
  ObjectASTNode (Base.mk 0 0 22 None)
    [ {| property_base := Base.mk 1 1 13 object;
         keyNode := stringAt 2 1 4 mergeProperty "<<";
         valueNode :=
           Some (ObjectASTNode (Base.mk 3 7 7 mergeProperty)
                   [ {| property_base := Base.mk 4 8 5 inner;
                        keyNode := stringAt 5 8 3 aProperty "a";
                        valueNode := Some (numberAt 6 12 1 aProperty 1);
                        colonOffset := 11 |} ]);
         colonOffset := 5 |};
      {| property_base := Base.mk 7 16 5 object;
         keyNode := stringAt 8 16 3 bProperty "b";
         valueNode := Some (numberAt 9 20 1 bProperty 2);
         colonOffset := 19 |} ].

(** [{type: "object", required: ["a", "b"]}]. *)
Definition requiresAB : JSONSchema :=
  Schema.set_required ["a"; "b"] (Schema.set_type (TypeName "object") Schema.empty).

(** ** Traversal order *)

(** The nodes of a subtree in pre-order: the node, then the subtrees of
    its children from first to last. *)
Fixpoint preorder (node : ASTNode) : list ASTNode :=
  node ::
  match node with
  | ArrayASTNode _ items => concat (map preorder items)
  | PropertyASTNode p =>
      StringASTNode (keyNode p)
      :: match valueNode p with Some v => preorder v | None => [] end
  | ObjectASTNode _ properties =>
      concat
        (map (fun p =>
                PropertyASTNode p :: StringASTNode (keyNode p)
                :: match valueNode p with Some v => preorder v | None => [] end)
           properties)
  | _ => []
  end.

Definition nodes_of (this : JSONDocument) : list ASTNode :=
  match root this with
  | Some root => preorder root
  | None => []
  end.

(** A visitor run along a list of nodes for as long as it answers
    [true]. *)
Fixpoint visitWhile {V : Type} (visitor : ASTNode -> V -> bool * V)
  (nodes : list ASTNode) (ctn : bool) (v : V) : bool * V :=
  match nodes with
  | [] => (ctn, v)
  | node :: rest =>
      if ctn then
        let '(ctn, v) := visitor node v in
        visitWhile visitor rest ctn v
      else (ctn, v)
  end.

(** The nodes up to and including the first one on which [fn] is
    false. *)
Fixpoint upToFirstFalse (fn : ASTNode -> bool) (nodes : list ASTNode) : list ASTNode :=
  match nodes with
  | [] => []
  | node :: rest => node :: if fn node then upToFirstFalse fn rest else []
  end.

(** The nodes [visit] calls [fn] on, in the order of the calls. *)
Definition calls (fn : ASTNode -> bool) (this : JSONDocument) : option (list ASTNode) :=
  Document.visit (fun node (log : list ASTNode) => (fn node, (log ++ [node])%list)) this [].

(** The document [[1, 2]]. *)
Definition firstItem : ASTNode := numberAt 1 1 1 (parentRef "array" 0 6 None) 1.
Definition secondItem : ASTNode := numberAt 2 4 1 (parentRef "array" 0 6 None) 2.
Definition pairDocument : ASTNode :=
  ArrayASTNode (Base.mk 0 0 6 None) [firstItem; secondItem].

(** ** Equal array items *)

(** [a === b] for two values held by different items of an array: equal
    by value when both are null, undefined, booleans, numbers or strings;
    never equal when one of them is an array or an object. *)
Definition scalarEquals (a b : JSValue) : bool :=
  match a, b with
  | JUndefined, JUndefined => true
  | JNull, JNull => true
  | JBool x, JBool y => Bool.eqb x y
  | JNumber x, JNumber y => Number.eqb x y
  | JString x, JString y => String.eqb x y
  | _, _ => false
  end.

(** Two items at different places of the array are equal in that
    sense. *)
Definition equalPair (items : list ASTNode) : Prop :=
  exists (i j : nat) (a b : ASTNode),
    i <> j /\ items !! i = Some a /\ items !! j = Some b
    /\ scalarEquals (getNodeValue a) (getNodeValue b) = true.

(** Two items at different places of the array are deep-equal, in the
    sense of [equals]. *)
Definition deepEqualPair (items : list ASTNode) : Prop :=
  exists (i j : nat) (a b : ASTNode),
    i <> j /\ items !! i = Some a /\ items !! j = Some b
    /\ equals (getNodeValue a) (getNodeValue b) = true.

(** No item is the number NaN. *)
Definition noNaN (items : list ASTNode) : Prop :=
  forall (i : nat) (base : Base.t) (isInteger : bool) (value : number),
    items !! i = Some (NumberASTNode base isInteger value) ->
    Number.isNaN value = false.

(** The last index in [a, a + k) at which [P] holds, or [init]: the scan
    [lastIndexOf] runs. *)
Definition lastMatch (P : nat -> bool) (a k : nat) (init : Z) : Z :=
  fold_left (fun found j => if P j then Z.of_nat j else found) (seq a k) init.

(** [{uniqueItems: true}]. *)
Definition uniqueSchema : JSONSchema := Schema.set_uniqueItems true Schema.empty.

(** The document [[[1],[1]]]. *)
Definition nestedPairDocument : ASTNode :=
  let outer := parentRef "array" 0 9 None in
  ArrayASTNode (Base.mk 0 0 9 None)
    [ ArrayASTNode (Base.mk 1 1 3 outer) [numberAt 2 2 1 (parentRef "array" 1 3 None) 1];
      ArrayASTNode (Base.mk 3 5 3 outer) [numberAt 4 6 1 (parentRef "array" 5 3 None) 1] ].

(** The document [[1,1]]. *)
Definition equalPairDocument : ASTNode :=
  ArrayASTNode (Base.mk 0 0 5 None)
    [ numberAt 1 1 1 (parentRef "array" 0 5 None) 1;
      numberAt 2 3 1 (parentRef "array" 0 5 None) 1 ].

(** ** Calls that return *)

(** The call returns or throws: the bound on the nesting was large
    enough. *)
Definition returns {A : Type} (o : outcome A) : Prop := o <> OutOfFuel.

Definition ndepth_opt (node : option ASTNode) : nat :=
  match node with
  | Some node => ndepth node
  | None => O
  end.

(** The depths of the parts of a schema, one per field that holds
    schemas. *)
Definition depth_one (o : option JSONSchemaRef) : nat :=
  match o with Some x => rdepth x | None => O end.
Definition depth_many (o : option (list JSONSchemaRef)) : nat :=
  match o with
  | Some l => foldr (fun x acc => Nat.max (rdepth x) acc) O l
  | None => O
  end.
Definition depth_named (o : option (list (string * JSONSchemaRef))) : nat :=
  match o with
  | Some l => foldr (fun kx acc => Nat.max (let '(_, x) := kx in rdepth x) acc) O l
  | None => O
  end.
Definition depth_items_of (o : option (ItemsOf JSONSchemaRef)) : nat :=
  match o with
  | Some (ItemSchema x) => rdepth x
  | Some (ItemSchemas l) => foldr (fun x acc => Nat.max (rdepth x) acc) O l
  | None => O
  end.
Definition depth_dependencies_of (o : option (list (string * DependencyOf JSONSchemaRef)))
  : nat :=
  match o with
  | Some l =>
      foldr (fun kd acc =>
               Nat.max (match kd with
                        | (_, DependencySchema x) => rdepth x
                        | (_, DependencyNames _) => O
                        end) acc) O l
  | None => O
  end.

Definition part_depths (s : JSONSchema) : list nat :=
  [ depth_many (Schema.allOf s); depth_one (Schema.not s); depth_many (Schema.anyOf s);
    depth_many (Schema.oneOf s); depth_one (Schema.if_ s); depth_one (Schema.then_ s);
    depth_one (Schema.else_ s); depth_items_of (Schema.items s);
    depth_one (Schema.additionalItems s); depth_one (Schema.contains s);
    depth_named (Schema.properties s); depth_named (Schema.patternProperties s);
    depth_one (Schema.additionalProperties s);
    depth_dependencies_of (Schema.dependencies s); depth_one (Schema.propertyNames s) ].

(** The call throws. *)
Definition throws {A : Type} (o : outcome A) : Prop := exists e, o = Throw e.

(** The call does not return a value. *)
Definition fails {A : Type} (o : outcome A) : Prop := forall a, o <> Ok a.

(** ** Regular expressions that do not compile *)

(** [{pattern: "("}] and [{patternProperties: {"(": {}}}]. *)
Definition badPattern : JSONSchema := Schema.set_pattern "(" Schema.empty.
Definition badPatternProperties : JSONSchema :=
  Schema.set_patternProperties [("(", SchemaObj Schema.empty)] Schema.empty.

(** The documents ["abc"] and [{}]. *)
Definition abc : StringASTNodeImpl := stringAt 0 0 5 None "abc".
Definition emptyObject : ASTNode := ObjectASTNode (Base.mk 0 0 2 None) [].

(** ** Records and the [not] keywords around them *)

(** The [inverted] field after [n] flips of a record made without it. *)
Definition flips (n : nat) : option bool :=
  match n with
  | O => None
  | S _ => Some (Nat.odd n)
  end.

(** Every record of the collector was made under at least [k] [not]
    keywords and has been flipped once for each further one. *)
Definition consistent (k : nat) (matchingSchemas : ISchemaCollector) : Prop :=
  Forall (fun r => (k <= crossed r)%nat /\ inverted r = flips (crossed r - k))
    (Collector.schemas matchingSchemas).

(** What holds of the value a call returns, if it returns one. *)
Definition post {A : Type} (P : A -> Prop) (o : outcome A) : Prop :=
  match o with
  | Ok a => P a
  | _ => True
  end.

(** The collectors held by the values the validators pass around. *)
Class Held (A : Type) := held : nat -> A -> Prop.

#[global] Instance held_State : Held State :=
  fun k st => consistent k (snd st).
#[global] Instance held_unprocessed : Held (list string * State) :=
  fun k acc => consistent k (snd (snd acc)).
#[global] Instance held_best : Held (nat * option BestMatch) :=
  fun k acc =>
    match snd acc with
    | Some (_, _, bestMatchingSchemas) => consistent k bestMatchingSchemas
    | None => True
    end.
#[global] Instance held_result : Held ValidationResult := fun _ _ => True.
#[global] Instance held_bool : Held bool := fun _ _ => True.
#[global] Instance held_keys : Held (gmap string (option ASTNode) * list string) :=
  fun _ _ => True.

Definition keeps {A : Type} `{Held A} (k : nat) (o : outcome A) : Prop :=
  post (held k) o.

(** [{not: {not: {}}}]. *)
Definition notNot : JSONSchema :=
  Schema.set_not (SchemaObj (Schema.set_not (SchemaObj Schema.empty) Schema.empty))
    Schema.empty.

(** The records of [5] under [{not: {not: {}}}], in the order in which
    they reach the collector. *)
Definition innermostRecord : IApplicableSchema :=
  {| node := five; inverted := Some false; schema := Schema.empty; crossed := 2 |}.
Definition innerRecord : IApplicableSchema :=
  {| node := five; inverted := Some true;
     schema := Schema.set_not (SchemaObj Schema.empty) Schema.empty; crossed := 1 |}.
Definition outerRecord : IApplicableSchema :=
  {| node := five; inverted := None; schema := notNot; crossed := 0 |}.

(** * More specification-level definitions *)

(** ** Keys of an object *)

Definition key_of (p : PropertyASTNodeImpl) : string := string_value (keyNode p).

(** The property is a merge key with an object or an array as value: the
    one [collectKeys] throws on. *)
Definition merges (p : PropertyASTNodeImpl) : bool :=
  String.eqb (key_of p) "<<"
  && match valueNode p with
     | Some (ObjectASTNode _ _) | Some (ArrayASTNode _ _) => true
     | _ => false
     end.

(** The property is entered under its key: every property but a merge
    key that has a value. *)
Definition entered (p : PropertyASTNodeImpl) : bool :=
  negb (String.eqb (key_of p) "<<"
        && match valueNode p with Some _ => true | None => false end).

(** The value node of the last property with the key [name], if there is
    such a property and it has a value. *)
Fixpoint lastValue (name : string) (properties : list PropertyASTNodeImpl)
  (before : option ASTNode) : option ASTNode :=
  match properties with
  | [] => before
  | p :: rest =>
      lastValue name rest (if String.eqb (key_of p) name then valueNode p else before)
  end.

(** ** Alternatives *)

(** An alternative is clean when validating the node against it returns
    a result without problems. *)
Definition clean (v : Validator) (nots : nat) (node : ASTNode)
  (matchingSchemas : ISchemaCollector) (alternative : JSONSchemaRef) : bool :=
  match v nots (Some node) (asSchema alternative) ValidationResult.new
          (Collector.newSub matchingSchemas) with
  | Ok (subValidationResult, _) => negb (ValidationResult.hasProblems subValidationResult)
  | _ => false
  end.

Definition oneOfWarning (node : ASTNode) : IProblem :=
  warning (IRange.mk (Base.offset (base_of node)) 1)
    (localize "oneOfWarning" "Matches multiple schemas when only one must validate." []).

Definition notSchemaWarning (node : ASTNode) : IProblem :=
  warning (span_of node)
    (localize "notSchemaWarning" "Matches a schema that is not allowed." []).

(** The record [validate] adds for a node and a schema. *)
Definition record (node : ASTNode) (schema : JSONSchema) (nots : nat) : IApplicableSchema :=
  {| node := node; inverted := None; schema := schema; crossed := nots |}.

(** The node is not an object whose properties [collectKeys] throws
    on. *)
Definition mergeFree (node : ASTNode) : bool :=
  match node with
  | ObjectASTNode _ properties => negb (existsb merges properties)
  | _ => true
  end.

Definition isProperty (node : ASTNode) : bool :=
  match node with
  | PropertyASTNode _ => true
  | _ => false
  end.

(** The [switch] of [validate] on the type of a node that is not a
    property. *)
Definition validateByType (host : Host) (v : Validator) (nots : nat) (node : ASTNode)
  (schema : JSONSchema) (st : State) : outcome State :=
  match node with
  | ObjectASTNode _ properties =>
      _validateObjectNode host v nots node properties schema st
  | ArrayASTNode _ items => _validateArrayNode v nots node items schema st
  | StringASTNode stringNode =>
      let* validationResult := _validateStringNode host stringNode schema (fst st) in
      Ok (validationResult, snd st)
  | NumberASTNode _ _ value =>
      Ok (_validateNumberNode node value schema (fst st), snd st)
  | _ => Ok st
  end.

(** One turn of the loop of [testAlternatives]. *)
Definition alternativeStep (validate : Validator) (nots : nat) (node : ASTNode)
  (matchingSchemas : ISchemaCollector) (maxOneMatch : bool)
  (subSchemaRef : JSONSchemaRef) (acc : nat * option BestMatch)
  : outcome (nat * option BestMatch) :=
  let '(matches, bestMatch) := acc in
  let subSchema := asSchema subSchemaRef in
  let* (subValidationResult, subMatchingSchemas) :=
    validate nots (Some node) subSchema ValidationResult.new
      (Collector.newSub matchingSchemas) in
  let matches :=
    if negb (ValidationResult.hasProblems subValidationResult)
    then S matches else matches in
  match bestMatch with
  | None =>
      Ok (matches, Some (subSchema, subValidationResult, subMatchingSchemas))
  | Some (bestSchema, bestValidationResult, bestMatchingSchemas) =>
      if negb maxOneMatch
         && negb (ValidationResult.hasProblems subValidationResult)
         && negb (ValidationResult.hasProblems bestValidationResult)
      then
        Ok (matches,
            Some (bestSchema,
                  ValidationResult.add_propertiesValueMatches
                    (ValidationResult.propertiesValueMatches subValidationResult)
                    (ValidationResult.add_propertiesMatches
                       (ValidationResult.propertiesMatches subValidationResult)
                       bestValidationResult),
                  Collector.merge bestMatchingSchemas subMatchingSchemas))
      else
        let compareResult :=
          ValidationResult.compare subValidationResult bestValidationResult in
        if 0 <? compareResult then
          Ok (matches, Some (subSchema, subValidationResult, subMatchingSchemas))
        else if compareResult =? 0 then
          Ok (matches,
              Some (bestSchema,
                    ValidationResult.mergeEnumValues bestValidationResult
                      subValidationResult,
                    Collector.merge bestMatchingSchemas subMatchingSchemas))
        else Ok (matches, bestMatch)
  end.

(** The best match so far is without problems. *)
Definition bestIsClean (bestMatch : option BestMatch) : bool :=
  match bestMatch with
  | Some (_, bestValidationResult, _) =>
      negb (ValidationResult.hasProblems bestValidationResult)
  | None => false
  end.

(** ** What a validation adds *)

Definition allWarnings (problems : list IProblem) : Prop :=
  Forall (fun p => severity p = Warning) problems.

(** [after] holds the problems of [before] followed by warnings, and no
    score of it is lower. *)
Definition grows (before after : ValidationResult) : Prop :=
  (exists added,
     ValidationResult.problems after
     = (ValidationResult.problems before ++ added)%list
     /\ allWarnings added)
  /\ ValidationResult.propertiesMatches before
     <= ValidationResult.propertiesMatches after
  /\ ValidationResult.propertiesValueMatches before
     <= ValidationResult.propertiesValueMatches after
  /\ ValidationResult.primaryValueMatches before
     <= ValidationResult.primaryValueMatches after.

(** The collector with further records at its end. *)
Definition appended (this : ISchemaCollector) (added : list IApplicableSchema)
  : ISchemaCollector :=
  match this with
  | SchemaCollector focusOffset exclude schemas =>
      SchemaCollector focusOffset exclude (schemas ++ added)
  | NoOpSchemaCollector => NoOpSchemaCollector
  end.

(** A record the collector may hold: its node is not the excluded one,
    and is no property node. *)
Definition permitted (matchingSchemas : ISchemaCollector) (r : IApplicableSchema)
  : Prop :=
  Collector.include (Collector.newSub matchingSchemas) (node r) = true
  /\ isProperty (node r) = false.

(** [after] is [before] with permitted records added at its end. *)
Definition collects (before after : ISchemaCollector) : Prop :=
  exists added, after = appended before added /\ Forall (permitted before) added.

Definition extends (before after : State) : Prop :=
  grows (fst before) (fst after) /\ collects (snd before) (snd after).

(** How the values the validators pass around extend a state. *)
Class Grown (A : Type) := grown : State -> A -> Prop.

#[global] Instance grown_State : Grown State := extends.
#[global] Instance grown_unprocessed : Grown (list string * State) :=
  fun base acc => extends base (snd acc).
#[global] Instance grown_best : Grown (nat * option BestMatch) :=
  fun base acc =>
    match snd acc with
    | Some (_, bestValidationResult, bestMatchingSchemas) =>
        extends (ValidationResult.new, Collector.newSub (snd base))
          (bestValidationResult, bestMatchingSchemas)
    | None => True
    end.
#[global] Instance grown_result : Grown ValidationResult :=
  fun base validationResult => grows (fst base) validationResult.
#[global] Instance grown_bool : Grown bool := fun _ _ => True.
#[global] Instance grown_keys : Grown (gmap string (option ASTNode) * list string) :=
  fun _ _ => True.

Definition extending {A : Type} `{Grown A} (base : State) (o : outcome A) : Prop :=
  post (grown base) o.

(** ** Required properties *)

(** Where a missing property is reported: at the key of the property
    that holds the object, or else at the first character of the
    object. *)
Definition missingRequiredLocation (node : ASTNode) : IRange :=
  let keyNode :=
    match Base.parent (base_of node) with
    | Some parent =>
        if String.eqb (parent_type parent) "property"
        then parent_keyNode parent else None
    | None => None
    end in
  match keyNode with
  | Some keyNode => keyNode
  | None => IRange.mk (Base.offset (base_of node)) 1
  end.

Definition missingRequiredProp (node : ASTNode) (propertyName : string) : IProblem :=
  warning (missingRequiredLocation node)
    (localize "MissingRequiredPropWarning"
       ("Missing property " ++ quote ++ "{0}" ++ quote ++ ".")
       [ArgString propertyName]).

(** The last property with the key [name] that was entered has a
    value. *)
Definition hasValue (name : string) (properties : list PropertyASTNodeImpl) : bool :=
  match lastValue name (List.filter entered properties) None with
  | Some _ => true
  | None => false
  end.

Definition missing (required : list string) (properties : list PropertyASTNodeImpl)
  : list string :=
  List.filter (fun name => negb (hasValue name properties)) required.

(** ** Types *)

(** The warnings of [_validateNode] about the type of a node. *)
Definition typeMismatch (node : ASTNode) (schema : JSONSchema) (type : string)
  : IProblem :=
  warning (span_of node)
    (orMessage (Schema.errorMessage schema)
       (localize "typeMismatchWarning"
          ("Incorrect type. Expected " ++ quote ++ "{0}" ++ quote ++ ".")
          [ArgString type])).

Definition typeArrayMismatch (node : ASTNode) (schema : JSONSchema)
  (types : list string) : IProblem :=
  warning (span_of node)
    (orMessage (Schema.errorMessage schema)
       (localize "typeArrayMismatchWarning" "Incorrect type. Expected one of {0}."
          [ArgString (String.concat ", " types)])).

(** The warning a node draws from the [type] of a schema, if any. *)
Definition typeWarning (node : ASTNode) (schema : JSONSchema) : option IProblem :=
  match Schema.type schema with
  | Some (TypeNames types) =>
      if existsb (matchesType node) types then None
      else Some (typeArrayMismatch node schema types)
  | Some (TypeName type) =>
      if String.eqb type EmptyString || matchesType node type then None
      else Some (typeMismatch node schema type)
  | None => None
  end.

(** ** Validations that do not throw *)

Definition safe {A : Type} (o : outcome A) : Prop := forall e, o <> Throw e.

(** The schemas the fields of a schema hold. *)
Inductive part (s : JSONSchema) : JSONSchemaRef -> Prop :=
| part_allOf l r : Schema.allOf s = Some l -> In r l -> part s r
| part_not r : Schema.not s = Some r -> part s r
| part_anyOf l r : Schema.anyOf s = Some l -> In r l -> part s r
| part_oneOf l r : Schema.oneOf s = Some l -> In r l -> part s r
| part_if r : Schema.if_ s = Some r -> part s r
| part_then r : Schema.then_ s = Some r -> part s r
| part_else r : Schema.else_ s = Some r -> part s r
| part_item r : Schema.items s = Some (ItemSchema r) -> part s r
| part_items l r : Schema.items s = Some (ItemSchemas l) -> In r l -> part s r
| part_additionalItems r : Schema.additionalItems s = Some r -> part s r
| part_contains r : Schema.contains s = Some r -> part s r
| part_properties l k r : Schema.properties s = Some l -> In (k, r) l -> part s r
| part_patternProperties l k r :
    Schema.patternProperties s = Some l -> In (k, r) l -> part s r
| part_additionalProperties r : Schema.additionalProperties s = Some r -> part s r
| part_dependencies l k r :
    Schema.dependencies s = Some l -> In (k, DependencySchema r) l -> part s r
| part_propertyNames r : Schema.propertyNames s = Some r -> part s r.

(** The schemas within a schema: the schema, and those within its
    parts. *)
Inductive within (s : JSONSchema) : JSONSchema -> Prop :=
| within_here : within s s
| within_part r t : part s r -> within (asSchema r) t -> within s t.

(** The regular expressions the schema itself holds compile. *)
Definition compilesHere (host : Host) (s : JSONSchema) : Prop :=
  (forall pattern, Schema.pattern s = Some pattern -> RegExp host pattern <> None)
  /\ (forall l pattern r,
        Schema.patternProperties s = Some l -> In (pattern, r) l ->
        RegExp host pattern <> None).

(** Every regular expression within the schema compiles. *)
Definition compiles (host : Host) (schema : JSONSchema) : Prop :=
  forall t, within schema t -> compilesHere host t.

(** The nodes [validate] goes to from a node. *)
Inductive child : ASTNode -> ASTNode -> Prop :=
| child_item base items item : In item items -> child (ArrayASTNode base items) item
| child_value base properties p value :
    In p properties -> valueNode p = Some value ->
    child (ObjectASTNode base properties) value
| child_of_property p value :
    valueNode p = Some value -> child (PropertyASTNode p) value.

Inductive inside (node : ASTNode) : ASTNode -> Prop :=
| inside_here : inside node node
| inside_child c t : child node c -> inside c t -> inside node t.

(** An object without a merge key over an object or an array, the values
    of whose properties know the property that holds them. *)
Definition plainHere (node : ASTNode) : Prop :=
  match node with
  | ObjectASTNode _ properties =>
      existsb merges properties = false
      /\ forall p value,
           In p properties -> valueNode p = Some value ->
           exists keyNode, keyNodeOfParent value = Ok keyNode
  | _ => True
  end.

(** Every object inside the node is such an object. *)
Definition plain (node : ASTNode) : Prop := forall t, inside node t -> plainHere t.

(** The document [{"a":1}], with the offsets of that text, and the
    schema [{properties: {a: false}, patternProperties: {"b": {}}}]. *)
Definition aOneProperties : list PropertyASTNodeImpl :=
  let object := parentRef "object" 0 7 None in
  let aProperty := parentRef "property" 1 5 (Some (IRange.mk 1 3)) in
  [ {| property_base := Base.mk 1 1 5 object;
       keyNode := stringAt 2 1 3 aProperty "a";
       valueNode := Some (numberAt 3 5 1 aProperty 1);
       colonOffset := 4 |} ].


(** ** Where the records come from *)

(** The record is for a node inside [root] and for a schema within
    [rootSchema]. *)
Definition fromHere (root : ASTNode) (rootSchema : JSONSchema) (r : IApplicableSchema)
  : Prop :=
  inside root (node r) /\ within rootSchema (schema r).

(** Every record of the collector is such a record. *)
Definition holds (P : IApplicableSchema -> Prop) (matchingSchemas : ISchemaCollector)
  : Prop :=
  Forall P (Collector.schemas matchingSchemas).

(** The collectors held by the values the validators pass around. *)
Class Recorded (A : Type) := recorded : (IApplicableSchema -> Prop) -> A -> Prop.

#[global] Instance recorded_State : Recorded State := fun P st => holds P (snd st).
#[global] Instance recorded_unprocessed : Recorded (list string * State) :=
  fun P acc => holds P (snd (snd acc)).
#[global] Instance recorded_best : Recorded (nat * option BestMatch) :=
  fun P acc =>
    match snd acc with
    | Some (_, _, bestMatchingSchemas) => holds P bestMatchingSchemas
    | None => True
    end.
#[global] Instance recorded_result : Recorded ValidationResult := fun _ _ => True.
#[global] Instance recorded_bool : Recorded bool := fun _ _ => True.
#[global] Instance recorded_keys : Recorded (gmap string (option ASTNode) * list string) :=
  fun _ _ => True.

Definition recording {A : Type} `{Recorded A} (P : IApplicableSchema -> Prop)
  (o : outcome A) : Prop :=
  post (recorded P) o.

(** ** Properties the schema does not name *)

(** The name is a key of [properties]. *)
Definition named (schema : JSONSchema) (name : string) : bool :=
  match Schema.properties schema with
  | Some schemaProperties =>
      existsb (fun entry : string * JSONSchemaRef => String.eqb name (fst entry))
        schemaProperties
  | None => false
  end.

(** The name matches a key of [patternProperties]. *)
Definition patterned (host : Host) (schema : JSONSchema) (name : string) : bool :=
  match Schema.patternProperties schema with
  | Some patternProperties =>
      existsb (fun entry : string * JSONSchemaRef =>
                 match RegExp host (fst entry) with
                 | Some test => test name
                 | None => false
                 end) patternProperties
  | None => false
  end.

(** The keys of the object that [properties] does not name and that
    match no key of [patternProperties], as often as they occur. *)
Definition additional (host : Host) (schema : JSONSchema)
  (properties : list PropertyASTNodeImpl) : list string :=
  List.filter (fun name => negb (named schema name || patterned host schema name))
    (map key_of (List.filter entered properties)).

Definition disallowedExtraPropWarning (schema : JSONSchema) (keyNode : IRange)
  (propertyName : string) : IProblem :=
  warning keyNode
    (orMessage (Schema.errorMessage schema)
       (localize "DisallowedExtraPropWarning" "Property {0} is not allowed."
          [ArgString propertyName])).

(** The warning about the property [name], at the key of the last
    property of that name. *)
Definition disallows (schema : JSONSchema) (properties : list PropertyASTNodeImpl)
  (name : string) (w : IProblem) : Prop :=
  exists value keyNode,
    lastValue name (List.filter entered properties) None = Some value
    /\ keyNodeOfParent value = Ok keyNode
    /\ w = disallowedExtraPropWarning schema keyNode name.

(** [{additionalProperties: false}]. *)
Definition noneAdditional : JSONSchema :=
  let s : JSONSchema := Schema.empty in
  Schema.mk JSONSchemaRef (Schema.type s) (Schema.allOf s) (Schema.not s)
    (Schema.anyOf s) (Schema.oneOf s) (Schema.if_ s) (Schema.then_ s) (Schema.else_ s)
    (Schema.enum s) (Schema.const s) (Schema.errorMessage s)
    (Schema.deprecationMessage s) (Schema.multipleOf s) (Schema.minimum s)
    (Schema.maximum s) (Schema.exclusiveMinimum s) (Schema.exclusiveMaximum s)
    (Schema.minLength s) (Schema.maxLength s) (Schema.pattern s)
    (Schema.patternErrorMessage s) (Schema.format s) (Schema.items s)
    (Schema.additionalItems s) (Schema.contains s) (Schema.minItems s)
    (Schema.maxItems s) (Schema.uniqueItems s) (Schema.required s)
    (Schema.properties s) (Schema.patternProperties s) (Some (SchemaBool false))
    (Schema.maxProperties s) (Schema.minProperties s) (Schema.dependencies s)
    (Schema.propertyNames s).

(** ** The items of an array *)



(** ** The properties the schema names *)



(** * Properties *)

(** ** The ranking of validation results *)

Module Ranking.

Import ValidationResult.

Ltac compare_cases :=
  unfold compare, better;
  repeat match goal with
         | r : ValidationResult |- _ =>
             let h := fresh "h" in
             let e := fresh "e" in
             generalize (hasProblems r); intro h;
             generalize (enumValueMatch r); intro e;
             generalize (primaryValueMatches r) (propertiesValueMatches r)
               (propertiesMatches r);
             clear r; intros ? ? ?;
             destruct h, e
         end;
  simpl;
  repeat match goal with
         | |- context [Z.eqb ?x ?y] => destruct (Z.eqb_spec x y); simpl
         end.

Lemma compare_antisym (a b : ValidationResult) : compare a b = - compare b a.
Proof. compare_cases; lia. Qed.

Lemma compare_refl (a : ValidationResult) : compare a a = 0.
Proof. compare_cases; lia. Qed.

Lemma compare_better (a b : ValidationResult) : 0 < compare a b <-> better a b.
Proof. compare_cases; intuition (try discriminate; try lia). Qed.

Lemma compare_trans_lt (a b c : ValidationResult) :
  0 < compare a b -> 0 < compare b c -> 0 < compare a c.
Proof. compare_cases; lia. Qed.

Lemma compare_trans_le (a b c : ValidationResult) :
  0 <= compare a b -> 0 <= compare b c -> 0 <= compare a c.
Proof. compare_cases; lia. Qed.

Lemma compare_trans_eq (a b c : ValidationResult) :
  compare a b = 0 -> compare b c = 0 -> compare a c = 0.
Proof. compare_cases; lia. Qed.

(** C7.  [compare] is antisymmetric, [compare a a] is 0, and the order
    its sign induces is transitive (strictly, weakly, and for ties); a
    positive sign is the lexicographic order on no-problems,
    enumValueMatch, primaryValueMatches, propertiesValueMatches and
    propertiesMatches. *)
Theorem compare_is_a_ranking :
  (forall a b, compare a b = - compare b a)
  /\ (forall a, compare a a = 0)
  /\ (forall a b c, 0 < compare a b -> 0 < compare b c -> 0 < compare a c)
  /\ (forall a b c, 0 <= compare a b -> 0 <= compare b c -> 0 <= compare a c)
  /\ (forall a b c, compare a b = 0 -> compare b c = 0 -> compare a c = 0)
  /\ (forall a b, 0 < compare a b <-> better a b).
Proof.
  repeat split.
  - apply compare_antisym.
  - apply compare_refl.
  - apply compare_trans_lt.
  - apply compare_trans_le.
  - apply compare_trans_eq.
  - apply compare_better.
  - apply compare_better.
Qed.

(** Three results in strictly descending rank: a clean one, one with an
    enum match and a problem, one with a problem only. *)
Lemma compare_is_a_ranking_witness :
  let clean := mk [] 0 0 0 false None in
  let failing := push (typeMismatchString (IRange.mk 0 1)) new in
  let matching := set_enum true None failing in
  0 < compare clean matching /\ 0 < compare matching failing
  /\ 0 < compare clean failing.
Proof.
  intros clean failing matching.
  assert (H1 : 0 < compare clean matching) by (vm_compute; reflexivity).
  assert (H2 : 0 < compare matching failing) by (vm_compute; reflexivity).
  split; [exact H1 | split; [exact H2 |]].
  exact (proj1 (proj2 (proj2 compare_is_a_ranking)) clean matching failing H1 H2).
Defined.

End Ranking.

(** ** The bounds of a number *)

Lemma problems_checkLimit (limit : option number) (test : number -> bool)
  (problem : number -> IProblem) (validationResult : ValidationResult) :
  ValidationResult.problems (checkLimit limit test problem validationResult)
  = (ValidationResult.problems validationResult
     ++ match limit with
        | Some l => warnIf (test l) (problem l)
        | None => []
        end)%list.
Proof.
  unfold checkLimit, warnIf.
  destruct limit as [l|]; [destruct (test l)|]; simpl; now rewrite ?app_nil_r.
Qed.

(** C6.  The problems [_validateNumberNode] adds are, in this order, the
    warning of [multipleOf], then those of the exclusive lower bound, the
    exclusive upper bound, the inclusive lower bound and the inclusive
    upper bound, where the bounds are the ones the specification derives:
    with [exclusiveMinimum: true], [minimum] is exclusive only (a warning
    exactly when [v <= minimum]); with a number, [exclusiveMinimum] is an
    exclusive bound of its own (a warning exactly when
    [v <= exclusiveMinimum]) and [minimum] stays inclusive (a warning
    exactly when [v < minimum]); and alike for the maximum. *)
Theorem number_bounds (node : ASTNode) (v : number) (schema : JSONSchema)
  (validationResult : ValidationResult) :
  let here := span_of node in
  let lower :=
    lowerBoundWarnings here v (Schema.minimum schema) (Schema.exclusiveMinimum schema) in
  let upper :=
    upperBoundWarnings here v (Schema.maximum schema) (Schema.exclusiveMaximum schema) in
  ValidationResult.problems (_validateNumberNode node v schema validationResult)
  = (ValidationResult.problems validationResult
     ++ multipleOfWarnings here v (Schema.multipleOf schema)
     ++ fst lower ++ fst upper ++ snd lower ++ snd upper)%list.
Proof.
  intros here lower upper. subst lower upper.
  unfold _validateNumberNode. fold here.
  rewrite !problems_checkLimit, <- !app_assoc.
  unfold multipleOfWarnings, lowerBoundWarnings, upperBoundWarnings,
    getExclusiveLimit, getLimit.
  destruct (Schema.multipleOf schema), (Schema.minimum schema),
    (Schema.maximum schema),
    (Schema.exclusiveMinimum schema) as [[[|]|]|],
    (Schema.exclusiveMaximum schema) as [[[|]|]|];
    simpl; rewrite ?app_nil_r; reflexivity.
Qed.

(** ** The facade without a root or without a schema *)

(** C9.  Without a root node or without a schema, [validate] returns
    [null] (not an empty list) and [getMatchingSchemas] returns an empty
    list. *)
Theorem facade_without_root_or_schema (host : Host) (this : JSONDocument)
  (textDocument : TextDocument) (schema : option JSONSchema) (focusOffset : Z)
  (exclude : option ASTNode) :
  root this = None \/ schema = None ->
  Document.validate host this textDocument schema = Ok None
  /\ Document.validate host this textDocument schema <> Ok (Some [])
  /\ Document.getMatchingSchemas host this schema focusOffset exclude = Ok [].
Proof.
  unfold Document.validate, Document.getMatchingSchemas.
  intros [H | H]; rewrite H.
  - repeat split; discriminate.
  - destruct (root this); repeat split; discriminate.
Qed.

Lemma facade_without_root_or_schema_witness :
  Document.validate sampleHost (newJSONDocument None []) oneLine (Some stringSchema)
  = Ok None
  /\ Document.getMatchingSchemas sampleHost (newJSONDocument (Some five) []) None 0 None
     = Ok [].
Proof.
  split.
  - apply (facade_without_root_or_schema sampleHost (newJSONDocument None []) oneLine
             (Some stringSchema) (-1) None).
    left. reflexivity.
  - apply (facade_without_root_or_schema sampleHost (newJSONDocument (Some five) [])
             oneLine None 0 None).
    right. reflexivity.
Defined.

(** ** Absent and excluded nodes *)

(** C10.  [validate] on an absent node, on a node the collector does not
    include, or on a property node whose value node is absent returns at
    once and leaves the validation result and the collector as they
    were. *)
Theorem validate_absent_or_excluded (host : Host) (fuel nots : nat)
  (schema : JSONSchema) (validationResult : ValidationResult)
  (matchingSchemas : ISchemaCollector) :
  validate host fuel nots None schema validationResult matchingSchemas
  = Ok (validationResult, matchingSchemas)
  /\ (forall node,
        Collector.include matchingSchemas node = false ->
        validate host fuel nots (Some node) schema validationResult matchingSchemas
        = Ok (validationResult, matchingSchemas))
  /\ (forall property,
        valueNode property = None ->
        validate host (S fuel) nots (Some (PropertyASTNode property)) schema
          validationResult matchingSchemas
        = Ok (validationResult, matchingSchemas)).
Proof.
  split; [| split].
  - destruct fuel; reflexivity.
  - intros node H. destruct fuel; simpl; rewrite H; reflexivity.
  - intros property H. simpl.
    destruct (Collector.include matchingSchemas (PropertyASTNode property));
      simpl; [| reflexivity].
    rewrite H. destruct fuel; reflexivity.
Qed.

Lemma validate_absent_or_excluded_witness :
  let partial : PropertyASTNodeImpl :=
    {| property_base := Base.mk 1 1 3 (parentRef "object" 0 5 None);
       keyNode := stringAt 2 1 3 (parentRef "property" 1 3 (Some (IRange.mk 1 3))) "a";
       valueNode := None;
       colonOffset := -1 |} in
  validate sampleHost 1 0 (Some (PropertyASTNode partial)) stringSchema
    ValidationResult.new (SchemaCollector (-1) None [])
  = Ok (ValidationResult.new, SchemaCollector (-1) None [])
  /\ validate sampleHost 1 0 (Some five) stringSchema ValidationResult.new
       (SchemaCollector (-1) (Some five) [])
     = Ok (ValidationResult.new, SchemaCollector (-1) (Some five) []).
Proof.
  intros partial. split.
  - apply (validate_absent_or_excluded sampleHost 0 0 stringSchema ValidationResult.new
             (SchemaCollector (-1) None [])).
    reflexivity.
  - apply (validate_absent_or_excluded sampleHost 1 0 stringSchema ValidationResult.new
             (SchemaCollector (-1) (Some five) [])).
    reflexivity.
Defined.

(** ** The scenarios of the specification *)

(** C1, as the code has it.  For the document [5] and the schema
    [{anyOf: [{type: "string"}, {type: "number", minimum: 10}]}],
    [validate] returns exactly one diagnostic, the warning
    [Incorrect type. Expected "string".] on the node: each alternative
    has one problem and no score, so the second compares equal to the
    first ([compare] is 0), the first stays the best match, and the
    problems of the best match alone reach the outer result. *)
Theorem anyOf_tie_keeps_first_alternative (host : Host) (textDocument : TextDocument) :
  let here := IRange.mk 0 1 in
  let first := ValidationResult.push (typeMismatchString here) ValidationResult.new in
  let second :=
    ValidationResult.push (minimumWarning here (Number.of_Z 10)) ValidationResult.new in
  validate host 1 0 (Some five) stringSchema ValidationResult.new NoOpSchemaCollector
  = Ok (first, NoOpSchemaCollector)
  /\ validate host 1 0 (Some five) numberMin10Schema ValidationResult.new
       NoOpSchemaCollector
     = Ok (second, NoOpSchemaCollector)
  /\ ValidationResult.compare second first = 0
  /\ Document.validate host (newJSONDocument (Some five) []) textDocument
       (Some stringOrMin10)
     = Ok (Some [Document.toDiagnostic textDocument (typeMismatchString here)])
  /\ Render.render (message (typeMismatchString here))
     = Some ("Incorrect type. Expected " ++ quote ++ "string" ++ quote ++ ".").
Proof. repeat split; vm_compute; reflexivity. Qed.

(** The one diagnostic is not the warning about the minimum. *)
Lemma anyOf_does_not_report_the_minimum :
  exists d,
    Document.validate sampleHost (newJSONDocument (Some five) []) oneLine
      (Some stringOrMin10)
    = Ok (Some [d])
    /\ Render.render (diagnostic_message d)
       = Some ("Incorrect type. Expected " ++ quote ++ "string" ++ quote ++ ".")
    /\ Render.render (diagnostic_message d) <> Some "Value is below the minimum of 10."
    /\ Render.render (message (minimumWarning (IRange.mk 0 1) (Number.of_Z 10)))
       = Some "Value is below the minimum of 10.".
Proof.
  eexists. split; [vm_compute; reflexivity |].
  split; [vm_compute; reflexivity |].
  split; [vm_compute; discriminate | vm_compute; reflexivity].
Qed.

(** C2, on the code.  For the document [{"<<": {"a":1}, "b":2}] and the
    schema [{type: "object", required: ["a", "b"]}], [validate] returns no
    list: the merge-key branch reads [propertyNode.value], a field that
    property nodes do not have, and throws a TypeError. *)
Theorem merge_key_throws (host : Host) (textDocument : TextDocument) :
  Document.validate host (newJSONDocument (Some mergeDocument) []) textDocument
    (Some requiresAB)
  = Throw (TypeError "properties").
Proof. vm_compute. reflexivity. Qed.

(** ** [visit] *)

Section VisitOrder.

Context {V : Type} (visitor : ASTNode -> V -> bool * V).

Lemma visitWhile_stopped (nodes : list ASTNode) (v : V) :
  visitWhile visitor nodes false v = (false, v).
Proof. destruct nodes; reflexivity. Qed.

Lemma visitWhile_app (xs ys : list ASTNode) (ctn : bool) (v : V) :
  visitWhile visitor (xs ++ ys) ctn v
  = let '(ctn, v) := visitWhile visitor xs ctn v in visitWhile visitor ys ctn v.
Proof.
  revert ctn v. induction xs as [| x xs IH]; intros ctn v; simpl.
  - reflexivity.
  - destruct ctn.
    + destruct (visitor x v) as [ctn' v']. apply IH.
    + rewrite visitWhile_stopped. reflexivity.
Qed.

Lemma preorder_children (node : ASTNode) :
  preorder node = node :: concat (map preorder (children node)).
Proof.
  destruct node as [| | | | | p |]; simpl; try reflexivity.
  - destruct (valueNode p); simpl; rewrite ?app_nil_r; reflexivity.
  - rewrite map_map. reflexivity.
Qed.

Lemma foldr_max_le {A : Type} (f : A -> nat) (x : A) (l : list A) :
  In x l -> (f x <= foldr (fun y acc => Nat.max (f y) acc) O l)%nat.
Proof.
  induction l as [| y l IH]; simpl; [tauto |].
  intros [-> | H]; [| specialize (IH H)]; lia.
Qed.

Lemma children_ndepth (node child : ASTNode) :
  In child (children node) -> (ndepth child < ndepth node)%nat.
Proof.
  destruct node as [| | b items | | | p | b properties]; simpl; try tauto.
  - intros H. apply (foldr_max_le ndepth) in H. lia.
  - destruct (valueNode p); simpl; intros [<- | H]; simpl; try lia;
      destruct H as [<- | []]; lia.
  - intros H. apply in_map_iff in H. destruct H as (p & <- & H).
    apply (foldr_max_le
             (fun p => S (match valueNode p with Some v => ndepth v | None => O end)))
      in H.
    simpl. lia.
Qed.

Lemma doVisit_preorder (fuel : nat) :
  forall (node : ASTNode) (v : V),
    (ndepth node < fuel)%nat ->
    Document.doVisit visitor fuel node v
    = Some (visitWhile visitor (preorder node) true v).
Proof.
  induction fuel as [| fuel IH]; intros node v Hfuel; [lia |].
  rewrite preorder_children. simpl.
  destruct (visitor node v) as [ctn v'].
  assert (Hc : forall c, In c (children node) -> (ndepth c < fuel)%nat).
  { intros c Hc. apply children_ndepth in Hc. lia. }
  revert ctn v' Hc. generalize (children node). clear node v Hfuel.
  induction l as [| c cs IHcs]; intros ctn v Hc; simpl.
  - reflexivity.
  - rewrite visitWhile_app. destruct ctn.
    + rewrite (IH c v) by (apply Hc; left; reflexivity).
      destruct (visitWhile visitor (preorder c) true v) as [ctn' v'].
      apply IHcs. intros c' Hc'. apply Hc. right. exact Hc'.
    + rewrite !visitWhile_stopped. reflexivity.
Qed.

(** [doVisit] returns when the bound exceeds the depth of the node. *)
Lemma doVisit_returns (fuel : nat) (node : ASTNode) (v : V) :
  (ndepth node < fuel)%nat -> Document.doVisit visitor fuel node v <> None.
Proof. intros H. rewrite doVisit_preorder by exact H. discriminate. Qed.

Lemma visit_visitWhile (this : JSONDocument) (v : V) :
  Document.visit visitor this v
  = Some (snd (visitWhile visitor (nodes_of this) true v)).
Proof.
  unfold Document.visit, nodes_of. destruct (root this) as [r |]; [| reflexivity].
  rewrite doVisit_preorder by lia.
  destruct (visitWhile visitor (preorder r) true v). reflexivity.
Qed.

End VisitOrder.

Lemma visitWhile_log (fn : ASTNode -> bool) (nodes log : list ASTNode) :
  snd (visitWhile (fun node (log : list ASTNode) => (fn node, (log ++ [node])%list))
         nodes true log)
  = (log ++ upToFirstFalse fn nodes)%list.
Proof.
  revert log. induction nodes as [| n nodes IH]; intros log; simpl.
  - now rewrite app_nil_r.
  - destruct (fn n) eqn:E.
    + rewrite IH, <- app_assoc. reflexivity.
    + rewrite visitWhile_stopped. reflexivity.
Qed.

(** C8, as the code has it.  [visit] calls the visitor on the nodes of
    the document in pre-order from the root, and the first [false] ends
    the whole traversal: the visitor is called on the nodes up to and
    including the first one it answers [false] on, and on no node after
    it, inside or outside that node's subtree. *)
Theorem visit_is_preorder_until_false (this : JSONDocument) :
  (forall (V : Type) (visitor : ASTNode -> V -> bool * V) (v : V),
      Document.visit visitor this v
      = Some (snd (visitWhile visitor (nodes_of this) true v)))
  /\ (forall fn : ASTNode -> bool,
        calls fn this = Some (upToFirstFalse fn (nodes_of this))).
Proof.
  split.
  - intros V visitor v. apply visit_visitWhile.
  - intros fn. unfold calls. rewrite visit_visitWhile, visitWhile_log. reflexivity.
Qed.

(** In [[1, 2]], a visitor that answers [false] on the first item is not
    called on the second, which lies outside the subtree of the first. *)
Lemma visit_skips_later_siblings :
  let fn := fun node => negb (same_node node firstItem) in
  fn firstItem = false
  /\ ~ In secondItem (preorder firstItem)
  /\ In secondItem (preorder pairDocument)
  /\ calls fn (newJSONDocument (Some pairDocument) []) = Some [pairDocument; firstItem]
  /\ ~ In secondItem [pairDocument; firstItem].
Proof.
  intros fn. split; [reflexivity |].
  split; [intros [H | []]; discriminate H |].
  split; [simpl; tauto |].
  split; [vm_compute; reflexivity |].
  intros [H | [H | []]]; discriminate H.
Qed.

(** ** [uniqueItems] *)

Lemma Number_eqb_refl (x : number) : Number.isNaN x = false -> Number.eqb x x = true.
Proof.
  unfold Number.eqb, SFeqb, SFcompare.
  destruct x as [s | s | | s m e]; simpl; try discriminate; intros _.
  - reflexivity.
  - destruct s; reflexivity.
  - destruct s; rewrite Z.compare_refl, Pos.compare_cont_refl; reflexivity.
Qed.

Lemma Number_eqb_sym (x y : number) : Number.eqb x y = Number.eqb y x.
Proof.
  unfold Number.eqb, SFeqb, SFcompare.
  destruct x as [sx | sx | | sx mx ex], y as [sy | sy | | sy my ey];
    try reflexivity; try (destruct sx, sy; reflexivity);
    try (destruct sx; reflexivity); try (destruct sy; reflexivity).
  assert (Hm : Pos.compare_cont Eq my mx = CompOpp (Pos.compare_cont Eq mx my))
    by (symmetry; apply (Pos.compare_cont_antisym mx my Eq)).
  destruct sx, sy; try reflexivity;
    rewrite (Z.compare_antisym ex ey), Hm;
    destruct (ex ?= ey); simpl; try reflexivity;
    destruct (Pos.compare_cont Eq mx my); reflexivity.
Qed.

Lemma scalarEquals_sym (a b : JSValue) : scalarEquals a b = scalarEquals b a.
Proof.
  destruct a, b; simpl; try reflexivity.
  - destruct b, b0; reflexivity.
  - apply Number_eqb_sym.
  - apply String.eqb_sym.
Qed.

Lemma strictEqualsAt_distinct (values : list JSValue) (i j : nat) (a b : JSValue) :
  i <> j -> values !! i = Some a -> values !! j = Some b ->
  strictEqualsAt values i j = scalarEquals a b.
Proof.
  intros Hij Ha Hb. unfold strictEqualsAt. rewrite Ha, Hb.
  apply Nat.eqb_neq in Hij.
  destruct a, b; simpl; rewrite ?Hij; reflexivity.
Qed.

Lemma strictEqualsAt_same (values : list JSValue) (i : nat) (a : JSValue) :
  values !! i = Some a ->
  (forall x, a = JNumber x -> Number.isNaN x = false) ->
  strictEqualsAt values i i = true.
Proof.
  intros Ha Hnan. unfold strictEqualsAt. rewrite Ha.
  destruct a; simpl; rewrite ?Nat.eqb_refl; try reflexivity.
  - destruct b; reflexivity.
  - apply Number_eqb_refl, Hnan. reflexivity.
  - apply String.eqb_refl.
Qed.

Section LastIndex.

Context (P : nat -> bool).

Lemma lastMatch_S (a k : nat) (init : Z) :
  lastMatch P a (S k) init
  = if P (a + k)%nat then Z.of_nat (a + k) else lastMatch P a k init.
Proof. unfold lastMatch. rewrite seq_S, fold_left_app. reflexivity. Qed.

Lemma lastMatch_ge (a k : nat) (init : Z) (i : nat) :
  (a <= i < a + k)%nat -> P i = true -> Z.of_nat i <= lastMatch P a k init.
Proof.
  induction k as [| k IH]; intros Hi HP; [lia |].
  rewrite lastMatch_S. destruct (P (a + k)%nat) eqn:E; [lia |].
  apply IH; [| exact HP].
  destruct (Nat.eq_dec i (a + k)%nat) as [-> | Hne]; [congruence | lia].
Qed.

Lemma lastMatch_found (a k : nat) (init : Z) :
  lastMatch P a k init = init
  \/ exists j, (a <= j < a + k)%nat /\ lastMatch P a k init = Z.of_nat j /\ P j = true.
Proof.
  induction k as [| k IH]; [left; reflexivity |].
  rewrite lastMatch_S. destruct (P (a + k)%nat) eqn:E.
  - right. exists (a + k)%nat. repeat split; try lia. exact E.
  - destruct IH as [IH | (j & Hj & Hl & HP)]; [left; exact IH |].
    right. exists j. repeat split; try lia; assumption.
Qed.

End LastIndex.

Lemma hasDuplicates_later_equal (values : list JSValue) :
  (forall i, (i < List.length values)%nat -> strictEqualsAt values i i = true) ->
  hasDuplicates values = true
  <-> exists i j, (i < j < List.length values)%nat /\ strictEqualsAt values j i = true.
Proof.
  intros Hrefl. unfold hasDuplicates. rewrite existsb_exists. split.
  - intros (i & Hi & Hne). apply in_seq in Hi.
    apply negb_true_iff, Z.eqb_neq in Hne.
    unfold lastIndexOf in Hne.
    fold (lastMatch (fun j => strictEqualsAt values j i) 0 (List.length values) (-1))
      in Hne.
    pose proof (lastMatch_ge (fun j => strictEqualsAt values j i) 0
                  (List.length values) (-1) i ltac:(lia) (Hrefl i ltac:(lia))) as Hge.
    destruct (lastMatch_found (fun j => strictEqualsAt values j i) 0
                (List.length values) (-1)) as [Heq | (j & Hj & Hl & HP)]; [lia |].
    exists i, j. split; [lia | exact HP].
  - intros (i & j & Hij & HP). exists i. split; [apply in_seq; lia |].
    apply negb_true_iff, Z.eqb_neq.
    unfold lastIndexOf.
    fold (lastMatch (fun j => strictEqualsAt values j i) 0 (List.length values) (-1)).
    pose proof (lastMatch_ge (fun j => strictEqualsAt values j i) 0
                  (List.length values) (-1) j ltac:(lia) HP).
    lia.
Qed.

Lemma hasDuplicates_equalPair (items : list ASTNode) :
  noNaN items ->
  hasDuplicates (map getNodeValue items) = true <-> equalPair items.
Proof.
  intros Hnan.
  assert (Hlook : forall i, map getNodeValue items !! i = getNodeValue <$> items !! i)
    by (intros i; apply list_lookup_fmap).
  rewrite hasDuplicates_later_equal.
  - split.
    + intros (i & j & Hij & HP).
      rewrite length_map in Hij.
      destruct (lookup_lt_is_Some_2 items i ltac:(lia)) as [a Ha].
      destruct (lookup_lt_is_Some_2 items j ltac:(lia)) as [b Hb].
      exists j, i, b, a. repeat split; try lia; try assumption.
      rewrite <- HP. symmetry.
      apply strictEqualsAt_distinct; [lia | |]; rewrite Hlook.
      * rewrite Hb. reflexivity.
      * rewrite Ha. reflexivity.
    + intros (i & j & a & b & Hij & Ha & Hb & HE).
      pose proof (lookup_lt_Some _ _ _ Ha) as Hi.
      pose proof (lookup_lt_Some _ _ _ Hb) as Hj.
      assert (Hva : map getNodeValue items !! i = Some (getNodeValue a))
        by (rewrite Hlook, Ha; reflexivity).
      assert (Hvb : map getNodeValue items !! j = Some (getNodeValue b))
        by (rewrite Hlook, Hb; reflexivity).
      rewrite length_map.
      destruct (Nat.lt_ge_cases i j) as [Hlt | Hge].
      * exists i, j. split; [lia |].
        rewrite (strictEqualsAt_distinct _ j i _ _ ltac:(lia) Hvb Hva).
        rewrite scalarEquals_sym. exact HE.
      * exists j, i. split; [lia |].
        rewrite (strictEqualsAt_distinct _ i j _ _ ltac:(lia) Hva Hvb).
        exact HE.
  - intros i Hi. rewrite length_map in Hi.
    destruct (lookup_lt_is_Some_2 items i Hi) as [a Ha].
    apply (strictEqualsAt_same _ i (getNodeValue a)).
    + rewrite Hlook, Ha. reflexivity.
    + intros x Hx. destruct a; simpl in Hx; try discriminate.
      injection Hx as ->. eapply Hnan. exact Ha.
Qed.

(** C3, as the code has it.  In an array none of whose items is NaN,
    validated against a schema with [uniqueItems: true], the
    [uniqueItems] step adds exactly one warning
    [Array has duplicate items.] when two items at different places hold
    equal values (null, booleans, numbers and strings by value), and
    nothing when no two do; items that are arrays or objects are never
    counted as equal. *)
Theorem uniqueItems_compares_by_value (validate : Validator) (nots : nat)
  (node : ASTNode) (items : list ASTNode) (schema : JSONSchema) (st : State)
  (before : ValidationResult) (matchingSchemas : ISchemaCollector) :
  Schema.uniqueItems schema = Some true ->
  noNaN items ->
  validateItems validate nots node items schema st = Ok (before, matchingSchemas) ->
  exists after,
    _validateArrayNode validate nots node items schema st = Ok (after, matchingSchemas)
    /\ (equalPair items ->
        ValidationResult.problems after
        = (ValidationResult.problems before ++ [uniqueItemsWarning (span_of node)])%list)
    /\ (~ equalPair items ->
        ValidationResult.problems after = ValidationResult.problems before).
Proof.
  intros Hunique Hnan Hitems.
  unfold _validateArrayNode. rewrite Hitems. simpl.
  eexists. split; [reflexivity |].
  unfold validateUniqueItems. rewrite Hunique.
  pose proof (hasDuplicates_equalPair items Hnan) as Hdup.
  destruct (hasDuplicates (map getNodeValue items)).
  - split; [reflexivity |]. intros Hno. exfalso. apply Hno, Hdup. reflexivity.
  - split; [| reflexivity]. intros Hpair. apply Hdup in Hpair. discriminate.
Qed.

Lemma uniqueItems_compares_by_value_witness :
  let items := children equalPairDocument in
  exists after,
    _validateArrayNode (validate sampleHost 1) 0 equalPairDocument items uniqueSchema
      (ValidationResult.new, NoOpSchemaCollector)
    = Ok (after, NoOpSchemaCollector)
    /\ ValidationResult.problems after = [uniqueItemsWarning (span_of equalPairDocument)].
Proof.
  intros items.
  assert (Hnan : noNaN items).
  { intros [| [| i]] base isInteger value H; simpl in H; try discriminate;
      injection H as _ _ <-; reflexivity. }
  assert (Hpair : equalPair items).
  { exists O, 1%nat. do 2 eexists.
    split; [discriminate |]. split; [reflexivity |]. split; reflexivity. }
  destruct (uniqueItems_compares_by_value (validate sampleHost 1) 0 equalPairDocument
              items uniqueSchema (ValidationResult.new, NoOpSchemaCollector)
              ValidationResult.new NoOpSchemaCollector eq_refl Hnan eq_refl)
    as (after & Hrun & Hyes & _).
  exists after. split; [exact Hrun | exact (Hyes Hpair)].
Defined.

(** In [[[1],[1]]] the two items are deep-equal, and validation against
    [{uniqueItems: true}] reports nothing. *)
Lemma uniqueItems_misses_deep_equal_items :
  deepEqualPair (children nestedPairDocument)
  /\ Document.validate sampleHost (newJSONDocument (Some nestedPairDocument) []) oneLine
       (Some uniqueSchema)
     = Ok (Some []).
Proof.
  split.
  - exists O, 1%nat. do 2 eexists.
    split; [discriminate |]. split; [reflexivity |]. split; reflexivity.
  - vm_compute. reflexivity.
Qed.


(** ** [validate] returns *)

Lemma returns_Ok {A : Type} (a : A) : returns (Ok a).
Proof. discriminate. Qed.

Lemma returns_Throw {A : Type} (e : Exception) : returns (@Throw A e).
Proof. discriminate. Qed.

Lemma returns_bind {A B : Type} (m : outcome A) (k : A -> outcome B) :
  returns m -> (forall a, m = Ok a -> returns (k a)) -> returns (bind m k).
Proof.
  intros Hm Hk. destruct m as [a | e |]; simpl.
  - apply Hk. reflexivity.
  - discriminate.
  - contradiction Hm. reflexivity.
Qed.

Lemma returns_forEach {A S : Type} (xs : list A) (body : A -> S -> outcome S) (s : S) :
  (forall x s, In x xs -> returns (body x s)) -> returns (forEach xs body s).
Proof.
  revert s. induction xs as [| x xs IH]; intros s H; simpl.
  - apply returns_Ok.
  - apply returns_bind.
    + apply H. left. reflexivity.
    + intros s' _. apply IH. intros y s'' Hy. apply H. right. exact Hy.
Qed.

Lemma returns_some {A : Type} (xs : list A) (test : A -> outcome bool) :
  (forall x, In x xs -> returns (test x)) -> returns (some xs test).
Proof.
  induction xs as [| x xs IH]; intros H; simpl.
  - apply returns_Ok.
  - apply returns_bind.
    + apply H. left. reflexivity.
    + intros [|] _; [apply returns_Ok |].
      apply IH. intros y Hy. apply H. right. exact Hy.
Qed.

(** A loop keeps what every turn keeps. *)
Lemma forEach_invariant {A S : Type} (P : S -> Prop) (xs : list A)
  (body : A -> S -> outcome S) :
  (forall x s s', In x xs -> P s -> body x s = Ok s' -> P s') ->
  forall s s', P s -> forEach xs body s = Ok s' -> P s'.
Proof.
  induction xs as [| x xs IH]; intros Hbody s s' Hs; simpl.
  - intros [= <-]. exact Hs.
  - destruct (body x s) as [s1 | e |] eqn:E; simpl; try discriminate.
    apply IH.
    + intros y t t' Hy. apply Hbody. right. exact Hy.
    + eapply Hbody; [left; reflexivity | exact Hs | exact E].
Qed.

(** *** The depth of the parts of a schema *)

Lemma sdepth_asSchema (r : JSONSchemaRef) : (sdepth (asSchema r) <= rdepth r)%nat.
Proof.
  destruct r as [[|] | s]; [vm_compute; lia | vm_compute; lia | apply Nat.le_refl].
Qed.

Lemma asSchema_opt_Some (o : option JSONSchemaRef) (s : JSONSchema) :
  asSchema_opt o = Some s -> exists r, o = Some r /\ s = asSchema r.
Proof. destruct o as [r |]; simpl; [intros [= <-]; eauto | discriminate]. Qed.

Lemma sdepth_parts (s : JSONSchema) : sdepth s = S (list_max (part_depths s)).
Proof. reflexivity. Qed.

Lemma part_depth_lt (s : JSONSchema) (d : nat) :
  In d (part_depths s) -> (d < sdepth s)%nat.
Proof.
  intros H. rewrite sdepth_parts.
  pose proof (proj1 (list_max_le (part_depths s) (list_max (part_depths s)))
                (Nat.le_refl _)) as Hall.
  rewrite Forall_forall in Hall. specialize (Hall d).
  apply Nat.lt_succ_r, Hall. apply list_elem_of_In. exact H.
Qed.

Ltac by_part p :=
  apply (Nat.le_lt_trans _ p);
  [| apply part_depth_lt; unfold part_depths; simpl; tauto].

Lemma depth_allOf s l r :
  Schema.allOf s = Some l -> In r l -> (rdepth r < sdepth s)%nat.
Proof.
  intros E H. by_part (depth_many (Schema.allOf s)).
  rewrite E. apply (foldr_max_le rdepth). exact H.
Qed.
Lemma depth_not s r : Schema.not s = Some r -> (rdepth r < sdepth s)%nat.
Proof. intros E. by_part (depth_one (Schema.not s)). rewrite E. apply Nat.le_refl. Qed.
Lemma depth_anyOf s l r :
  Schema.anyOf s = Some l -> In r l -> (rdepth r < sdepth s)%nat.
Proof.
  intros E H. by_part (depth_many (Schema.anyOf s)).
  rewrite E. apply (foldr_max_le rdepth). exact H.
Qed.
Lemma depth_oneOf s l r :
  Schema.oneOf s = Some l -> In r l -> (rdepth r < sdepth s)%nat.
Proof.
  intros E H. by_part (depth_many (Schema.oneOf s)).
  rewrite E. apply (foldr_max_le rdepth). exact H.
Qed.
Lemma depth_if s r : Schema.if_ s = Some r -> (rdepth r < sdepth s)%nat.
Proof. intros E. by_part (depth_one (Schema.if_ s)). rewrite E. apply Nat.le_refl. Qed.
Lemma depth_then s r : Schema.then_ s = Some r -> (rdepth r < sdepth s)%nat.
Proof. intros E. by_part (depth_one (Schema.then_ s)). rewrite E. apply Nat.le_refl. Qed.
Lemma depth_else s r : Schema.else_ s = Some r -> (rdepth r < sdepth s)%nat.
Proof. intros E. by_part (depth_one (Schema.else_ s)). rewrite E. apply Nat.le_refl. Qed.
Lemma depth_item s r :
  Schema.items s = Some (ItemSchema r) -> (rdepth r < sdepth s)%nat.
Proof.
  intros E. by_part (depth_items_of (Schema.items s)). rewrite E. apply Nat.le_refl.
Qed.
Lemma depth_items s l r :
  Schema.items s = Some (ItemSchemas l) -> In r l -> (rdepth r < sdepth s)%nat.
Proof.
  intros E H. by_part (depth_items_of (Schema.items s)).
  rewrite E. apply (foldr_max_le rdepth). exact H.
Qed.
Lemma depth_additionalItems s r :
  Schema.additionalItems s = Some r -> (rdepth r < sdepth s)%nat.
Proof.
  intros E. by_part (depth_one (Schema.additionalItems s)). rewrite E. apply Nat.le_refl.
Qed.
Lemma depth_contains s r : Schema.contains s = Some r -> (rdepth r < sdepth s)%nat.
Proof.
  intros E. by_part (depth_one (Schema.contains s)). rewrite E. apply Nat.le_refl.
Qed.
Lemma depth_properties s l k r :
  Schema.properties s = Some l -> In (k, r) l -> (rdepth r < sdepth s)%nat.
Proof.
  intros E H. by_part (depth_named (Schema.properties s)). rewrite E.
  apply (foldr_max_le (fun kx : string * JSONSchemaRef => let '(_, x) := kx in rdepth x)
           (k, r)).
  exact H.
Qed.
Lemma depth_patternProperties s l k r :
  Schema.patternProperties s = Some l -> In (k, r) l -> (rdepth r < sdepth s)%nat.
Proof.
  intros E H. by_part (depth_named (Schema.patternProperties s)). rewrite E.
  apply (foldr_max_le (fun kx : string * JSONSchemaRef => let '(_, x) := kx in rdepth x)
           (k, r)).
  exact H.
Qed.
Lemma depth_additionalProperties s r :
  Schema.additionalProperties s = Some r -> (rdepth r < sdepth s)%nat.
Proof.
  intros E. by_part (depth_one (Schema.additionalProperties s)).
  rewrite E. apply Nat.le_refl.
Qed.
Lemma depth_dependencies s l k r :
  Schema.dependencies s = Some l -> In (k, DependencySchema r) l ->
  (rdepth r < sdepth s)%nat.
Proof.
  intros E H. by_part (depth_dependencies_of (Schema.dependencies s)). rewrite E.
  apply (foldr_max_le
           (fun kd : string * DependencyOf JSONSchemaRef =>
              match kd with
              | (_, DependencySchema x) => rdepth x
              | (_, DependencyNames _) => O
              end) (k, DependencySchema r)).
  exact H.
Qed.
Lemma depth_propertyNames s r :
  Schema.propertyNames s = Some r -> (rdepth r < sdepth s)%nat.
Proof.
  intros E. by_part (depth_one (Schema.propertyNames s)). rewrite E. apply Nat.le_refl.
Qed.

(** *** The depth of the parts of a node *)

Lemma lookup_In {A : Type} (l : list A) (i : nat) (x : A) : l !! i = Some x -> In x l.
Proof. intros H. apply list_elem_of_In. eapply list_elem_of_lookup_2. exact H. Qed.

Lemma In_drop {A : Type} (n : nat) (l : list A) (x : A) : In x (drop n l) -> In x l.
Proof.
  intros H. apply list_elem_of_In in H. apply list_elem_of_In.
  eapply (subseteq_drop n l). exact H.
Qed.

Lemma In_zip_r {A B : Type} (l1 : list A) (l2 : list B) (a : A) (b : B) :
  In (a, b) (zip l1 l2) -> In b l2.
Proof.
  revert l2. induction l1 as [| x l1 IH]; intros [| y l2]; simpl; try tauto.
  intros [[= _ <-] | H]; [left; reflexivity | right; eapply IH; exact H].
Qed.

Lemma item_ndepth (base : Base.t) (items : list ASTNode) (item : ASTNode) :
  In item items -> (ndepth item < ndepth (ArrayASTNode base items))%nat.
Proof. intros H. apply (foldr_max_le ndepth) in H. simpl. lia. Qed.

Lemma value_ndepth (base : Base.t) (properties : list PropertyASTNodeImpl)
  (p : PropertyASTNodeImpl) (child : ASTNode) :
  In p properties -> valueNode p = Some child ->
  (ndepth child < ndepth (ObjectASTNode base properties))%nat.
Proof.
  intros H E.
  apply (foldr_max_le
           (fun p => S (match valueNode p with Some v => ndepth v | None => O end))) in H.
  rewrite E in H. simpl. lia.
Qed.

Lemma seen_insert (seenKeys : gmap string (option ASTNode)) (key name : string)
  (value : option ASTNode) :
  seen (<[key := value]> seenKeys) name
  = if decide (key = name) then value else seen seenKeys name.
Proof. unfold seen. rewrite lookup_insert. destruct (decide (key = name)); reflexivity. Qed.

(** The value nodes [collectKeys] keeps are value nodes of the
    properties. *)
Lemma collectKeys_seen (properties : list PropertyASTNodeImpl)
  (seenKeys : gmap string (option ASTNode)) (unprocessed : list string)
  (name : string) (child : ASTNode) :
  collectKeys properties = Ok (seenKeys, unprocessed) ->
  seen seenKeys name = Some child ->
  exists p, In p properties /\ valueNode p = Some child.
Proof.
  unfold collectKeys. intros Hrun.
  revert name child.
  change (let P := fun acc : gmap string (option ASTNode) * list string =>
                     forall name child,
                       seen (fst acc) name = Some child ->
                       exists p, In p properties /\ valueNode p = Some child in
          P (seenKeys, unprocessed)).
  intros P. eapply (forEach_invariant P); [| | exact Hrun].
  - intros p [sk u] acc' Hp Hacc. subst P. simpl in *.
    destruct (valueNode p) as [value |] eqn:Ev.
    + destruct (String.eqb (string_value (keyNode p)) "<<").
      * destruct value; intros [= <-]; try discriminate; exact Hacc.
      * intros [= <-]. simpl. intros name child. rewrite seen_insert.
        destruct (decide _); [intros [= <-]; eauto | apply Hacc].
    + intros [= <-]. simpl. intros name child. rewrite seen_insert.
      destruct (decide _); [discriminate | apply Hacc].
  - subst P. simpl. intros name child. unfold seen. rewrite lookup_empty. discriminate.
Qed.

Lemma seen_ndepth (base : Base.t) (properties : list PropertyASTNodeImpl)
  (seenKeys : gmap string (option ASTNode)) (unprocessed : list string)
  (name : string) (child : ASTNode) :
  collectKeys properties = Ok (seenKeys, unprocessed) ->
  seen seenKeys name = Some child ->
  (ndepth child < ndepth (ObjectASTNode base properties))%nat.
Proof.
  intros Hrun Hseen.
  destruct (collectKeys_seen _ _ _ _ _ Hrun Hseen) as (p & Hp & Ev).
  eapply value_ndepth; eassumption.
Qed.


(** *** The walk through the validators *)

Ltac learn H :=
  let T := type of H in
  lazymatch goal with
  | _ : T |- _ => fail
  | _ => pose proof H
  end.

Ltac depth_facts :=
  repeat match goal with
         | H : asSchema_opt _ = Some _ |- _ =>
             apply asSchema_opt_Some in H; destruct H as (? & ? & ->)
         end;
  repeat match goal with
         | H : In (_, _) (zip _ _) |- _ => apply In_zip_r in H
         | H : In _ (drop _ _) |- _ => apply In_drop in H
         | H : _ !! _ = Some _ |- _ => apply lookup_In in H
         end;
  repeat match goal with
         | |- context [asSchema ?r] => learn (sdepth_asSchema r)
         | E : Schema.allOf ?s = Some ?l, H : In ?r ?l |- _ => learn (depth_allOf s l r E H)
         | E : Schema.not ?s = Some ?r |- _ => learn (depth_not s r E)
         | E : Schema.anyOf ?s = Some ?l, H : In ?r ?l |- _ => learn (depth_anyOf s l r E H)
         | E : Schema.oneOf ?s = Some ?l, H : In ?r ?l |- _ => learn (depth_oneOf s l r E H)
         | E : Schema.if_ ?s = Some ?r |- _ => learn (depth_if s r E)
         | E : Schema.then_ ?s = Some ?r |- _ => learn (depth_then s r E)
         | E : Schema.else_ ?s = Some ?r |- _ => learn (depth_else s r E)
         | E : Schema.items ?s = Some (ItemSchema ?r) |- _ => learn (depth_item s r E)
         | E : Schema.items ?s = Some (ItemSchemas ?l), H : In ?r ?l |- _ =>
             learn (depth_items s l r E H)
         | E : Schema.additionalItems ?s = Some ?r |- _ =>
             learn (depth_additionalItems s r E)
         | E : Schema.contains ?s = Some ?r |- _ => learn (depth_contains s r E)
         | E : Schema.properties ?s = Some ?l, H : In (?k, ?r) ?l |- _ =>
             learn (depth_properties s l k r E H)
         | E : Schema.patternProperties ?s = Some ?l, H : In (?k, ?r) ?l |- _ =>
             learn (depth_patternProperties s l k r E H)
         | E : Schema.additionalProperties ?s = Some ?r |- _ =>
             learn (depth_additionalProperties s r E)
         | E : Schema.dependencies ?s = Some ?l, H : In (?k, DependencySchema ?r) ?l |- _ =>
             learn (depth_dependencies s l k r E H)
         | E : Schema.propertyNames ?s = Some ?r |- _ => learn (depth_propertyNames s r E)
         | H : In ?item ?items |- context [ArrayASTNode ?b ?items] =>
             learn (item_ndepth b items item H)
         | H : In ?item ?items, _ : context [ArrayASTNode ?b ?items] |- _ =>
             learn (item_ndepth b items item H)
         | E : collectKeys ?ps = Ok (?sk, ?u), H : seen ?sk ?name = Some ?child,
           _ : context [ObjectASTNode ?b ?ps] |- _ =>
             learn (seen_ndepth b ps sk u name child E H)
         end.

Ltac depth :=
  depth_facts;
  change (rdepth (SchemaObj ?s)) with (sdepth s) in *;
  change (ndepth (StringASTNode ?s)) with O in *;
  lia.

Ltac walk_with helper :=
  repeat first
    [ helper
    | match goal with
      | |- returns (Ok _) => apply returns_Ok
      | |- returns (Throw _) => apply returns_Throw
      | |- returns (bind _ _) => apply returns_bind; [| intros ? ?]
      | |- returns (forEach _ _ _) => apply returns_forEach; intros ? ? ?
      | |- returns (some _ _) => apply returns_some; intros ? ?
      | |- returns (match ?x with _ => _ end) => destruct x eqn:?
      end
    | progress cbv beta zeta ].

Section Returns.

Context (host : Host) (v : Validator) (f : nat).
Hypothesis Hv :
  forall nots n s vr ms,
    (ndepth n + sdepth s <= f)%nat -> returns (v nots (Some n) s vr ms).

Ltac call :=
  idtac;
  match goal with
  | |- returns (v _ (Some _) _ _ _) => apply Hv
  end.
Ltac walk := walk_with call.

Lemma validateInto_returns nots child schema st :
  (ndepth child + sdepth schema <= f)%nat ->
  returns (validateInto v nots child schema st).
Proof. intros Hd. unfold validateInto. walk. exact Hd. Qed.

Lemma disallowedExtraProp_returns schema child propertyName validationResult :
  returns (disallowedExtraProp schema child propertyName validationResult).
Proof. unfold disallowedExtraProp, keyNodeOfParent. walk. Qed.

Lemma collectKeys_returns properties : returns (collectKeys properties).
Proof. unfold collectKeys. walk. Qed.

Ltac helpers :=
  idtac;
  match goal with
  | |- returns (validateInto _ _ _ _ _) => apply validateInto_returns
  | |- returns (disallowedExtraProp _ _ _ _) => apply disallowedExtraProp_returns
  | |- returns (collectKeys _) => apply collectKeys_returns
  | |- returns (v _ (Some _) _ _ _) => apply Hv
  end.

Lemma validateProperty_returns nots schema propertyName propertySchema child st :
  (ndepth child + rdepth propertySchema <= f)%nat ->
  returns (validateProperty v nots schema propertyName propertySchema child st).
Proof.
  intros Hd. unfold validateProperty.
  walk_with helpers. exact Hd.
Qed.


Lemma validateItems_returns nots base items schema st :
  (ndepth (ArrayASTNode base items) + sdepth schema <= S f)%nat ->
  returns (validateItems v nots (ArrayASTNode base items) items schema st).
Proof.
  intros Hd. unfold validateItems.
  walk_with helpers.
  all: depth.
Qed.

Lemma _validateArrayNode_returns nots base items schema st :
  (ndepth (ArrayASTNode base items) + sdepth schema <= S f)%nat ->
  returns (_validateArrayNode v nots (ArrayASTNode base items) items schema st).
Proof.
  intros Hd. unfold _validateArrayNode.
  walk_with ltac:(idtac;
                  match goal with
                  | |- returns (validateItems _ _ _ _ _ _) =>
                      apply validateItems_returns; exact Hd
                  end).
Qed.

Lemma _validateObjectNode_returns nots base properties schema st :
  (ndepth (ObjectASTNode base properties) + sdepth schema <= S f)%nat ->
  returns (_validateObjectNode host v nots (ObjectASTNode base properties) properties
             schema st).
Proof.
  intros Hd. unfold _validateObjectNode.
  walk_with ltac:(first [helpers
                        | match goal with
                          | |- returns (validateProperty _ _ _ _ _ _ _) =>
                              apply validateProperty_returns
                          end]).
  all: depth.
Qed.


Lemma testBranch_returns nots node schema st :
  (ndepth node + sdepth schema <= f)%nat ->
  returns (testBranch v nots node schema st).
Proof. intros Hd. unfold testBranch. walk. exact Hd. Qed.

Lemma testCondition_returns nots node ifSchema thenSchema elseSchema st :
  (ndepth node + sdepth ifSchema <= f)%nat ->
  (forall s, thenSchema = Some s -> (ndepth node + sdepth s <= f)%nat) ->
  (forall s, elseSchema = Some s -> (ndepth node + sdepth s <= f)%nat) ->
  returns (testCondition v nots node ifSchema thenSchema elseSchema st).
Proof.
  intros Hif Hthen Helse. unfold testCondition.
  walk_with ltac:(first [helpers
                        | match goal with
                          | |- returns (testBranch _ _ _ _ _) => apply testBranch_returns
                          end]).
  - exact Hif.
  - apply Hthen. reflexivity.
  - apply Helse. reflexivity.
Qed.

Lemma testAlternatives_returns nots node alternatives maxOneMatch st :
  (forall r, In r alternatives -> (ndepth node + sdepth (asSchema r) <= f)%nat) ->
  returns (testAlternatives v nots node alternatives maxOneMatch st).
Proof.
  intros Hd. unfold testAlternatives. walk.
  apply Hd. assumption.
Qed.

Lemma _validateNode_returns nots node schema st :
  (ndepth node + sdepth schema <= S f)%nat ->
  returns (_validateNode v nots node schema st).
Proof.
  intros Hd. unfold _validateNode.
  walk_with ltac:(first [helpers
                        | match goal with
                          | |- returns (testAlternatives _ _ _ _ _ _) =>
                              apply testAlternatives_returns; intros ? ?
                          | |- returns (testCondition _ _ _ _ _ _ _) =>
                              apply testCondition_returns; [| intros ? ? | intros ? ?]
                          end]).
  all: depth.
Qed.

End Returns.

Lemma validate_returns (host : Host) (fuel : nat) :
  forall nots node schema validationResult matchingSchemas,
    (ndepth_opt node + sdepth schema <= fuel)%nat ->
    returns (validate host fuel nots node schema validationResult matchingSchemas).
Proof.
  induction fuel as [| fuel IH]; intros nots node schema vr ms Hd.
  - assert (0 < sdepth schema)%nat by (unfold sdepth; simpl; lia). lia.
  - destruct node as [node |]; simpl; [| apply returns_Ok].
    destruct (Collector.include ms node); simpl; [| apply returns_Ok].
    assert (Hv : forall nots n s vr ms,
               (ndepth n + sdepth s <= fuel)%nat ->
               returns (validate host fuel nots (Some n) s vr ms))
      by (intros; apply IH; assumption).
    simpl in Hd.
    destruct node as [| | b items | | | p | b properties].
    all: try (apply returns_bind;
              [| intros [? ?] _; apply returns_bind;
                 [apply (_validateNode_returns (validate host fuel) fuel Hv); exact Hd
                 | intros [? ?] _; apply returns_Ok]]).
    all: try apply returns_Ok.
    + apply (_validateArrayNode_returns (validate host fuel) fuel Hv). exact Hd.
    + apply returns_bind; [| intros; apply returns_Ok].
      unfold _validateStringNode.
      walk_with fail.
    + apply IH. revert Hd. simpl. destruct (valueNode p); simpl; lia.
    + apply (_validateObjectNode_returns host (validate host fuel) fuel Hv). exact Hd.
Qed.


(** ** Regular expressions that do not compile *)

Lemma throws_of_fails {A : Type} (o : outcome A) : returns o -> fails o -> throws o.
Proof.
  intros Hr Hf. destruct o as [a | e |].
  - contradiction (Hf a). reflexivity.
  - exists e. reflexivity.
  - contradiction Hr. reflexivity.
Qed.

Lemma fails_bind_l {A B : Type} (m : outcome A) (k : A -> outcome B) :
  fails m -> fails (bind m k).
Proof. intros H b. destruct m as [a | |]; simpl; try discriminate. contradiction (H a). reflexivity. Qed.

Lemma fails_bind_r {A B : Type} (m : outcome A) (k : A -> outcome B) :
  (forall a, fails (k a)) -> fails (bind m k).
Proof. intros H b. destruct m as [a | |]; simpl; try discriminate. apply H. Qed.

Lemma fails_forEach {A S : Type} (xs : list A) (body : A -> S -> outcome S) (x : A) :
  In x xs -> (forall s, fails (body x s)) -> forall s, fails (forEach xs body s).
Proof.
  induction xs as [| y xs IH]; simpl; [tauto |].
  intros [-> | Hin] Hx s.
  - apply fails_bind_l, Hx.
  - apply fails_bind_r. intros s'. apply IH; assumption.
Qed.

Lemma _validateObjectNode_fails (host : Host) (validate : Validator) (nots : nat)
  (node : ASTNode) (properties : list PropertyASTNodeImpl) (schema : JSONSchema)
  (st : State) (patterns : list (string * JSONSchemaRef)) (pattern : string)
  (propertySchema : JSONSchemaRef) :
  Schema.patternProperties schema = Some patterns ->
  In (pattern, propertySchema) patterns ->
  RegExp host pattern = None ->
  fails (_validateObjectNode host validate nots node properties schema st).
Proof.
  intros Hpp Hin Hbad. unfold _validateObjectNode.
  apply fails_bind_r. intros [seenKeys unprocessed]. cbv zeta.
  apply fails_bind_r. intros [unprocessed' st'].
  apply fails_bind_l. rewrite Hpp.
  apply (fails_forEach _ _ (pattern, propertySchema) Hin).
  intros acc a. rewrite Hbad. discriminate.
Qed.


(** C4, as the code has it.  A regular expression that does not compile
    is not skipped: the SyntaxError of [new RegExp] leaves [validate].
    On a string node under a schema with such a [pattern], [validate]
    throws that error; on an object node under a schema one of whose
    [patternProperties] keys is such a pattern, [validate] throws (that
    error or one raised before it).  No problems are delivered. *)
Theorem invalid_regex_throws (host : Host) :
  (forall fuel nots node schema validationResult matchingSchemas pattern,
      Schema.pattern schema = Some pattern ->
      RegExp host pattern = None ->
      Collector.include matchingSchemas (StringASTNode node) = true ->
      validate host (S fuel) nots (Some (StringASTNode node)) schema validationResult
        matchingSchemas
      = Throw (SyntaxError pattern))
  /\ (forall fuel nots base properties schema validationResult matchingSchemas
        patterns pattern propertySchema,
        Schema.patternProperties schema = Some patterns ->
        In (pattern, propertySchema) patterns ->
        RegExp host pattern = None ->
        Collector.include matchingSchemas (ObjectASTNode base properties) = true ->
        (ndepth (ObjectASTNode base properties) + sdepth schema <= fuel)%nat ->
        throws (validate host fuel nots (Some (ObjectASTNode base properties)) schema
                  validationResult matchingSchemas)).
Proof.
  split.
  - intros fuel nots node schema vr ms pattern Hp Hbad Hinc.
    simpl. rewrite Hinc. simpl. unfold _validateStringNode.
    rewrite Hp, Hbad. reflexivity.
  - intros fuel nots base properties schema vr ms patterns pattern propertySchema
      Hpp Hin Hbad Hinc Hd.
    apply throws_of_fails.
    + apply validate_returns. exact Hd.
    + destruct fuel as [| fuel].
      * simpl. rewrite Hinc. discriminate.
      * simpl. rewrite Hinc. simpl.
        apply fails_bind_l. eapply _validateObjectNode_fails; eassumption.
Qed.

Lemma invalid_regex_throws_witness :
  validate sampleHost 1 0 (Some (StringASTNode abc)) badPattern ValidationResult.new
    NoOpSchemaCollector
  = Throw (SyntaxError "(")
  /\ throws (validate sampleHost 3 0 (Some emptyObject) badPatternProperties
               ValidationResult.new NoOpSchemaCollector).
Proof.
  split.
  - apply (proj1 (invalid_regex_throws sampleHost) 0%nat 0%nat abc badPattern
             ValidationResult.new NoOpSchemaCollector "("); reflexivity.
  - apply (proj2 (invalid_regex_throws sampleHost) 3%nat 0%nat (Base.mk 0 0 2 None) []
             badPatternProperties ValidationResult.new NoOpSchemaCollector
             [("(", SchemaObj Schema.empty)] "(" (SchemaObj Schema.empty)).
    + reflexivity.
    + left. reflexivity.
    + reflexivity.
    + reflexivity.
    + vm_compute. lia.
Defined.

(** The engine rejects [(], and validating ["abc"] against
    [{pattern: "("}] throws instead of returning diagnostics. *)
Lemma invalid_pattern_is_thrown :
  RegExp sampleHost "(" = None
  /\ Document.validate sampleHost (newJSONDocument (Some (StringASTNode abc)) []) oneLine
       (Some badPattern)
     = Throw (SyntaxError "(").
Proof. split; vm_compute; reflexivity. Qed.


(** ** Records and the [not] keywords around them *)

Lemma consistent_NoOp (k : nat) : consistent k NoOpSchemaCollector.
Proof. constructor. Qed.

Lemma consistent_newSub (k : nat) (ms : ISchemaCollector) :
  consistent k (Collector.newSub ms).
Proof. destruct ms; constructor. Qed.

Lemma consistent_add (k : nat) (ms : ISchemaCollector) (r : IApplicableSchema) :
  consistent k ms -> (k <= crossed r)%nat -> inverted r = flips (crossed r - k) ->
  consistent k (Collector.add ms r).
Proof.
  unfold consistent. destruct ms as [focusOffset exclude schemas |]; simpl; [| constructor].
  intros H Hk Hi. apply Forall_app. split; [exact H |].
  constructor; [split; assumption | constructor].
Qed.

Lemma consistent_merge (k : nat) (ms other : ISchemaCollector) :
  consistent k ms -> consistent k other -> consistent k (Collector.merge ms other).
Proof.
  unfold consistent. destruct ms as [focusOffset exclude schemas |]; simpl; [| constructor].
  intros H Ho. apply Forall_app. split; assumption.
Qed.

Lemma flips_flip (r : IApplicableSchema) (k : nat) :
  (S k <= crossed r)%nat -> inverted r = flips (crossed r - S k) ->
  inverted (flip r) = flips (crossed (flip r) - k).
Proof.
  intros Hk Hi. simpl. rewrite Hi.
  replace (crossed r - k)%nat with (S (crossed r - S k)) by lia.
  generalize (crossed r - S k)%nat. intros d.
  unfold flips at 2. rewrite Nat.odd_succ, <- Nat.negb_odd.
  destruct d as [| d]; reflexivity.
Qed.

Lemma consistent_flip_all (k : nat) (sub : list IApplicableSchema)
  (ms : ISchemaCollector) :
  consistent k ms ->
  Forall (fun r => (S k <= crossed r)%nat /\ inverted r = flips (crossed r - S k)) sub ->
  consistent k
    (fold_left (fun matchingSchemas r => Collector.add matchingSchemas (flip r)) sub ms).
Proof.
  revert ms. induction sub as [| r sub IH]; intros ms Hms Hsub; simpl; [exact Hms |].
  inversion Hsub as [| ? ? [Hk Hi] Hrest]; subst.
  apply IH; [| exact Hrest].
  apply consistent_add; [exact Hms | simpl; lia | apply flips_flip; assumption].
Qed.

Lemma post_Ok {A : Type} (P : A -> Prop) (a : A) : P a -> post P (Ok a).
Proof. intros H. exact H. Qed.

Lemma post_bind {A B : Type} (Q : A -> Prop) (P : B -> Prop) (m : outcome A)
  (k : A -> outcome B) :
  post Q m -> (forall a, Q a -> post P (k a)) -> post P (bind m k).
Proof. destruct m as [a | e |]; simpl; auto. Qed.

Lemma post_forEach {A S : Type} (I : S -> Prop) (xs : list A)
  (body : A -> S -> outcome S) :
  (forall x s, In x xs -> I s -> post I (body x s)) ->
  forall s, I s -> post I (forEach xs body s).
Proof.
  induction xs as [| x xs IH]; intros Hbody s Hs; simpl; [exact Hs |].
  apply (post_bind I).
  - apply Hbody; [left; reflexivity | exact Hs].
  - intros s' Hs'. apply IH; [| exact Hs'].
    intros y t Hy. apply Hbody. right. exact Hy.
Qed.

Lemma keeps_Ok {A : Type} `{Held A} (k : nat) (a : A) : held k a -> keeps k (Ok a).
Proof. intros Ha. exact Ha. Qed.

Lemma keeps_Throw {A : Type} `{Held A} (k : nat) (e : Exception) : keeps k (@Throw A e).
Proof. exact I. Qed.

Lemma keeps_bind {A B : Type} `{Held A} `{Held B} (k : nat) (m : outcome A)
  (f : A -> outcome B) :
  keeps k m -> (forall a, held k a -> keeps k (f a)) -> keeps k (bind m f).
Proof. apply post_bind. Qed.

Lemma keeps_forEach {A S : Type} `{Held S} (k : nat) (xs : list A)
  (body : A -> S -> outcome S) (s : S) :
  (forall x s, In x xs -> held k s -> keeps k (body x s)) ->
  held k s -> keeps k (forEach xs body s).
Proof. intros Hbody Hs. apply post_forEach; assumption. Qed.

(** Nothing to keep when the value holds no collector. *)
Lemma keeps_any {A : Type} `{Held A} (k : nat) (o : outcome A) :
  (forall a, held k a) -> keeps k o.
Proof. intros Hall. destruct o; simpl; auto. Qed.

Ltac held_simpl :=
  unfold held, held_State, held_unprocessed, held_best, held_result, held_bool,
    held_keys in *;
  simpl in *.

Ltac consistency :=
  held_simpl;
  repeat match goal with
         | H : _ /\ _ |- _ => destruct H
         | p : _ * _ |- _ => destruct p
         end;
  held_simpl;
  auto using consistent_NoOp, consistent_newSub, consistent_merge.

Ltac keep_with helper :=
  repeat first
    [ helper
    | match goal with
      | |- @keeps ValidationResult _ _ _ => apply keeps_any; intros ?; exact I
      | |- @keeps bool _ _ _ => apply keeps_any; intros ?; exact I
      | |- @keeps (gmap string (option ASTNode) * list string) _ _ _ =>
          apply keeps_any; intros ?; exact I
      | |- @keeps _ _ _ (Throw _) => apply keeps_Throw
      | |- @keeps _ _ _ (Ok _) => apply keeps_Ok
      | |- @keeps _ _ _ (bind _ _) => apply keeps_bind; [| intros ? ?]
      | |- @keeps _ _ _ (forEach _ _ _) => apply keeps_forEach; [intros ? ? ? ? |]
      | |- @keeps _ _ _ (match ?x with _ => _ end) => destruct x eqn:?
      end
    | progress cbv beta zeta ].

Section Keeps.

Context (host : Host) (v : Validator).
Hypothesis Hv :
  forall nots n s vr ms, consistent nots ms -> keeps nots (v nots n s vr ms).

Ltac call :=
  idtac;
  match goal with
  | |- @keeps _ _ _ (v _ _ _ _ _) => apply Hv
  end.

Lemma validateInto_keeps nots child schema st :
  held nots st -> keeps nots (validateInto v nots child schema st).
Proof.
  intros Hst. unfold validateInto. keep_with call. all: consistency.
Qed.


Lemma validateProperty_keeps nots schema propertyName propertySchema child st :
  held nots st ->
  keeps nots (validateProperty v nots schema propertyName propertySchema child st).
Proof.
  intros Hst. unfold validateProperty, disallowedExtraProp.
  keep_with ltac:(first [apply validateInto_keeps | apply (keeps_any (A := ValidationResult))]).
  all: consistency.
Qed.


Lemma validateItems_keeps nots node items schema st :
  held nots st -> keeps nots (validateItems v nots node items schema st).
Proof.
  intros Hst. unfold validateItems.
  keep_with ltac:(apply validateInto_keeps).
  all: consistency.
Qed.

Lemma _validateArrayNode_keeps nots node items schema st :
  held nots st -> keeps nots (_validateArrayNode v nots node items schema st).
Proof.
  intros Hst. unfold _validateArrayNode.
  keep_with ltac:(apply validateItems_keeps).
  all: consistency.
Qed.

Lemma snd_fold_left {A : Type} (step : State -> A -> State) (xs : list A) (st : State) :
  (forall st x, snd (step st x) = snd st) -> snd (fold_left step xs st) = snd st.
Proof.
  intros Hstep. revert st. induction xs as [| x xs IH]; intros st; simpl; [reflexivity |].
  rewrite IH. apply Hstep.
Qed.

Ltac pure_steps :=
  held_simpl;
  repeat match goal with
         | |- context [match ?x with _ => _ end] => destruct x
         end;
  repeat match goal with
         | |- context [fold_left ?step ?xs ?st] =>
             rewrite (snd_fold_left step xs st)
               by (intros [? ?] ?; simpl;
                   repeat match goal with
                          | |- context [match ?x with _ => _ end] => destruct x
                          end;
                   reflexivity)
         end;
  consistency.

Lemma _validateObjectNode_keeps nots node properties schema st :
  held nots st ->
  keeps nots (_validateObjectNode host v nots node properties schema st).
Proof.
  intros Hst. unfold _validateObjectNode.
  keep_with ltac:(first [apply validateInto_keeps | apply validateProperty_keeps]).
  all: try solve [consistency].
  all: pure_steps.
Qed.

Lemma testBranch_keeps nots node schema st :
  held nots st -> keeps nots (testBranch v nots node schema st).
Proof.
  intros Hst. unfold testBranch. keep_with call. all: consistency.
Qed.

Lemma testCondition_keeps nots node ifSchema thenSchema elseSchema st :
  held nots st ->
  keeps nots (testCondition v nots node ifSchema thenSchema elseSchema st).
Proof.
  intros Hst. unfold testCondition.
  keep_with ltac:(first [apply testBranch_keeps | call]).
  all: consistency.
Qed.

Lemma testAlternatives_keeps nots node alternatives maxOneMatch st :
  held nots st ->
  keeps nots (testAlternatives v nots node alternatives maxOneMatch st).
Proof.
  intros Hst. unfold testAlternatives. keep_with call.
  all: consistency.
Qed.

(** Under [not] the records are made one level further in, and come out
    flipped. *)
Lemma keeps_bind_not {B : Type} `{Held B} (k : nat) (m : outcome State)
  (f : State -> outcome B) :
  keeps (S k) m -> (forall a, consistent (S k) (snd a) -> keeps k (f a)) ->
  keeps k (bind m f).
Proof. apply post_bind. Qed.

Lemma _validateNode_keeps nots node schema st :
  held nots st -> keeps nots (_validateNode v nots node schema st).
Proof.
  intros Hst. unfold _validateNode.
  keep_with
    ltac:(first
            [ apply testAlternatives_keeps
            | apply testCondition_keeps
            | call
            | match goal with
              | |- @keeps _ _ ?k (bind (v (S ?k) _ _ _ _) _) =>
                  apply keeps_bind_not; [apply Hv; apply consistent_newSub | intros ? ?]
              end ]).
  all: try solve [consistency].
  all: try solve [pure_steps].
  held_simpl. apply consistent_flip_all; assumption.
Qed.

End Keeps.

Lemma validate_keeps (host : Host) (fuel : nat) :
  forall nots node schema validationResult matchingSchemas,
    consistent nots matchingSchemas ->
    keeps nots (validate host fuel nots node schema validationResult matchingSchemas).
Proof.
  induction fuel as [| fuel IH]; intros nots node schema vr ms Hms.
  - destruct node as [node |]; simpl; [| exact Hms].
    destruct (Collector.include ms node); simpl; [exact I | exact Hms].
  - destruct node as [node |]; simpl; [| exact Hms].
    destruct (Collector.include ms node); simpl; [| exact Hms].
    destruct node as [| | b items | | | p | b properties]; try (apply IH; exact Hms).
    all: apply keeps_bind;
      [| intros st Hst; apply keeps_bind;
         [apply (_validateNode_keeps (validate host fuel) IH); exact Hst
         | intros [vr' ms'] Hst'; apply keeps_Ok; held_simpl;
           apply consistent_add;
           [exact Hst' | simpl; lia | simpl; rewrite Nat.sub_diag; reflexivity]]].
    + apply keeps_Ok. exact Hms.
    + apply keeps_Ok. exact Hms.
    + apply (_validateArrayNode_keeps (validate host fuel) IH). exact Hms.
    + apply keeps_Ok. exact Hms.
    + apply keeps_bind; [apply keeps_any; intros ?; exact I |].
      intros ? _. apply keeps_Ok. exact Hms.
    + apply (_validateObjectNode_keeps host (validate host fuel) IH). exact Hms.
Qed.

Lemma flips_true (n : nat) : flips n = Some true <-> Nat.odd n = true.
Proof.
  destruct n as [| n]; simpl.
  - split; discriminate.
  - split; [intros [= H]; exact H | intros H; f_equal; exact H].
Qed.

(** C5.  [getMatchingSchemas] returns or throws, and in every record of
    the list it returns [inverted] is true exactly when the number of
    [not] keywords crossed on the way from the root schema to the
    record's schema is odd. *)
Theorem inverted_iff_odd_nots (host : Host) (this : JSONDocument)
  (schema : option JSONSchema) (focusOffset : Z) (exclude : option ASTNode) :
  returns (Document.getMatchingSchemas host this schema focusOffset exclude)
  /\ forall records,
       Document.getMatchingSchemas host this schema focusOffset exclude = Ok records ->
       forall r, In r records -> (inverted r = Some true <-> Nat.odd (crossed r) = true).
Proof.
  unfold Document.getMatchingSchemas.
  destruct (root this) as [r0 |]; [destruct schema as [s |] |].
  2, 3: split; [discriminate | intros records [= <-] r []].
  pose proof (validate_returns host (enough r0 s) O (Some r0) s ValidationResult.new
                (SchemaCollector focusOffset exclude [])) as Hret.
  pose proof (validate_keeps host (enough r0 s) O (Some r0) s ValidationResult.new
                (SchemaCollector focusOffset exclude [])) as Hkeep.
  destruct (validate host (enough r0 s) O (Some r0) s ValidationResult.new
              (SchemaCollector focusOffset exclude [])) as [[vr ms] | e |]; simpl.
  - split; [discriminate |]. intros records [= <-] r Hr.
    assert (Hc : consistent 0 ms) by (apply Hkeep; constructor).
    unfold consistent in Hc. rewrite Forall_forall in Hc.
    destruct (Hc r) as [_ Hi]; [apply list_elem_of_In; exact Hr |].
    rewrite Hi, Nat.sub_0_r. apply flips_true.
  - split; discriminate.
  - exfalso. apply Hret; [unfold enough; simpl; lia | reflexivity].
Qed.

Lemma inverted_iff_odd_nots_witness :
  Document.getMatchingSchemas sampleHost (newJSONDocument (Some five) []) (Some notNot)
    (-1) None
  = Ok [innermostRecord; innerRecord; outerRecord]
  /\ (inverted innerRecord = Some true <-> Nat.odd (crossed innerRecord) = true).
Proof.
  assert (Hrun : Document.getMatchingSchemas sampleHost (newJSONDocument (Some five) [])
                   (Some notNot) (-1) None
                 = Ok [innermostRecord; innerRecord; outerRecord])
    by (vm_compute; reflexivity).
  split; [exact Hrun |].
  apply (proj2 (inverted_iff_odd_nots sampleHost (newJSONDocument (Some five) [])
                  (Some notNot) (-1) None)
           [innermostRecord; innerRecord; outerRecord] Hrun innerRecord).
  right. left. reflexivity.
Defined.


(** * Further properties *)

(** ** Merging validation results *)




Lemma problems_mergeAll (results : list ValidationResult) :
  forall this,
    ValidationResult.problems (ValidationResult.mergeAll this results)
    = (ValidationResult.problems this
       ++ concat (map ValidationResult.problems results))%list.
Proof.
  unfold ValidationResult.mergeAll.
  induction results as [| r results IH]; intros this; simpl.
  - now rewrite app_nil_r.
  - rewrite IH. simpl. now rewrite <- app_assoc.
Qed.

(** X2.  [mergeAll] appends the problems of the results in their order and
    changes nothing else: the scores and the enum fields of the receiver
    stay. *)
Theorem mergeAll_appends (this : ValidationResult) (results : list ValidationResult) :
  let merged := ValidationResult.mergeAll this results in
  ValidationResult.problems merged
  = (ValidationResult.problems this
     ++ concat (map ValidationResult.problems results))%list
  /\ ValidationResult.propertiesMatches merged = ValidationResult.propertiesMatches this
  /\ ValidationResult.propertiesValueMatches merged
     = ValidationResult.propertiesValueMatches this
  /\ ValidationResult.primaryValueMatches merged
     = ValidationResult.primaryValueMatches this
  /\ ValidationResult.enumValueMatch merged = ValidationResult.enumValueMatch this
  /\ ValidationResult.enumValues merged = ValidationResult.enumValues this.
Proof.
  intros merged. subst merged. split; [apply problems_mergeAll |].
  unfold ValidationResult.mergeAll. revert this.
  induction results as [| r results IH]; intros this; simpl.
  - repeat split.
  - destruct (IH (ValidationResult.merge this r)) as (H1 & H2 & H3 & H4 & H5).
    rewrite H1, H2, H3, H4, H5. repeat split.
Qed.

Lemma hasProblems_length (a b : ValidationResult) :
  List.length (ValidationResult.problems a) = List.length (ValidationResult.problems b) ->
  ValidationResult.hasProblems a = ValidationResult.hasProblems b.
Proof. unfold ValidationResult.hasProblems. intros ->. reflexivity. Qed.



(** ** The loop of [propertyProcessed] *)

Lemma indexOf_bounds (prop : string) (names : list string) :
  -1 <= indexOf prop names < Z.of_nat (List.length names).
Proof.
  induction names as [| name rest IH]; simpl; [lia |].
  destruct (String.eqb name prop); [lia |].
  destruct (Z.ltb_spec (indexOf prop rest) 0); lia.
Qed.

Lemma indexOf_absent (prop : string) (names : list string) :
  indexOf prop names < 0 -> propertyProcessed prop names = names.
Proof.
  unfold propertyProcessed.
  induction names as [| name rest IH]; simpl; [reflexivity |].
  destruct (String.eqb name prop); simpl; [lia |].
  destruct (Z.ltb_spec (indexOf prop rest) 0) as [Hlt | Hge]; [| lia].
  intros _. f_equal. apply IH. exact Hlt.
Qed.

Lemma splice1_first (prop : string) (names : list string) :
  0 <= indexOf prop names ->
  propertyProcessed prop (splice1 (indexOf prop names) names)
  = propertyProcessed prop names
  /\ S (List.length (splice1 (indexOf prop names) names)) = List.length names.
Proof.
  unfold propertyProcessed, splice1.
  induction names as [| name rest IH]; simpl; [lia |].
  destruct (String.eqb name prop) eqn:E; simpl.
  - intros _. rewrite drop_0. split; reflexivity.
  - destruct (Z.ltb_spec (indexOf prop rest) 0) as [Hlt | Hge]; [lia |].
    intros _. destruct (IH Hge) as [IHf IHl].
    replace (Z.to_nat (indexOf prop rest + 1)) with (S (Z.to_nat (indexOf prop rest)))
      by lia.
    simpl. rewrite E. simpl. split; [f_equal; exact IHf | f_equal; exact IHl].
Qed.

Lemma propertyProcessed_loop_filter (turns : nat) (prop : string) :
  forall names,
    (List.length names <= turns)%nat ->
    propertyProcessed_loop turns prop names = Some (propertyProcessed prop names).
Proof.
  induction turns as [| turns IH]; intros names Hlen; simpl.
  - destruct names; [reflexivity | simpl in Hlen; lia].
  - destruct (Z.leb_spec 0 (indexOf prop names)) as [Hge | Hlt].
    + destruct (splice1_first prop names Hge) as [Hf Hl].
      rewrite IH by lia. rewrite Hf. reflexivity.
    + rewrite indexOf_absent by lia. reflexivity.
Qed.

(** X4.  The loop of [propertyProcessed] ends after at most one turn per name
    of the list, and leaves the list without any occurrence of the name,
    the other names in their order and number. *)
Theorem propertyProcessed_removes_all (prop : string) (names : list string) :
  exists left,
    propertyProcessed_loop (List.length names) prop names = Some left
    /\ left = propertyProcessed prop names
    /\ ~ In prop left
    /\ left = List.filter (fun name => negb (String.eqb name prop)) names
    /\ indexOf prop left = -1.
Proof.
  exists (propertyProcessed prop names).
  split; [apply propertyProcessed_loop_filter; lia |].
  split; [reflexivity |].
  assert (Hnot : ~ In prop (propertyProcessed prop names)).
  { unfold propertyProcessed. intros H. apply filter_In in H. destruct H as [_ H].
    rewrite String.eqb_refl in H. discriminate. }
  split; [exact Hnot |]. split; [reflexivity |].
  pose proof (indexOf_bounds prop (propertyProcessed prop names)) as Hb.
  destruct (Z.eq_dec (indexOf prop (propertyProcessed prop names)) (-1)) as [-> | Hne];
    [reflexivity |].
  exfalso.
  assert (Hge : 0 <= indexOf prop (propertyProcessed prop names)) by lia.
  clear Hb Hne. revert Hge Hnot.
  induction (propertyProcessed prop names) as [| name rest IH]; simpl; [lia |].
  destruct (String.eqb_spec name prop) as [-> | Hne]; [tauto |].
  destruct (Z.ltb_spec (indexOf prop rest) 0); [lia |].
  intros _ Hnot. apply IH; [lia | tauto].
Qed.

(** ** The keys of an object *)

Lemma seen_insert_eq (seenKeys : gmap string (option ASTNode)) (key name : string)
  (value : option ASTNode) :
  seen (<[key := value]> seenKeys) name
  = if String.eqb key name then value else seen seenKeys name.
Proof.
  rewrite seen_insert.
  destruct (String.eqb_spec key name), (decide (key = name)); congruence.
Qed.

Lemma collectKeys_from (properties : list PropertyASTNodeImpl) :
  forall (seenKeys : gmap string (option ASTNode)) (unprocessed : list string)
         (body : PropertyASTNodeImpl -> gmap string (option ASTNode) * list string
                 -> outcome (gmap string (option ASTNode) * list string)),
    (forall p acc,
        body p acc
        = let '(seenKeys, unprocessedProperties) := acc in
          let key := string_value (keyNode p) in
          match valueNode p with
          | Some value =>
              if String.eqb key "<<" then
                match value with
                | ObjectASTNode _ _ => Throw (TypeError "properties")
                | ArrayASTNode _ _ => Throw (TypeError "items")
                | _ => Ok acc
                end
              else Ok (<[key := Some value]> seenKeys,
                       (unprocessedProperties ++ [key])%list)
          | None => Ok (<[key := None]> seenKeys, (unprocessedProperties ++ [key])%list)
          end) ->
    if existsb merges properties then throws (forEach properties body (seenKeys, unprocessed))
    else
      exists seenKeys',
        forEach properties body (seenKeys, unprocessed)
        = Ok (seenKeys',
              (unprocessed ++ map key_of (List.filter entered properties))%list)
        /\ forall name,
             seen seenKeys' name
             = lastValue name (List.filter entered properties) (seen seenKeys name).
Proof.
  induction properties as [| p ps IH]; intros seenKeys unprocessed body Hbody.
  - exists seenKeys. simpl. rewrite app_nil_r. split; reflexivity.
  - cbn [existsb List.filter forEach]. rewrite Hbody. cbv zeta.
    change (string_value (keyNode p)) with (key_of p).
    destruct (valueNode p) as [value |] eqn:Ev;
      destruct (String.eqb (key_of p) "<<") eqn:Ek.
    + assert (He : entered p = false)
        by (unfold entered; rewrite Ek, Ev; reflexivity).
      rewrite He.
      destruct (merges p) eqn:Em.
      * unfold merges in Em. rewrite Ek, Ev in Em.
        destruct value; try discriminate Em; simpl; eexists; reflexivity.
      * unfold merges in Em. rewrite Ek, Ev in Em.
        destruct value; try discriminate Em; simpl; apply IH; exact Hbody.
    + assert (He : entered p = true) by (unfold entered; rewrite Ek; reflexivity).
      assert (Em : merges p = false) by (unfold merges; rewrite Ek; reflexivity).
      rewrite He, Em. simpl.
      specialize (IH (<[key_of p := Some value]> seenKeys)
                    (unprocessed ++ [key_of p])%list body Hbody).
      destruct (existsb merges ps); [exact IH |].
      destruct IH as (sk & Hrun & Hseen). exists sk.
      rewrite Hrun, <- app_assoc. split; [reflexivity |].
      intros name. rewrite Hseen, seen_insert_eq, Ev. reflexivity.
    + assert (He : entered p = true)
        by (unfold entered; rewrite Ek, Ev; reflexivity).
      assert (Em : merges p = false) by (unfold merges; rewrite Ek, Ev; reflexivity).
      rewrite He, Em. simpl.
      specialize (IH (<[key_of p := None]> seenKeys)
                    (unprocessed ++ [key_of p])%list body Hbody).
      destruct (existsb merges ps); [exact IH |].
      destruct IH as (sk & Hrun & Hseen). exists sk.
      rewrite Hrun, <- app_assoc. split; [reflexivity |].
      intros name. rewrite Hseen, seen_insert_eq, Ev. reflexivity.
    + assert (He : entered p = true) by (unfold entered; rewrite Ek; reflexivity).
      assert (Em : merges p = false) by (unfold merges; rewrite Ek; reflexivity).
      rewrite He, Em. simpl.
      specialize (IH (<[key_of p := None]> seenKeys)
                    (unprocessed ++ [key_of p])%list body Hbody).
      destruct (existsb merges ps); [exact IH |].
      destruct IH as (sk & Hrun & Hseen). exists sk.
      rewrite Hrun, <- app_assoc. split; [reflexivity |].
      intros name. rewrite Hseen, seen_insert_eq, Ev. reflexivity.
Qed.

Lemma collectKeys_spec (properties : list PropertyASTNodeImpl) :
  if existsb merges properties then throws (collectKeys properties)
  else
    exists seenKeys,
      collectKeys properties
      = Ok (seenKeys, map key_of (List.filter entered properties))
      /\ forall name,
           seen seenKeys name = lastValue name (List.filter entered properties) None.
Proof.
  unfold collectKeys.
  match goal with
  | |- context [forEach properties ?body _] =>
      pose proof (collectKeys_from properties ∅ [] body (fun p acc => eq_refl)) as H
  end.
  destruct (existsb merges properties); [exact H |].
  destruct H as (sk & Hrun & Hseen). exists sk. split; [exact Hrun |].
  intros name. rewrite Hseen. unfold seen at 1. rewrite lookup_empty. reflexivity.
Qed.

(** X5.  The first loop of [_validateObjectNode] throws exactly when some
    property is a merge key whose value is an object or an array.
    Otherwise it lists, in order and with repeats, the keys of the
    properties other than merge keys with a value, and looks a name up
    to the value node of the last of those properties with that key: a
    later duplicate overrides an earlier one, also when it has no value
    node. *)
Theorem collectKeys_last_wins (properties : list PropertyASTNodeImpl) :
  if existsb merges properties then throws (collectKeys properties)
  else
    exists seenKeys,
      collectKeys properties
      = Ok (seenKeys, map key_of (List.filter entered properties))
      /\ forall name,
           seen seenKeys name = lastValue name (List.filter entered properties) None.
Proof. apply collectKeys_spec. Qed.


(** ** NaN among the items of an array *)

Lemma lastMatch_none (P : nat -> bool) (a k : nat) (init : Z) :
  (forall j, P j = false) -> lastMatch P a k init = init.
Proof.
  intros H. induction k as [| k IH]; [reflexivity |].
  rewrite lastMatch_S, H. exact IH.
Qed.

Lemma strictEqualsAt_NaN (values : list JSValue) (i j : nat) (x : number) :
  values !! j = Some (JNumber x) -> Number.isNaN x = true ->
  strictEqualsAt values i j = false.
Proof.
  intros Hj Hnan. unfold strictEqualsAt. rewrite Hj.
  destruct (values !! i) as [a |]; [| reflexivity].
  destruct a; try reflexivity.
  destruct x; try discriminate Hnan.
  unfold Number.eqb, SFeqb, SFcompare. destruct n; reflexivity.
Qed.

(** X6.  An array that holds NaN always draws the warning
    [Array has duplicate items.] under [uniqueItems: true], whatever its
    other items, and even when NaN is its only item: [lastIndexOf] never
    finds NaN. *)
Theorem uniqueItems_warns_on_NaN (node : ASTNode) (items : list ASTNode)
  (schema : JSONSchema) (validationResult : ValidationResult) (i : nat)
  (base : Base.t) (isInteger : bool) (value : number) :
  Schema.uniqueItems schema = Some true ->
  items !! i = Some (NumberASTNode base isInteger value) ->
  Number.isNaN value = true ->
  ValidationResult.problems (validateUniqueItems node items schema validationResult)
  = (ValidationResult.problems validationResult ++ [uniqueItemsWarning (span_of node)])%list.
Proof.
  intros Hunique Hi Hnan. unfold validateUniqueItems. rewrite Hunique.
  assert (Hdup : hasDuplicates (map getNodeValue items) = true).
  { unfold hasDuplicates. apply existsb_exists. exists i. split.
    - apply in_seq. rewrite length_map. apply lookup_lt_Some in Hi. lia.
    - apply negb_true_iff, Z.eqb_neq. unfold lastIndexOf.
      fold (lastMatch (fun j => strictEqualsAt (map getNodeValue items) j i) 0
              (List.length (map getNodeValue items)) (-1)).
      rewrite lastMatch_none; [lia |].
      intros j. apply (strictEqualsAt_NaN _ j i value); [| exact Hnan].
      rewrite list_lookup_fmap, Hi. reflexivity. }
  rewrite Hdup. reflexivity.
Qed.

Lemma uniqueItems_warns_on_NaN_witness :
  let only := NumberASTNode (Base.mk 1 1 4 (parentRef "array" 0 6 None)) false Number.NaN in
  let node := ArrayASTNode (Base.mk 0 0 6 None) [only] in
  ValidationResult.problems
    (validateUniqueItems node [only] uniqueSchema ValidationResult.new)
  = [uniqueItemsWarning (span_of node)].
Proof.
  intros only node.
  exact (uniqueItems_warns_on_NaN node [only] uniqueSchema ValidationResult.new O
           (Base.mk 1 1 4 (parentRef "array" 0 6 None)) false Number.NaN
           eq_refl eq_refl eq_refl).
Defined.

(** ** Boolean schemas *)

Lemma include_newSub (matchingSchemas : ISchemaCollector) (node : ASTNode) :
  Collector.include matchingSchemas node = true ->
  Collector.include (Collector.newSub matchingSchemas) node = true.
Proof.
  destruct matchingSchemas as [focusOffset exclude schemas |]; simpl; [| reflexivity].
  intros H. apply andb_true_iff in H. destruct H as [_ H]. exact H.
Qed.

Lemma collectKeys_mergeFree (base : Base.t) (properties : list PropertyASTNodeImpl) :
  mergeFree (ObjectASTNode base properties) = true ->
  exists keys, collectKeys properties = Ok keys.
Proof.
  simpl. intros H. apply negb_true_iff in H.
  pose proof (collectKeys_spec properties) as Hk. rewrite H in Hk.
  destruct Hk as (sk & Hrun & _). eauto.
Qed.

(** [validate] on a node that the collector includes and that is not a
    property: the validator of the node's type, the shared keywords, the
    record. *)
Lemma validate_unfold (host : Host) (fuel nots : nat) (node : ASTNode)
  (schema : JSONSchema) (validationResult : ValidationResult)
  (matchingSchemas : ISchemaCollector) :
  Collector.include matchingSchemas node = true ->
  isProperty node = false ->
  validate host (S fuel) nots (Some node) schema validationResult matchingSchemas
  = let* st :=
      validateByType host (validate host fuel) nots node schema
        (validationResult, matchingSchemas) in
    let* (validationResult, matchingSchemas) :=
      _validateNode (validate host fuel) nots node schema st in
    Ok (validationResult, Collector.add matchingSchemas (record node schema nots)).
Proof.
  intros Hinc Hprop. simpl. rewrite Hinc. simpl.
  destruct node; try discriminate Hprop; reflexivity.
Qed.

Lemma validateByType_empty (host : Host) (v : Validator) (nots : nat) (node : ASTNode)
  (schema : JSONSchema) (st : State) :
  mergeFree node = true ->
  validateByType host v nots node (asSchema (SchemaBool true)) st = Ok st
  /\ validateByType host v nots node (asSchema (SchemaBool false)) st = Ok st.
Proof.
  intros Hfree. destruct st as [vr ms].
  destruct node as [| | b items | | | p | b properties]; try (split; reflexivity).
  destruct (collectKeys_mergeFree b properties Hfree) as ([sk u] & Hk).
  unfold validateByType, _validateObjectNode. rewrite Hk. split; reflexivity.
Qed.

Lemma validate_empty (host : Host) (fuel nots : nat) (node : ASTNode)
  (validationResult : ValidationResult) (matchingSchemas : ISchemaCollector) :
  Collector.include matchingSchemas node = true ->
  isProperty node = false -> mergeFree node = true ->
  validate host (S fuel) nots (Some node) Schema.empty validationResult matchingSchemas
  = Ok (validationResult, Collector.add matchingSchemas (record node Schema.empty nots)).
Proof.
  intros Hinc Hprop Hfree. rewrite validate_unfold by assumption.
  destruct (validateByType_empty host (validate host fuel) nots node Schema.empty
              (validationResult, matchingSchemas) Hfree) as [Ht _].
  change (asSchema (SchemaBool true)) with (@Schema.empty JSONSchemaRef) in Ht.
  rewrite Ht. reflexivity.
Qed.

(** X7.  [asSchema] makes [true] the schema that accepts and [false] the one
    that rejects.  On a node that the collector includes, that is not a
    property and not an object with a merge key to expand, validation
    against [asSchema(true)] adds no problem and one record, and
    validation against [asSchema(false)] adds exactly the warning
    [Matches a schema that is not allowed.], the flipped record of the
    inner [{}] and the record of the schema itself. *)
Theorem boolean_schemas (host : Host) (fuel nots : nat) (node : ASTNode)
  (validationResult : ValidationResult) (matchingSchemas : ISchemaCollector) :
  Collector.include matchingSchemas node = true ->
  isProperty node = false -> mergeFree node = true ->
  validate host (S fuel) nots (Some node) (asSchema (SchemaBool true)) validationResult
    matchingSchemas
  = Ok (validationResult, Collector.add matchingSchemas (record node Schema.empty nots))
  /\ validate host (S (S fuel)) nots (Some node) (asSchema (SchemaBool false))
       validationResult matchingSchemas
     = Ok (ValidationResult.push (notSchemaWarning node) validationResult,
           Collector.add
             (Collector.add matchingSchemas (flip (record node Schema.empty (S nots))))
             (record node (asSchema (SchemaBool false)) nots)).
Proof.
  intros Hinc Hprop Hfree. split; [apply validate_empty; assumption |].
  pose proof (validate_empty host fuel (S nots) node ValidationResult.new
                (Collector.newSub matchingSchemas) (include_newSub _ _ Hinc) Hprop Hfree)
    as Hinner.
  rewrite validate_unfold by assumption.
  destruct (validateByType_empty host (validate host (S fuel)) nots node Schema.empty
              (validationResult, matchingSchemas) Hfree) as [_ Hf].
  rewrite Hf. cbn [bind].
  unfold _validateNode.
  change (asSchema_opt (Schema.not (asSchema (SchemaBool false))))
    with (Some (@Schema.empty JSONSchemaRef)).
  cbn [asSchema Schema.set_not Schema.empty Schema.type Schema.allOf Schema.anyOf
         Schema.oneOf Schema.if_ Schema.then_ Schema.else_ Schema.enum Schema.const
         Schema.deprecationMessage asSchema_opt option_map bind fst snd].
  rewrite Hinner. simpl.
  destruct matchingSchemas; reflexivity.
Qed.

Lemma boolean_schemas_witness :
  validate sampleHost 2 0 (Some five) (asSchema (SchemaBool false)) ValidationResult.new
    NoOpSchemaCollector
  = Ok (ValidationResult.push (notSchemaWarning five) ValidationResult.new,
        NoOpSchemaCollector).
Proof.
  exact (proj2 (boolean_schemas sampleHost 0 0 five ValidationResult.new
                  NoOpSchemaCollector eq_refl eq_refl eq_refl)).
Defined.


(** ** Alternatives *)

Lemma testAlternatives_unfold (v : Validator) (nots : nat) (node : ASTNode)
  (alternatives : list JSONSchemaRef) (maxOneMatch : bool)
  (validationResult : ValidationResult) (matchingSchemas : ISchemaCollector) :
  testAlternatives v nots node alternatives maxOneMatch (validationResult, matchingSchemas)
  = let* (matches, bestMatch) :=
      forEach alternatives (alternativeStep v nots node matchingSchemas maxOneMatch)
        (O, None) in
    let validationResult :=
      if (1 <? matches)%nat && maxOneMatch
      then ValidationResult.push (oneOfWarning node) validationResult
      else validationResult in
    match bestMatch with
    | Some (_, bestValidationResult, bestMatchingSchemas) =>
        Ok (ValidationResult.add_propertiesValueMatches
              (ValidationResult.propertiesValueMatches bestValidationResult)
              (ValidationResult.add_propertiesMatches
                 (ValidationResult.propertiesMatches bestValidationResult)
                 (ValidationResult.merge validationResult bestValidationResult)),
            Collector.merge matchingSchemas bestMatchingSchemas)
    | None => Ok (validationResult, matchingSchemas)
    end.
Proof. reflexivity. Qed.

Lemma hasProblems_mergeEnumValues (this other : ValidationResult) :
  ValidationResult.hasProblems (ValidationResult.mergeEnumValues this other)
  = ValidationResult.hasProblems this.
Proof.
  unfold ValidationResult.mergeEnumValues.
  destruct (negb (ValidationResult.enumValueMatch this)
            && negb (ValidationResult.enumValueMatch other)); [| reflexivity].
  destruct (ValidationResult.enumValues this); [| reflexivity].
  destruct (ValidationResult.enumValues other); [| reflexivity].
  apply hasProblems_length. simpl. now rewrite length_map.
Qed.

Lemma compare_clean_dirty (a b : ValidationResult) :
  ValidationResult.hasProblems a = false -> ValidationResult.hasProblems b = true ->
  ValidationResult.compare a b = 1.
Proof. unfold ValidationResult.compare. intros -> ->. reflexivity. Qed.

Lemma compare_dirty_clean (a b : ValidationResult) :
  ValidationResult.hasProblems a = true -> ValidationResult.hasProblems b = false ->
  ValidationResult.compare a b = -1.
Proof. unfold ValidationResult.compare. intros -> ->. reflexivity. Qed.

Lemma alternativeStep_clean (v : Validator) (nots : nat) (node : ASTNode)
  (ms : ISchemaCollector) (maxOneMatch : bool) (r : JSONSchemaRef)
  (matches : nat) (bestMatch : option BestMatch) (matches' : nat)
  (bestMatch' : option BestMatch) :
  alternativeStep v nots node ms maxOneMatch r (matches, bestMatch)
  = Ok (matches', bestMatch') ->
  matches' = ((if clean v nots node ms r then 1 else 0) + matches)%nat
  /\ bestMatch' <> None
  /\ bestIsClean bestMatch' = clean v nots node ms r || bestIsClean bestMatch.
Proof.
  unfold alternativeStep, clean.
  destruct (v nots (Some node) (asSchema r) ValidationResult.new (Collector.newSub ms))
    as [[svr sms] | e |]; simpl; try discriminate.
  destruct bestMatch as [[[bs bvr] bms] |]; simpl.
  - destruct (ValidationResult.hasProblems svr) eqn:Es,
      (ValidationResult.hasProblems bvr) eqn:Eb, maxOneMatch; simpl;
      rewrite ?(compare_clean_dirty svr bvr Es Eb),
        ?(compare_dirty_clean svr bvr Es Eb); simpl;
      repeat match goal with
             | |- context [if ?c then _ else _] => destruct c
             end;
      intros [= <- <-]; simpl;
      rewrite ?hasProblems_mergeEnumValues, ?Es, ?Eb;
      repeat split; try discriminate; try reflexivity;
      change (negb (ValidationResult.hasProblems bvr) = true); now rewrite Eb.
  - intros [= <- <-]. simpl.
    destruct (ValidationResult.hasProblems svr); repeat split; discriminate.
Qed.

Lemma alternatives_loop (v : Validator) (nots : nat) (node : ASTNode)
  (ms : ISchemaCollector) (maxOneMatch : bool) (alternatives : list JSONSchemaRef) :
  forall matches bestMatch matches' bestMatch',
    forEach alternatives (alternativeStep v nots node ms maxOneMatch) (matches, bestMatch)
    = Ok (matches', bestMatch') ->
    matches'
    = (List.length (List.filter (clean v nots node ms) alternatives) + matches)%nat
    /\ (bestMatch' = None -> bestMatch = None /\ alternatives = [])
    /\ bestIsClean bestMatch'
       = existsb (clean v nots node ms) alternatives || bestIsClean bestMatch.
Proof.
  induction alternatives as [| r rest IH]; intros m b m' b'; cbn [forEach List.filter existsb].
  - intros [= <- <-]. split; [reflexivity |]. split; [intros ->; split |]; reflexivity.
  - destruct (alternativeStep v nots node ms maxOneMatch r (m, b)) as [[m1 b1] | e |] eqn:E;
      cbn [bind]; try discriminate.
    intros Hrest. apply alternativeStep_clean in E. destruct E as (Hm & Hb & Hc).
    apply IH in Hrest. destruct Hrest as (Hm' & Hb' & Hc').
    split; [| split].
    + rewrite Hm', Hm. destruct (clean v nots node ms r); simpl; lia.
    + intros Hnone. destruct (Hb' Hnone) as [Hb1 _]. contradiction.
    + rewrite Hc', Hc. destruct (clean v nots node ms r), (existsb _ rest); reflexivity.
Qed.

(** X8.  [anyOf] and [oneOf], when validating against them returns.  If some
    alternative is clean (validating the node against it leaves no
    problem), the problems of the other alternatives are dropped: [anyOf]
    adds no problem at all, and [oneOf] adds none when exactly one
    alternative is clean and exactly the warning about multiple matches
    when several are.  If no alternative is clean and there is one at
    least, problems are added, none of them that warning.  Without
    alternatives nothing changes. *)
Theorem alternatives_clean_or_not (v : Validator) (nots : nat) (node : ASTNode)
  (alternatives : list JSONSchemaRef) (maxOneMatch : bool)
  (before after : ValidationResult) (ms ms' : ISchemaCollector) :
  testAlternatives v nots node alternatives maxOneMatch (before, ms) = Ok (after, ms') ->
  let cleanCount := List.length (List.filter (clean v nots node ms) alternatives) in
  ((1 <= cleanCount)%nat ->
   ValidationResult.problems after
   = (ValidationResult.problems before
      ++ if maxOneMatch && (1 <? cleanCount)%nat then [oneOfWarning node] else [])%list)
  /\ (cleanCount = O -> alternatives <> [] ->
      exists added,
        added <> []
        /\ ValidationResult.problems after
           = (ValidationResult.problems before ++ added)%list)
  /\ (alternatives = [] -> after = before /\ ms' = ms).
Proof.
  rewrite testAlternatives_unfold. intros Hrun.
  assert (Hempty : alternatives = [] -> after = before /\ ms' = ms).
  { intros ->. cbn in Hrun. injection Hrun as <- <-. split; reflexivity. }
  revert Hrun.
  destruct (forEach alternatives (alternativeStep v nots node ms maxOneMatch) (O, None))
    as [[matches best] | e |] eqn:E; simpl; try discriminate.
  apply alternatives_loop in E. destruct E as (Hm & Hnone & Hclean).
  rewrite Nat.add_0_r in Hm. rewrite orb_false_r in Hclean.
  intros Hrun. rewrite <- Hm.
  assert (Hex : existsb (clean v nots node ms) alternatives
                = negb (Nat.eqb matches O)).
  { rewrite Hm. clear. induction alternatives as [| r rest IH]; [reflexivity |].
    cbn [existsb List.filter]. destruct (clean v nots node ms r); [reflexivity | exact IH]. }
  rewrite Hex in Hclean.
  destruct best as [[[bs bvr] bms] |].
  - injection Hrun as <- <-. cbn [bestIsClean] in Hclean.
    unfold ValidationResult.hasProblems in Hclean.
    apply (f_equal negb) in Hclean. rewrite !negb_involutive in Hclean.
    split; [| split].
    + intros Hge. destruct matches as [| k]; [lia |].
      cbn [Nat.eqb negb] in Hclean.
      apply negb_false_iff, Nat.eqb_eq, length_zero_iff_nil in Hclean.
      cbn [ValidationResult.problems ValidationResult.add_propertiesValueMatches
           ValidationResult.add_propertiesMatches ValidationResult.merge].
      rewrite andb_comm.
      destruct (maxOneMatch && (1 <? S k)%nat);
        unfold ValidationResult.merge, ValidationResult.push,
          ValidationResult.set_problems;
        cbn [ValidationResult.problems];
        rewrite Hclean, app_nil_r; reflexivity.
    + intros H0 _. rewrite H0 in Hclean. cbn [Nat.eqb negb] in Hclean.
      exists (ValidationResult.problems bvr). split.
      * apply negb_true_iff, Nat.eqb_neq in Hclean. intros Hnil. apply Hclean.
        rewrite Hnil. reflexivity.
      * rewrite H0. reflexivity.
    + exact Hempty.
  - destruct (Hnone eq_refl) as [_ ->]. cbn in Hm. subst matches.
    injection Hrun as <- <-.
    split; [intros; lia |]. split; [intros _ H; contradiction | intros _; split; reflexivity].
Qed.

Lemma alternatives_clean_or_not_witness :
  testAlternatives (validate sampleHost 1) 0 five
    [SchemaObj stringSchema; SchemaObj numberMin10Schema] false
    (ValidationResult.new, NoOpSchemaCollector)
  = Ok (ValidationResult.push (typeMismatchString (IRange.mk 0 1)) ValidationResult.new,
        NoOpSchemaCollector)
  /\ exists added,
       added <> []
       /\ ValidationResult.problems
            (ValidationResult.push (typeMismatchString (IRange.mk 0 1))
               ValidationResult.new)
          = (ValidationResult.problems ValidationResult.new ++ added)%list.
Proof.
  assert (Hrun : testAlternatives (validate sampleHost 1) 0 five
                   [SchemaObj stringSchema; SchemaObj numberMin10Schema] false
                   (ValidationResult.new, NoOpSchemaCollector)
                 = Ok (ValidationResult.push (typeMismatchString (IRange.mk 0 1))
                         ValidationResult.new, NoOpSchemaCollector))
    by (vm_compute; reflexivity).
  split; [exact Hrun |].
  apply (proj1 (proj2 (alternatives_clean_or_not _ _ _ _ _ _ _ _ _ Hrun)));
    [vm_compute; reflexivity | discriminate].
Defined.


(** ** What a validation adds *)

Lemma allWarnings_app (xs ys : list IProblem) :
  allWarnings xs -> allWarnings ys -> allWarnings (xs ++ ys).
Proof. intros Hx Hy. apply Forall_app; split; assumption. Qed.

Lemma grows_refl (validationResult : ValidationResult) :
  grows validationResult validationResult.
Proof.
  split; [exists []; split; [now rewrite app_nil_r | constructor] | lia].
Qed.

Lemma grows_trans (a b c : ValidationResult) : grows a b -> grows b c -> grows a c.
Proof.
  intros [(xs & Hxs & Wxs) Hab] [(ys & Hys & Wys) Hbc].
  split; [| lia].
  exists (xs ++ ys)%list. split; [| now apply allWarnings_app].
  rewrite Hys, Hxs, app_assoc. reflexivity.
Qed.

Lemma grows_step (b before after : ValidationResult) (added : list IProblem) :
  ValidationResult.problems after = (ValidationResult.problems before ++ added)%list ->
  allWarnings added ->
  ValidationResult.propertiesMatches before <= ValidationResult.propertiesMatches after ->
  ValidationResult.propertiesValueMatches before
  <= ValidationResult.propertiesValueMatches after ->
  ValidationResult.primaryValueMatches before
  <= ValidationResult.primaryValueMatches after ->
  grows b before -> grows b after.
Proof.
  intros Hp Hw H1 H2 H3 Hb. apply (grows_trans _ before); [exact Hb |].
  split; [exists added; split; assumption | lia].
Qed.

Lemma grows_push (b validationResult : ValidationResult) (p : IProblem) :
  severity p = Warning -> grows b validationResult ->
  grows b (ValidationResult.push p validationResult).
Proof.
  intros Hp. apply (grows_step _ _ _ [p]); simpl; try lia; try reflexivity.
  constructor; [exact Hp | constructor].
Qed.

Lemma grows_new_scores (sub : ValidationResult) :
  grows ValidationResult.new sub ->
  0 <= ValidationResult.propertiesMatches sub
  /\ 0 <= ValidationResult.propertiesValueMatches sub
  /\ 0 <= ValidationResult.primaryValueMatches sub.
Proof. intros [_ H]. exact H. Qed.

Lemma grows_new_problems (sub : ValidationResult) :
  grows ValidationResult.new sub -> allWarnings (ValidationResult.problems sub).
Proof. intros [(added & -> & Hw) _]. exact Hw. Qed.

Lemma grows_merge (b validationResult sub : ValidationResult) :
  grows ValidationResult.new sub -> grows b validationResult ->
  grows b (ValidationResult.merge validationResult sub).
Proof.
  intros Hsub.
  apply (grows_step _ _ _ (ValidationResult.problems sub)); simpl; try lia;
    try reflexivity.
  now apply grows_new_problems.
Qed.

Lemma grows_add_propertiesMatches (b validationResult : ValidationResult) (n : Z) :
  0 <= n -> grows b validationResult ->
  grows b (ValidationResult.add_propertiesMatches n validationResult).
Proof.
  intros Hn. apply (grows_step _ _ _ []); simpl; try lia; try constructor.
  now rewrite app_nil_r.
Qed.

Lemma grows_add_propertiesValueMatches (b validationResult : ValidationResult) (n : Z) :
  0 <= n -> grows b validationResult ->
  grows b (ValidationResult.add_propertiesValueMatches n validationResult).
Proof.
  intros Hn. apply (grows_step _ _ _ []); simpl; try lia; try constructor.
  now rewrite app_nil_r.
Qed.

Lemma grows_add_primaryValueMatches (b validationResult : ValidationResult) (n : Z) :
  0 <= n -> grows b validationResult ->
  grows b (ValidationResult.add_primaryValueMatches n validationResult).
Proof.
  intros Hn. apply (grows_step _ _ _ []); simpl; try lia; try constructor.
  now rewrite app_nil_r.
Qed.

Lemma grows_set_enum (b validationResult : ValidationResult) (matched : bool)
  (values : option (list JSValue)) :
  grows b validationResult ->
  grows b (ValidationResult.set_enum matched values validationResult).
Proof.
  apply (grows_step _ _ _ []); simpl; try lia; try constructor.
  now rewrite app_nil_r.
Qed.

Lemma grows_mergePropertyMatch (b validationResult sub : ValidationResult) :
  grows ValidationResult.new sub -> grows b validationResult ->
  grows b (ValidationResult.mergePropertyMatch validationResult sub).
Proof.
  intros Hsub Hb. unfold ValidationResult.mergePropertyMatch.
  repeat match goal with
         | |- grows _ (if ?c then _ else _) => destruct c
         | |- grows _ (ValidationResult.add_primaryValueMatches _ _) =>
             apply grows_add_primaryValueMatches; [lia |]
         | |- grows _ (ValidationResult.add_propertiesValueMatches _ _) =>
             apply grows_add_propertiesValueMatches; [lia |]
         | |- grows _ (ValidationResult.add_propertiesMatches _ _) =>
             apply grows_add_propertiesMatches; [lia |]
         end;
    apply grows_merge; assumption.
Qed.

Lemma grows_checkLimit (b validationResult : ValidationResult) (limit : option number)
  (test : number -> bool) (problem : number -> IProblem) :
  (forall l, severity (problem l) = Warning) -> grows b validationResult ->
  grows b (checkLimit limit test problem validationResult).
Proof.
  intros Hp Hb. unfold checkLimit. destruct limit as [l |]; [| exact Hb].
  destruct (test l); [apply grows_push; [apply Hp | exact Hb] | exact Hb].
Qed.

Lemma allWarnings_mergeEnumValues (this other : ValidationResult) :
  allWarnings (ValidationResult.problems this) ->
  allWarnings (ValidationResult.problems (ValidationResult.mergeEnumValues this other)).
Proof.
  intros Hw. unfold ValidationResult.mergeEnumValues.
  destruct (negb (ValidationResult.enumValueMatch this)
            && negb (ValidationResult.enumValueMatch other)); [| exact Hw].
  destruct (ValidationResult.enumValues this); [| exact Hw].
  destruct (ValidationResult.enumValues other); [| exact Hw].
  simpl. unfold allWarnings in *. rewrite Forall_map.
  eapply Forall_impl; [exact Hw |]. intros p Hp. simpl.
  destruct (code p) as [[] |]; simpl; exact Hp.
Qed.


Lemma newSub_appended (matchingSchemas : ISchemaCollector)
  (added : list IApplicableSchema) :
  Collector.newSub (appended matchingSchemas added) = Collector.newSub matchingSchemas.
Proof. destruct matchingSchemas; reflexivity. Qed.

Lemma appended_app (matchingSchemas : ISchemaCollector)
  (xs ys : list IApplicableSchema) :
  appended (appended matchingSchemas xs) ys = appended matchingSchemas (xs ++ ys).
Proof. destruct matchingSchemas; simpl; [rewrite app_assoc |]; reflexivity. Qed.

Lemma collects_refl (matchingSchemas : ISchemaCollector) :
  collects matchingSchemas matchingSchemas.
Proof.
  exists []. split; [| constructor].
  destruct matchingSchemas; simpl; [rewrite app_nil_r |]; reflexivity.
Qed.

Lemma collects_newSub (a b : ISchemaCollector) :
  collects a b -> Collector.newSub b = Collector.newSub a.
Proof. intros (added & -> & _). apply newSub_appended. Qed.

Lemma collects_step (c before : ISchemaCollector) (added : list IApplicableSchema) :
  Forall (permitted before) added -> collects c before ->
  collects c (appended before added).
Proof.
  intros Hadded (xs & -> & Hxs). exists (xs ++ added)%list.
  split; [apply appended_app |].
  apply Forall_app; split; [exact Hxs |].
  eapply Forall_impl; [exact Hadded |]. intros r. unfold permitted.
  now rewrite newSub_appended.
Qed.

Lemma collects_trans (a b c : ISchemaCollector) :
  collects a b -> collects b c -> collects a c.
Proof. intros Hab (ys & -> & Hys). now apply collects_step. Qed.

Lemma collects_add (c matchingSchemas : ISchemaCollector) (r : IApplicableSchema) :
  permitted matchingSchemas r -> collects c matchingSchemas ->
  collects c (Collector.add matchingSchemas r).
Proof.
  intros Hr Hc.
  replace (Collector.add matchingSchemas r) with (appended matchingSchemas [r])
    by (destruct matchingSchemas; reflexivity).
  apply collects_step; [| exact Hc]. constructor; [exact Hr | constructor].
Qed.

Lemma newSub_idem (matchingSchemas : ISchemaCollector) :
  Collector.newSub (Collector.newSub matchingSchemas) = Collector.newSub matchingSchemas.
Proof. destruct matchingSchemas; reflexivity. Qed.

Lemma collects_sub (matchingSchemas sub : ISchemaCollector) :
  collects (Collector.newSub matchingSchemas) sub ->
  Forall (permitted matchingSchemas) (Collector.schemas sub).
Proof.
  intros (added & -> & Hadded).
  destruct matchingSchemas as [focusOffset exclude schemas |]; simpl; [| constructor].
  exact Hadded.
Qed.

Lemma collects_merge (c matchingSchemas sub : ISchemaCollector) :
  collects (Collector.newSub matchingSchemas) sub -> collects c matchingSchemas ->
  collects c (Collector.merge matchingSchemas sub).
Proof.
  intros Hsub Hc.
  replace (Collector.merge matchingSchemas sub)
    with (appended matchingSchemas (Collector.schemas sub))
    by (destruct matchingSchemas; reflexivity).
  apply collects_step; [| exact Hc]. now apply collects_sub.
Qed.

Lemma fold_left_add (f : IApplicableSchema -> IApplicableSchema)
  (added : list IApplicableSchema) (matchingSchemas : ISchemaCollector) :
  fold_left (fun matchingSchemas ms => Collector.add matchingSchemas (f ms)) added
    matchingSchemas
  = appended matchingSchemas (map f added).
Proof.
  revert matchingSchemas. induction added as [| r rest IH]; intros ms; simpl.
  - destruct ms; simpl; [rewrite app_nil_r |]; reflexivity.
  - rewrite IH. destruct ms; simpl; [rewrite <- app_assoc |]; reflexivity.
Qed.

Lemma collects_flip (c matchingSchemas sub : ISchemaCollector) :
  collects (Collector.newSub matchingSchemas) sub -> collects c matchingSchemas ->
  collects c
    (fold_left (fun matchingSchemas ms => Collector.add matchingSchemas (flip ms))
       (Collector.schemas sub) matchingSchemas).
Proof.
  intros Hsub Hc. rewrite fold_left_add. apply collects_step; [| exact Hc].
  rewrite Forall_map. eapply Forall_impl; [apply collects_sub; exact Hsub |].
  intros r Hr. exact Hr.
Qed.

Lemma extends_refl (st : State) : extends st st.
Proof. split; [apply grows_refl | apply collects_refl]. Qed.

Lemma extends_trans (a b c : State) : extends a b -> extends b c -> extends a c.
Proof.
  intros [Hab Hab'] [Hbc Hbc'].
  split; [eapply grows_trans | eapply collects_trans]; eassumption.
Qed.

Lemma grows_fold_left {A : Type} (step : State -> A -> State) (xs : list A)
  (b : ValidationResult) (st : State) :
  (forall st x, grows b (fst st) -> grows b (fst (step st x))) ->
  grows b (fst st) -> grows b (fst (fold_left step xs st)).
Proof.
  intros Hstep. revert st. induction xs as [| x xs IH]; intros st Hst; simpl;
    [exact Hst |].
  apply IH, Hstep, Hst.
Qed.

Lemma collects_fold_left {A : Type} (step : State -> A -> State) (xs : list A)
  (c : ISchemaCollector) (st : State) :
  (forall st x, collects c (snd st) -> collects c (snd (step st x))) ->
  collects c (snd st) -> collects c (snd (fold_left step xs st)).
Proof.
  intros Hstep. revert st. induction xs as [| x xs IH]; intros st Hst; simpl;
    [exact Hst |].
  apply IH, Hstep, Hst.
Qed.

Lemma extending_any {A : Type} `{Grown A} (base : State) (o : outcome A) :
  (forall a, grown base a) -> extending base o.
Proof. intros Hall. destruct o; simpl; auto. Qed.

Lemma extending_bind {A B : Type} `{Grown A} `{Grown B} (base : State)
  (m : outcome A) (f : A -> outcome B) :
  extending base m -> (forall a, grown base a -> extending base (f a)) ->
  extending base (bind m f).
Proof. apply post_bind. Qed.

Lemma extending_forEach {A S : Type} `{Grown S} (base : State) (xs : list A)
  (body : A -> S -> outcome S) (s : S) :
  (forall x s, In x xs -> grown base s -> extending base (body x s)) ->
  grown base s -> extending base (forEach xs body s).
Proof. intros Hbody Hs. apply post_forEach; assumption. Qed.

Lemma grows_mergeEnumValues (this other : ValidationResult) :
  grows ValidationResult.new this ->
  grows ValidationResult.new (ValidationResult.mergeEnumValues this other).
Proof.
  intros Hthis. pose proof (grows_new_scores this Hthis) as Hs.
  pose proof (allWarnings_mergeEnumValues this other (grows_new_problems this Hthis))
    as Hw.
  split.
  - exists (ValidationResult.problems (ValidationResult.mergeEnumValues this other)).
    split; [reflexivity | exact Hw].
  - unfold ValidationResult.mergeEnumValues.
    destruct (negb (ValidationResult.enumValueMatch this)
              && negb (ValidationResult.enumValueMatch other)); [| exact Hs].
    destruct (ValidationResult.enumValues this); [| exact Hs].
    destruct (ValidationResult.enumValues other); exact Hs.
Qed.

Lemma collects_merge_sub (matchingSchemas best sub : ISchemaCollector) :
  collects (Collector.newSub matchingSchemas) sub ->
  collects (Collector.newSub matchingSchemas) best ->
  collects (Collector.newSub matchingSchemas) (Collector.merge best sub).
Proof.
  intros Hsub Hbest. apply collects_merge; [| exact Hbest].
  rewrite (collects_newSub _ _ Hbest), newSub_idem. exact Hsub.
Qed.

Ltac grown_simpl :=
  unfold grown, grown_State, grown_unprocessed, grown_best, grown_result, grown_bool,
    grown_keys, extends in *;
  cbn [fst snd] in *.

(** Pairs and conjunctions are taken apart; what grew twice grew once. *)
Ltac told :=
  grown_simpl;
  repeat match goal with
         | H : _ /\ _ |- _ => destruct H
         | p : _ * _ |- _ => destruct p
         | p : State |- _ => destruct p
         end;
  cbn [fst snd] in *;
  repeat match goal with
         | H1 : grows ?a ?b, H2 : grows ?b ?c |- _ =>
             learn (grows_trans a b c H1 H2)
         | H1 : collects ?a ?b, H2 : collects ?b ?c |- _ =>
             learn (collects_trans a b c H1 H2)
         end.

Ltac scores :=
  repeat match goal with
         | H : grows ValidationResult.new ?sub |- _ =>
             learn (grows_new_scores sub H)
         end;
  lia.

Ltac grow_result :=
  repeat (cbn [fst snd];
          match goal with
          | |- grows _ (fst (fold_left _ _ _)) =>
              apply grows_fold_left; [intros ? ? ? |]
          | |- grows _ (fst (if ?c then _ else _)) => destruct c
          | |- grows _ (fst (match ?x with _ => _ end)) => destruct x
          | |- grows _ (if ?c then _ else _) => destruct c
          | |- grows _ (match ?x with _ => _ end) => destruct x
          | |- grows _ (ValidationResult.push _ _) =>
              apply grows_push; [reflexivity |]
          | |- grows _ (checkLimit _ _ _ _) =>
              apply grows_checkLimit; [intros ?; reflexivity |]
          | |- grows _ (ValidationResult.merge _ _) =>
              apply grows_merge; [assumption |]
          | |- grows _ (ValidationResult.mergePropertyMatch _ _) =>
              apply grows_mergePropertyMatch; [assumption |]
          | |- grows _ (ValidationResult.add_propertiesMatches _ _) =>
              apply grows_add_propertiesMatches; [scores |]
          | |- grows _ (ValidationResult.add_propertiesValueMatches _ _) =>
              apply grows_add_propertiesValueMatches; [scores |]
          | |- grows _ (ValidationResult.add_primaryValueMatches _ _) =>
              apply grows_add_primaryValueMatches; [scores |]
          | |- grows _ (ValidationResult.set_enum _ _ _) => apply grows_set_enum
          | |- grows _ (ValidationResult.mergeEnumValues _ _) =>
              apply grows_mergeEnumValues
          end);
  cbn [fst snd];
  first [assumption | apply grows_refl].

Ltac grow_collector :=
  repeat (cbn [fst snd];
          match goal with
          | |- collects _ (snd (fold_left _ _ _)) =>
              apply collects_fold_left; [intros ? ? ? |]
          | |- collects _ (snd (if ?c then _ else _)) => destruct c
          | |- collects _ (snd (match ?x with _ => _ end)) => destruct x
          | |- collects _ (if ?c then _ else _) => destruct c
          | |- collects _ (match ?x with _ => _ end) => destruct x
          | |- collects _ (Collector.merge _ _) =>
              first [ apply collects_merge; [assumption |]
                    | apply collects_merge_sub; [assumption |] ]
          | |- collects _ (fold_left _ (Collector.schemas _) _) =>
              apply collects_flip; [assumption |]
          end);
  cbn [fst snd];
  first [assumption | apply collects_refl].

Ltac extension :=
  told;
  repeat match goal with
         | |- grows _ _ /\ collects _ _ => split
         end;
  try solve [grow_result]; try solve [grow_collector]; try exact I.

Ltac grow_with helper :=
  repeat first
    [ helper
    | match goal with
      | |- @extending bool _ _ _ => apply extending_any; intros ?; exact I
      | |- @extending (gmap string (option ASTNode) * list string) _ _ _ =>
          apply extending_any; intros ?; exact I
      | |- @extending _ _ _ (Throw _) => exact I
      | |- @extending _ _ _ (Ok _) => apply post_Ok
      | |- @extending _ _ _ (bind _ _) => apply extending_bind; [| intros ? ?]
      | |- @extending _ _ _ (forEach _ _ _) =>
          apply extending_forEach; [intros ? ? ? ? |]
      | |- @extending _ _ _ (match ?x with _ => _ end) => destruct x eqn:?
      end
    | progress cbv beta zeta ].

Lemma _validateNumberNode_grows (b : ValidationResult) (node : ASTNode) (val : number)
  (schema : JSONSchema) (validationResult : ValidationResult) :
  grows b validationResult ->
  grows b (_validateNumberNode node val schema validationResult).
Proof. intros Hb. unfold _validateNumberNode. cbv zeta. grow_result. Qed.

Lemma validateUniqueItems_grows (b : ValidationResult) (node : ASTNode)
  (items : list ASTNode) (schema : JSONSchema) (validationResult : ValidationResult) :
  grows b validationResult ->
  grows b (validateUniqueItems node items schema validationResult).
Proof. intros Hb. unfold validateUniqueItems. cbv zeta. grow_result. Qed.

Lemma _validateStringNode_grows (host : Host) (base : State) (node : StringASTNodeImpl)
  (schema : JSONSchema) (validationResult : ValidationResult) :
  grown base validationResult ->
  extending base (_validateStringNode host node schema validationResult).
Proof.
  intros Hb. unfold _validateStringNode.
  grow_with ltac:(fail). all: extension.
Qed.

Lemma disallowedExtraProp_grows (base : State) (schema : JSONSchema) (child : ASTNode)
  (propertyName : string) (validationResult : ValidationResult) :
  grown base validationResult ->
  extending base (disallowedExtraProp schema child propertyName validationResult).
Proof.
  intros Hb. unfold disallowedExtraProp.
  destruct (keyNodeOfParent child); simpl; try exact I. extension.
Qed.

Section Extends.

Context (host : Host) (v : Validator).
Hypothesis Hv :
  forall nots n s vr ms, post (extends (vr, ms)) (v nots n s vr ms).

Lemma call_extends (base : State) (nots : nat) (n : option ASTNode) (s : JSONSchema)
  (vr : ValidationResult) (ms : ISchemaCollector) :
  extends base (vr, ms) -> extending base (v nots n s vr ms).
Proof.
  intros Hb. specialize (Hv nots n s vr ms).
  destruct (v nots n s vr ms) as [a | e |]; simpl in *; try exact I.
  eapply extends_trans; eassumption.
Qed.

(** A call on a state of its own. *)
Lemma sub_extends {B : Type} `{Grown B} (base : State) (nots : nat)
  (n : option ASTNode) (s : JSONSchema) (vr : ValidationResult)
  (ms : ISchemaCollector) (f : State -> outcome B) :
  (forall a, extends (vr, ms) a -> extending base (f a)) ->
  extending base (bind (v nots n s vr ms) f).
Proof. intros Hf. apply (post_bind (extends (vr, ms))); [apply Hv | exact Hf]. Qed.

Ltac call :=
  idtac;
  match goal with
  | |- @extending _ _ _ (bind (v _ _ _ ValidationResult.new _) _) =>
      apply sub_extends; intros ? ?
  | |- @extending _ _ _ (bind (v _ _ _ _ NoOpSchemaCollector) _) =>
      apply sub_extends; intros ? ?
  | |- @extending _ _ _ (v _ _ _ _ _) => apply call_extends
  end.

Lemma validateInto_extends base nots child schema st :
  grown base st -> extending base (validateInto v nots child schema st).
Proof.
  intros Hst. unfold validateInto. grow_with call. all: extension.
Qed.

Lemma validateProperty_extends base nots schema propertyName propertySchema child st :
  grown base st ->
  extending base (validateProperty v nots schema propertyName propertySchema child st).
Proof.
  intros Hst. unfold validateProperty.
  grow_with
    ltac:(first [ apply validateInto_extends
                | apply (disallowedExtraProp_grows base) ]).
  all: extension.
Qed.

Lemma validateItems_extends base nots node items schema st :
  grown base st -> extending base (validateItems v nots node items schema st).
Proof.
  intros Hst. unfold validateItems.
  grow_with ltac:(first [apply validateInto_extends | call]).
  all: extension.
Qed.

Lemma _validateArrayNode_extends base nots node items schema st :
  grown base st -> extending base (_validateArrayNode v nots node items schema st).
Proof.
  intros Hst. unfold _validateArrayNode.
  grow_with ltac:(apply validateItems_extends).
  all: try solve [extension].
  told. split; [apply validateUniqueItems_grows |]; assumption.
Qed.

Lemma _validateObjectNode_extends base nots node properties schema st :
  grown base st ->
  extending base (_validateObjectNode host v nots node properties schema st).
Proof.
  intros Hst. unfold _validateObjectNode.
  grow_with
    ltac:(first [ apply validateInto_extends
                | apply validateProperty_extends
                | apply (disallowedExtraProp_grows base)
                | call ]).
  all: extension.
Qed.

Lemma testBranch_extends base nots node schema st :
  grown base st -> extending base (testBranch v nots node schema st).
Proof.
  intros Hst. unfold testBranch. grow_with call. all: extension.
Qed.

Lemma testCondition_extends base nots node ifSchema thenSchema elseSchema st :
  grown base st ->
  extending base (testCondition v nots node ifSchema thenSchema elseSchema st).
Proof.
  intros Hst. unfold testCondition.
  grow_with ltac:(first [apply testBranch_extends | call]).
  all: extension.
Qed.

Lemma testAlternatives_extends base nots node alternatives maxOneMatch st :
  grown base st ->
  extending base (testAlternatives v nots node alternatives maxOneMatch st).
Proof.
  intros Hst. destruct st as [validationResult matchingSchemas].
  rewrite testAlternatives_unfold.
  apply (post_bind (grown (validationResult, matchingSchemas))).
  - apply (extending_forEach (validationResult, matchingSchemas)); [| exact I].
    intros r [matches bestMatch] _ Hbest. unfold alternativeStep.
    grow_with call. all: extension.
  - intros [matches bestMatch] Hbest.
    change (extending base
              (match bestMatch with
               | Some (_, bestValidationResult, bestMatchingSchemas) =>
                   Ok (ValidationResult.add_propertiesValueMatches
                         (ValidationResult.propertiesValueMatches bestValidationResult)
                         (ValidationResult.add_propertiesMatches
                            (ValidationResult.propertiesMatches bestValidationResult)
                            (ValidationResult.merge
                               (if (1 <? matches)%nat && maxOneMatch
                                then ValidationResult.push (oneOfWarning node)
                                       validationResult
                                else validationResult)
                               bestValidationResult)),
                       Collector.merge matchingSchemas bestMatchingSchemas)
               | None =>
                   Ok (if (1 <? matches)%nat && maxOneMatch
                       then ValidationResult.push (oneOfWarning node) validationResult
                       else validationResult, matchingSchemas)
               end)).
    grow_with fail. all: extension.
Qed.

Lemma _validateNode_extends base nots node schema st :
  grown base st -> extending base (_validateNode v nots node schema st).
Proof.
  intros Hst. unfold _validateNode.
  grow_with
    ltac:(first [ apply testAlternatives_extends
                | apply testCondition_extends
                | call ]).
  all: extension.
Qed.

End Extends.


Lemma validate_extends (host : Host) (fuel : nat) :
  forall nots node schema validationResult matchingSchemas,
    post (extends (validationResult, matchingSchemas))
      (validate host fuel nots node schema validationResult matchingSchemas).
Proof.
  induction fuel as [| fuel IH]; intros nots node schema vr ms.
  - destruct node as [node |]; simpl; [| apply extends_refl].
    destruct (Collector.include ms node); simpl; [exact I | apply extends_refl].
  - destruct node as [node |]; [| apply extends_refl].
    destruct (Collector.include ms node) eqn:Hinc;
      [| simpl; rewrite Hinc; apply extends_refl].
    destruct (isProperty node) eqn:Hprop.
    + destruct node; try discriminate Hprop. simpl. rewrite Hinc. apply IH.
    + rewrite validate_unfold by assumption.
      apply (post_bind (extends (vr, ms))).
      * unfold validateByType.
        destruct node as [| | base items | base isInteger value | stringNode | p
                          | base properties]; try apply extends_refl.
        -- exact (_validateArrayNode_extends (validate host fuel) IH (vr, ms) _ _ _ _ _
                    (extends_refl (vr, ms))).
        -- apply (post_Ok (extends (vr, ms))).
           split; [apply _validateNumberNode_grows, grows_refl | apply collects_refl].
        -- apply (post_bind (grows vr)).
           ++ exact (_validateStringNode_grows host (vr, ms) _ _ _ (grows_refl vr)).
           ++ intros vr' Hvr'. split; [exact Hvr' | apply collects_refl].
        -- exact (_validateObjectNode_extends host (validate host fuel) IH (vr, ms)
                    _ _ _ _ _ (extends_refl (vr, ms))).
      * intros st Hst. apply (post_bind (extends (vr, ms))).
        -- exact (_validateNode_extends (validate host fuel) IH (vr, ms) _ _ _ _ Hst).
        -- intros [vr' ms'] [Hvr Hms]. split; [exact Hvr |].
           apply collects_add; [| exact Hms].
           split; [| exact Hprop]. cbn [fst snd] in Hms.
           rewrite (collects_newSub _ _ Hms). apply include_newSub, Hinc.
Qed.

(** X9.  Whatever the schema, the diagnostics of a validation that
    returns are warnings: none has another severity. *)
Theorem diagnostics_are_warnings (host : Host) (this : JSONDocument)
  (textDocument : TextDocument) (schema : option JSONSchema)
  (diagnostics : list Diagnostic) :
  Document.validate host this textDocument schema = Ok (Some diagnostics) ->
  Forall (fun d => diagnostic_severity d = Warning) diagnostics.
Proof.
  unfold Document.validate.
  destruct (root this) as [root |]; [| discriminate].
  destruct schema as [schema |]; [| discriminate].
  pose proof (validate_extends host (enough root schema) O (Some root) schema
                ValidationResult.new NoOpSchemaCollector) as H.
  destruct (validate host (enough root schema) O (Some root) schema
              ValidationResult.new NoOpSchemaCollector) as [[vr ms] | e |];
    simpl; try discriminate.
  intros [= <-]. destruct H as [Hvr _]. cbn [fst] in Hvr.
  apply grows_new_problems in Hvr. rewrite Forall_map.
  eapply Forall_impl; [exact Hvr |]. intros p Hp. exact Hp.
Qed.

Lemma diagnostics_are_warnings_witness :
  Document.validate sampleHost (newJSONDocument (Some five) []) oneLine
    (Some stringOrMin10)
  = Ok (Some [Document.toDiagnostic oneLine (typeMismatchString (IRange.mk 0 1))])
  /\ Forall (fun d => diagnostic_severity d = Warning)
       [Document.toDiagnostic oneLine (typeMismatchString (IRange.mk 0 1))].
Proof.
  assert (Hrun : Document.validate sampleHost (newJSONDocument (Some five) []) oneLine
                   (Some stringOrMin10)
                 = Ok (Some [Document.toDiagnostic oneLine
                               (typeMismatchString (IRange.mk 0 1))]))
    by (vm_compute; reflexivity).
  split; [exact Hrun |].
  exact (diagnostics_are_warnings _ _ _ _ _ Hrun).
Defined.

(** X10.  A validation only adds: the problems that were there stay, in
    their place, and the new ones follow them; no score gets lower; the
    collector keeps its focus, its excluded node and its records, and the
    new records follow them. *)
Theorem validate_only_adds (host : Host) (fuel nots : nat) (node : option ASTNode)
  (schema : JSONSchema) (before after : ValidationResult)
  (matchingSchemas matchingSchemas' : ISchemaCollector) :
  validate host fuel nots node schema before matchingSchemas
  = Ok (after, matchingSchemas') ->
  (exists added,
     ValidationResult.problems after
     = (ValidationResult.problems before ++ added)%list)
  /\ ValidationResult.propertiesMatches before
     <= ValidationResult.propertiesMatches after
  /\ ValidationResult.propertiesValueMatches before
     <= ValidationResult.propertiesValueMatches after
  /\ ValidationResult.primaryValueMatches before
     <= ValidationResult.primaryValueMatches after
  /\ exists records, matchingSchemas' = appended matchingSchemas records.
Proof.
  intros Hrun.
  pose proof (validate_extends host fuel nots node schema before matchingSchemas) as H.
  rewrite Hrun in H. destruct H as [[(added & Hadded & _) (H1 & H2 & H3)] (rs & Hrs & _)].
  cbn [fst snd] in *.
  split; [exists added; exact Hadded |]. repeat (split; [assumption |]).
  exists rs. exact Hrs.
Qed.

Lemma validate_only_adds_witness :
  validate sampleHost 1 0 (Some five) stringSchema ValidationResult.new
    (SchemaCollector (-1) None [])
  = Ok (ValidationResult.push (typeMismatchString (IRange.mk 0 1)) ValidationResult.new,
        SchemaCollector (-1) None
          [record five stringSchema 0])
  /\ exists records,
       SchemaCollector (-1) None
         [record five stringSchema 0]
       = appended (SchemaCollector (-1) None []) records.
Proof.
  assert (Hrun : validate sampleHost 1 0 (Some five) stringSchema ValidationResult.new
                   (SchemaCollector (-1) None [])
                 = Ok (ValidationResult.push (typeMismatchString (IRange.mk 0 1))
                         ValidationResult.new,
                       SchemaCollector (-1) None
                         [record five stringSchema 0]))
    by (vm_compute; reflexivity).
  split; [exact Hrun |].
  exact (proj2 (proj2 (proj2 (proj2 (validate_only_adds _ _ _ _ _ _ _ _ _ Hrun))))).
Defined.




(** ** Required properties *)

Lemma required_step (node : ASTNode) (seenKeys : gmap string (option ASTNode))
  (required : list string) :
  forall st : State,
    let after :=
      fold_left
        (fun (st : State) propertyName =>
           match seen seenKeys propertyName with
           | Some _ => st
           | None =>
               (ValidationResult.push (missingRequiredProp node propertyName) (fst st),
                snd st)
           end) required st in
    ValidationResult.problems (fst after)
    = (ValidationResult.problems (fst st)
       ++ map (missingRequiredProp node)
            (List.filter
               (fun name =>
                  negb match seen seenKeys name with Some _ => true | None => false end)
               required))%list.
Proof.
  induction required as [| name rest IH]; intros st; cbn [fold_left List.filter map].
  - now rewrite app_nil_r.
  - cbv zeta in IH. rewrite IH. destruct (seen seenKeys name); cbn [negb map fst];
      [reflexivity |].
    unfold ValidationResult.push at 1. cbn [ValidationResult.problems
      ValidationResult.set_problems]. now rewrite <- app_assoc.
Qed.

Lemma extends_problems (before after : State) :
  extends before after ->
  exists added,
    ValidationResult.problems (fst after)
    = (ValidationResult.problems (fst before) ++ added)%list.
Proof. intros [[(added & H & _) _] _]. exists added. exact H. Qed.

Section Required.

Context (host : Host) (v : Validator).
Hypothesis Hv :
  forall nots n s vr ms, post (extends (vr, ms)) (v nots n s vr ms).

Ltac call :=
  idtac;
  match goal with
  | |- @extending _ _ _ (bind (v _ _ _ ValidationResult.new _) _) =>
      apply (sub_extends v Hv); intros ? ?
  | |- @extending _ _ _ (bind (v _ _ _ _ NoOpSchemaCollector) _) =>
      apply (sub_extends v Hv); intros ? ?
  | |- @extending _ _ _ (v _ _ _ _ _) => apply (call_extends v Hv)
  end.

Lemma _validateObjectNode_required (nots : nat) (node : ASTNode)
  (properties : list PropertyASTNodeImpl) (schema : JSONSchema)
  (required : list string) (st after : State) :
  Schema.required schema = Some required ->
  _validateObjectNode host v nots node properties schema st = Ok after ->
  exists rest,
    ValidationResult.problems (fst after)
    = (ValidationResult.problems (fst st)
       ++ map (missingRequiredProp node) (missing required properties) ++ rest)%list.
Proof.
  intros Hreq. unfold _validateObjectNode. rewrite Hreq.
  pose proof (collectKeys_spec properties) as Hkeys.
  destruct (existsb merges properties).
  { destruct Hkeys as (e & ->). discriminate. }
  destruct Hkeys as (seenKeys & -> & Hseen). cbn [bind]. cbv zeta.
  match goal with
  | |- context [fold_left ?step required st] =>
      pose proof (required_step node seenKeys required st) as Hstep;
      change (fold_left
                (fun (st : State) propertyName =>
                   match seen seenKeys propertyName with
                   | Some _ => st
                   | None =>
                       (ValidationResult.push (missingRequiredProp node propertyName)
                          (fst st), snd st)
                   end) required st)
        with (fold_left step required st) in Hstep;
      remember (fold_left step required st) as st1 eqn:Est1
  end.
  clear Est1. cbv zeta in Hstep.
  match goal with
  | |- ?run = Ok after -> _ =>
      assert (Hrest : @extending State _ st1 run)
  end.
  { pose proof (extends_refl st1) as Hst1.
    grow_with
      ltac:(first [ apply (validateInto_extends v Hv)
                  | apply (validateProperty_extends v Hv)
                  | apply (disallowedExtraProp_grows st1)
                  | call ]).
    all: extension. }
  intros Hrun. rewrite Hrun in Hrest.
  destruct (extends_problems _ _ Hrest) as (rest & Hafter).
  exists rest. rewrite Hafter, Hstep, <- app_assoc. do 2 f_equal.
  unfold missing. f_equal. apply filter_ext. intros name.
  unfold hasValue. rewrite Hseen. reflexivity.
Qed.

End Required.

(** X12.  The required properties an object lacks are reported whatever else
    the schema says: the warnings come first among the problems the
    validation of the object adds, one for each name of [required] in its
    order.  A property counts as lacking also when the last property of
    that name has no value. *)
Theorem missing_required_properties_are_reported (host : Host) (fuel nots : nat)
  (base : Base.t) (properties : list PropertyASTNodeImpl) (schema : JSONSchema)
  (required : list string) (before after : ValidationResult)
  (matchingSchemas matchingSchemas' : ISchemaCollector) :
  Schema.required schema = Some required ->
  Collector.include matchingSchemas (ObjectASTNode base properties) = true ->
  validate host (S fuel) nots (Some (ObjectASTNode base properties)) schema before
    matchingSchemas
  = Ok (after, matchingSchemas') ->
  exists rest,
    ValidationResult.problems after
    = (ValidationResult.problems before
       ++ map (missingRequiredProp (ObjectASTNode base properties))
            (missing required properties)
       ++ rest)%list.
Proof.
  intros Hreq Hinc. rewrite validate_unfold by (exact Hinc || reflexivity).
  unfold validateByType.
  destruct (_validateObjectNode host (validate host fuel) nots
              (ObjectASTNode base properties) properties schema
              (before, matchingSchemas)) as [st1 | e |] eqn:Hobject;
    cbn [bind]; try discriminate.
  destruct (_validateObjectNode_required host (validate host fuel) (validate_extends host fuel)
              nots _ _ _ _ _ _ Hreq Hobject) as (rest & Hrest).
  pose proof (_validateNode_extends (validate host fuel) (validate_extends host fuel) st1
                nots (ObjectASTNode base properties) schema st1 (extends_refl st1))
    as Hnode.
  destruct (_validateNode (validate host fuel) nots (ObjectASTNode base properties)
              schema st1) as [[vr2 ms2] | e |]; cbn [bind]; try discriminate.
  intros [= <- <-]. destruct (extends_problems _ _ Hnode) as (more & Hmore).
  cbn [fst] in *. exists (rest ++ more)%list.
  rewrite Hmore, Hrest, <- !app_assoc. reflexivity.
Qed.

Lemma missing_required_properties_are_reported_witness :
  exists rest,
    ValidationResult.problems
      (ValidationResult.push (missingRequiredProp emptyObject "b")
         (ValidationResult.push (missingRequiredProp emptyObject "a")
            ValidationResult.new))
    = (ValidationResult.problems ValidationResult.new
       ++ map (missingRequiredProp emptyObject) (missing ["a"; "b"] [])
       ++ rest)%list.
Proof.
  apply (missing_required_properties_are_reported sampleHost 0 0 (Base.mk 0 0 2 None) []
           requiresAB ["a"; "b"] _ _ NoOpSchemaCollector NoOpSchemaCollector);
    vm_compute; reflexivity.
Defined.


(** ** Types *)

Lemma validateByType_extends (host : Host) (v : Validator) (nots : nat)
  (node : ASTNode) (schema : JSONSchema) (st : State) :
  (forall nots n s vr ms, post (extends (vr, ms)) (v nots n s vr ms)) ->
  post (extends st) (validateByType host v nots node schema st).
Proof.
  intros Hv. unfold validateByType.
  destruct node as [| | base items | base isInteger value | stringNode | p
                    | base properties]; try apply extends_refl.
  - exact (_validateArrayNode_extends v Hv st _ _ _ _ _ (extends_refl st)).
  - apply (post_Ok (extends st)).
    split; [apply _validateNumberNode_grows, grows_refl | apply collects_refl].
  - apply (post_bind (grows (fst st))).
    + exact (_validateStringNode_grows host st _ _ _ (grows_refl (fst st))).
    + intros vr' Hvr'. split; [exact Hvr' | apply collects_refl].
  - exact (_validateObjectNode_extends host v Hv st _ _ _ _ _ (extends_refl st)).
Qed.

Section Types.

Context (v : Validator).
Hypothesis Hv :
  forall nots n s vr ms, post (extends (vr, ms)) (v nots n s vr ms).

Ltac call :=
  idtac;
  match goal with
  | |- @extending _ _ _ (bind (v _ _ _ ValidationResult.new _) _) =>
      apply (sub_extends v Hv); intros ? ?
  | |- @extending _ _ _ (bind (v _ _ _ _ NoOpSchemaCollector) _) =>
      apply (sub_extends v Hv); intros ? ?
  | |- @extending _ _ _ (v _ _ _ _ _) => apply (call_extends v Hv)
  end.

Lemma _validateNode_type (nots : nat) (node : ASTNode) (schema : JSONSchema)
  (st after : State) :
  _validateNode v nots node schema st = Ok after ->
  exists rest,
    ValidationResult.problems (fst after)
    = (ValidationResult.problems (fst st)
       ++ match typeWarning node schema with Some p => [p] | None => [] end
       ++ rest)%list.
Proof.
  unfold _validateNode. cbv zeta.
  match goal with
  | |- bind (match Schema.allOf schema with
             | Some allOf => forEach allOf ?body ?st0
             | None => _
             end) ?k = _ -> _ =>
      assert (Hstep : ValidationResult.problems (fst st0)
                      = (ValidationResult.problems (fst st)
                         ++ match typeWarning node schema with
                            | Some p => [p]
                            | None => []
                            end)%list);
      [| remember st0 as st1 eqn:Est1; clear Est1 ]
  end.
  { unfold typeWarning.
    destruct (Schema.type schema) as [[type | types] |]; cbn [fst];
      [| | now rewrite app_nil_r].
    - destruct (String.eqb type EmptyString), (matchesType node type);
        cbn [negb andb orb fst]; try (now rewrite app_nil_r). reflexivity.
    - destruct (existsb (matchesType node) types); cbn [negb fst];
        [now rewrite app_nil_r | reflexivity]. }
  match goal with
  | |- ?run = Ok after -> _ =>
      assert (Hrest : @extending State _ st1 run)
  end.
  { pose proof (extends_refl st1) as Hst1.
    grow_with
      ltac:(first [ apply (testAlternatives_extends v Hv)
                  | apply (testCondition_extends v Hv)
                  | call ]).
    all: extension. }
  intros Hrun. rewrite Hrun in Hrest.
  destruct (extends_problems _ _ Hrest) as (rest & Hafter).
  exists rest. rewrite Hafter, Hstep, <- app_assoc. reflexivity.
Qed.

End Types.

(** X13.  A node of another type than the schema asks for draws the warning
    about its type whatever else the schema says: the warning follows the
    problems the validation by the type of the node adds, and nothing
    that comes later removes it.  Without [type], with the empty type
    name or with a type that fits, that warning is not made here. *)
Theorem type_mismatch_is_reported (host : Host) (fuel nots : nat) (node : ASTNode)
  (schema : JSONSchema) (before after : ValidationResult)
  (matchingSchemas matchingSchemas' : ISchemaCollector) :
  isProperty node = false ->
  Collector.include matchingSchemas node = true ->
  validate host (S fuel) nots (Some node) schema before matchingSchemas
  = Ok (after, matchingSchemas') ->
  exists byType rest,
    validateByType host (validate host fuel) nots node schema (before, matchingSchemas)
    = Ok byType
    /\ (exists added,
          ValidationResult.problems (fst byType)
          = (ValidationResult.problems before ++ added)%list)
    /\ ValidationResult.problems after
       = (ValidationResult.problems (fst byType)
          ++ match typeWarning node schema with Some p => [p] | None => [] end
          ++ rest)%list.
Proof.
  intros Hprop Hinc. rewrite validate_unfold by assumption.
  pose proof (validateByType_extends host (validate host fuel) nots node schema
                (before, matchingSchemas) (validate_extends host fuel)) as HbyType.
  destruct (validateByType host (validate host fuel) nots node schema
              (before, matchingSchemas)) as [st1 | e |]; cbn [bind]; try discriminate.
  destruct (_validateNode (validate host fuel) nots node schema st1)
    as [[vr2 ms2] | e |] eqn:Hnode; cbn [bind]; try discriminate.
  intros [= <- <-].
  destruct (_validateNode_type (validate host fuel) (validate_extends host fuel)
              nots node schema st1 _ Hnode) as (rest & Hrest).
  exists st1, rest. split; [reflexivity |].
  split; [exact (extends_problems _ _ HbyType) | exact Hrest].
Qed.

Lemma type_mismatch_is_reported_witness :
  exists byType rest,
    validateByType sampleHost (validate sampleHost 0) 0 five stringSchema
      (ValidationResult.new, NoOpSchemaCollector)
    = Ok byType
    /\ (exists added,
          ValidationResult.problems (fst byType)
          = (ValidationResult.problems ValidationResult.new ++ added)%list)
    /\ ValidationResult.problems
         (ValidationResult.push (typeMismatchString (IRange.mk 0 1))
            ValidationResult.new)
       = (ValidationResult.problems (fst byType)
          ++ match typeWarning five stringSchema with Some p => [p] | None => [] end
          ++ rest)%list.
Proof.
  apply (type_mismatch_is_reported sampleHost 0 0 five stringSchema _ _
           NoOpSchemaCollector NoOpSchemaCollector);
    vm_compute; reflexivity.
Defined.


(** ** Conditions *)

Lemma testBranch_merges (v : Validator) (nots : nat) (node : ASTNode)
  (schema : JSONSchema) (validationResult after : ValidationResult)
  (matchingSchemas matchingSchemas' : ISchemaCollector) :
  testBranch v nots node schema (validationResult, matchingSchemas)
  = Ok (after, matchingSchemas') ->
  exists sub subMatchingSchemas,
    v nots (Some node) schema ValidationResult.new (Collector.newSub matchingSchemas)
    = Ok (sub, subMatchingSchemas)
    /\ ValidationResult.problems after
       = (ValidationResult.problems validationResult
          ++ ValidationResult.problems sub)%list
    /\ matchingSchemas' = Collector.merge matchingSchemas subMatchingSchemas.
Proof.
  unfold testBranch. cbn [asSchema].
  destruct (v nots (Some node) schema ValidationResult.new
              (Collector.newSub matchingSchemas)) as [[sub sms] | e |];
    cbn [bind]; try discriminate.
  intros [= <- <-]. exists sub, sms. repeat split.
Qed.

(** X14.  [if], [then] and [else].  The problems the node has with the schema
    of [if] are never reported; the records made under it are kept.  When
    the node has no problem with it the problems and the records under
    [then] are added, when it has some those under [else]; where that
    keyword is missing nothing is added. *)
Theorem condition_reports_the_branch (v : Validator) (nots : nat) (node : ASTNode)
  (ifSchema : JSONSchema) (thenSchema elseSchema : option JSONSchema)
  (before after condition : ValidationResult)
  (matchingSchemas matchingSchemas' conditionSchemas : ISchemaCollector) :
  v nots (Some node) ifSchema ValidationResult.new (Collector.newSub matchingSchemas)
  = Ok (condition, conditionSchemas) ->
  testCondition v nots node ifSchema thenSchema elseSchema (before, matchingSchemas)
  = Ok (after, matchingSchemas') ->
  match (if ValidationResult.hasProblems condition then elseSchema else thenSchema) with
  | None =>
      after = before
      /\ matchingSchemas' = Collector.merge matchingSchemas conditionSchemas
  | Some branch =>
      exists sub subMatchingSchemas,
        v nots (Some node) branch ValidationResult.new
          (Collector.newSub (Collector.merge matchingSchemas conditionSchemas))
        = Ok (sub, subMatchingSchemas)
        /\ ValidationResult.problems after
           = (ValidationResult.problems before ++ ValidationResult.problems sub)%list
        /\ matchingSchemas'
           = Collector.merge (Collector.merge matchingSchemas conditionSchemas)
               subMatchingSchemas
  end.
Proof.
  intros Hif. unfold testCondition. cbn [asSchema]. rewrite Hif. cbn [bind]. cbv zeta.
  destruct (ValidationResult.hasProblems condition); cbn [negb].
  - destruct elseSchema as [branch |]; [apply testBranch_merges |].
    intros [= <- <-]. split; reflexivity.
  - destruct thenSchema as [branch |]; [apply testBranch_merges |].
    intros [= <- <-]. split; reflexivity.
Qed.

Lemma condition_reports_the_branch_witness :
  exists sub subMatchingSchemas,
    validate sampleHost 1 0 (Some five) stringSchema ValidationResult.new
      (Collector.newSub
         (Collector.merge NoOpSchemaCollector NoOpSchemaCollector))
    = Ok (sub, subMatchingSchemas)
    /\ ValidationResult.problems
         (ValidationResult.push (typeMismatchString (IRange.mk 0 1))
            ValidationResult.new)
       = (ValidationResult.problems ValidationResult.new
          ++ ValidationResult.problems sub)%list
    /\ NoOpSchemaCollector
       = Collector.merge (Collector.merge NoOpSchemaCollector NoOpSchemaCollector)
           subMatchingSchemas.
Proof.
  apply (condition_reports_the_branch (validate sampleHost 1) 0 five numberMin10Schema
           (Some numberMin10Schema) (Some stringSchema) ValidationResult.new
           (ValidationResult.push (typeMismatchString (IRange.mk 0 1))
              ValidationResult.new)
           (ValidationResult.push
              (minimumWarning (IRange.mk 0 1) (Number.of_Z 10)) ValidationResult.new)
           NoOpSchemaCollector NoOpSchemaCollector NoOpSchemaCollector);
    vm_compute; reflexivity.
Defined.


(** ** Validations that do not throw *)

Lemma safe_Ok {A : Type} (a : A) : safe (Ok a).
Proof. intros e. discriminate. Qed.

Lemma safe_OutOfFuel {A : Type} : safe (@OutOfFuel A).
Proof. intros e. discriminate. Qed.

Lemma safe_bind {A B : Type} (m : outcome A) (k : A -> outcome B) :
  safe m -> (forall a, m = Ok a -> safe (k a)) -> safe (bind m k).
Proof.
  intros Hm Hk. destruct m as [a | e |]; simpl.
  - apply Hk. reflexivity.
  - contradiction (Hm e). reflexivity.
  - apply safe_OutOfFuel.
Qed.

Lemma safe_forEach {A S : Type} (xs : list A) (body : A -> S -> outcome S) (s : S) :
  (forall x s, In x xs -> safe (body x s)) -> safe (forEach xs body s).
Proof.
  revert s. induction xs as [| x xs IH]; intros s H; simpl.
  - apply safe_Ok.
  - apply safe_bind.
    + apply H. left. reflexivity.
    + intros s' _. apply IH. intros y s'' Hy. apply H. right. exact Hy.
Qed.

Lemma safe_some {A : Type} (xs : list A) (test : A -> outcome bool) :
  (forall x, In x xs -> safe (test x)) -> safe (some xs test).
Proof.
  induction xs as [| x xs IH]; intros H; simpl.
  - apply safe_Ok.
  - apply safe_bind.
    + apply H. left. reflexivity.
    + intros [|] _; [apply safe_Ok |].
      apply IH. intros y Hy. apply H. right. exact Hy.
Qed.

Lemma within_trans (s t u : JSONSchema) : within s t -> within t u -> within s u.
Proof.
  intros Hst Htu. induction Hst as [| s r t Hpart Hin IH]; [exact Htu |].
  eapply within_part; [exact Hpart | apply IH, Htu].
Qed.

Lemma compiles_part (host : Host) (s : JSONSchema) (r : JSONSchemaRef) :
  compiles host s -> part s r -> compiles host (asSchema r).
Proof. intros Hs Hr t Ht. apply Hs. eapply within_part; eassumption. Qed.

Lemma compiles_pattern (host : Host) (s : JSONSchema) (pattern : string) :
  compiles host s -> Schema.pattern s = Some pattern -> RegExp host pattern <> None.
Proof. intros Hs. apply (proj1 (Hs s (within_here s))). Qed.

Lemma compiles_patternProperties (host : Host) (s : JSONSchema)
  (l : list (string * JSONSchemaRef)) (pattern : string) (r : JSONSchemaRef) :
  compiles host s -> Schema.patternProperties s = Some l -> In (pattern, r) l ->
  RegExp host pattern <> None.
Proof. intros Hs. apply (proj2 (Hs s (within_here s))). Qed.

Lemma plain_child (node c : ASTNode) : plain node -> child node c -> plain c.
Proof. intros Hn Hc t Ht. apply Hn. eapply inside_child; eassumption. Qed.

Lemma plain_string (node : StringASTNodeImpl) : plain (StringASTNode node).
Proof.
  intros t Ht. inversion Ht as [| c t' Hc _]; [exact I | inversion Hc].
Qed.

Lemma collectKeys_safe (base : Base.t) (properties : list PropertyASTNodeImpl) :
  plain (ObjectASTNode base properties) -> safe (collectKeys properties).
Proof.
  intros Hplain. destruct (Hplain _ (inside_here _)) as [Hfree _].
  pose proof (collectKeys_spec properties) as H. rewrite Hfree in H.
  destruct H as (sk & -> & _). apply safe_Ok.
Qed.

(** The value nodes [collectKeys] keeps are children of the object. *)
Lemma seen_child (base : Base.t) (properties : list PropertyASTNodeImpl)
  (seenKeys : gmap string (option ASTNode)) (unprocessed : list string)
  (name : string) (value : ASTNode) :
  plain (ObjectASTNode base properties) ->
  collectKeys properties = Ok (seenKeys, unprocessed) ->
  seen seenKeys name = Some value ->
  plain value /\ exists keyNode, keyNodeOfParent value = Ok keyNode.
Proof.
  intros Hplain Hrun Hseen.
  destruct (collectKeys_seen _ _ _ _ _ Hrun Hseen) as (p & Hp & Ev).
  split.
  - eapply plain_child; [exact Hplain | eapply child_value; eassumption].
  - destruct (Hplain _ (inside_here _)) as [_ Hparent]. eapply Hparent; eassumption.
Qed.

Lemma disallowedExtraProp_safe (schema : JSONSchema) (child : ASTNode)
  (propertyName : string) (validationResult : ValidationResult) :
  (exists keyNode, keyNodeOfParent child = Ok keyNode) ->
  safe (disallowedExtraProp schema child propertyName validationResult).
Proof.
  intros (keyNode & Hk). unfold disallowedExtraProp. rewrite Hk. apply safe_Ok.
Qed.


(** What the walk knows of the parts of a schema and of a node. *)
Ltac part_facts :=
  repeat match goal with
         | H : asSchema_opt _ = Some _ |- _ =>
             apply asSchema_opt_Some in H; destruct H as (? & ? & ->)
         end;
  repeat match goal with
         | H : In (_, _) (zip _ _) |- _ => apply In_zip_r in H
         | H : In _ (drop _ _) |- _ => apply In_drop in H
         | H : _ !! _ = Some _ |- _ => apply lookup_In in H
         end;
  repeat match goal with
         | Hp : plain (ObjectASTNode ?b ?ps), E : collectKeys ?ps = Ok (?sk, ?u),
           H : seen ?sk ?name = Some ?value |- _ =>
             learn (seen_child b ps sk u name value Hp E H)
         end;
  repeat match goal with
         | H : _ /\ _ |- _ => destruct H
         end.

Ltac safety :=
  part_facts;
  match goal with
  | |- safe (Throw _) =>
      exfalso;
      match goal with
      | Hc : compiles ?host ?s, E : Schema.pattern ?s = Some ?p,
        E2 : RegExp ?host ?p = None |- _ =>
          exact (compiles_pattern host s p Hc E E2)
      | Hc : compiles ?host ?s, E : Schema.patternProperties ?s = Some ?l,
        H : In (?p, ?r) ?l, E2 : RegExp ?host ?p = None |- _ =>
          exact (compiles_patternProperties host s l p r Hc E H E2)
      end
  | |- compiles _ _ => assumption
  | Hc : compiles ?host ?s0 |- compiles ?host (asSchema ?r) =>
      apply (compiles_part host s0 r Hc); solve [eauto using part]
  | Hc : compiles ?host ?s0, E : context [SchemaObj ?s] |- compiles ?host ?s =>
      apply (compiles_part host s0 (SchemaObj s) Hc); solve [eauto using part]
  | |- plain (StringASTNode _) => apply plain_string
  | |- plain _ => assumption
  | Hp : plain ?n |- plain ?c =>
      apply (plain_child n c Hp); solve [eauto using child]
  | |- exists keyNode, keyNodeOfParent _ = Ok keyNode => assumption
  end.

Ltac safe_with helper :=
  repeat first
    [ helper
    | match goal with
      | |- safe (Ok _) => apply safe_Ok
      | |- safe (bind _ _) => apply safe_bind; [| intros ? ?]
      | |- safe (forEach _ _ _) => apply safe_forEach; intros ? ? ?
      | |- safe (some _ _) => apply safe_some; intros ? ?
      | |- safe (match ?x with _ => _ end) => destruct x eqn:?
      end
    | progress cbv beta zeta ].

Section Safe.

Context (host : Host) (v : Validator).
Hypothesis Hv :
  forall nots n s vr ms,
    plain n -> compiles host s -> safe (v nots (Some n) s vr ms).

Ltac call :=
  idtac;
  match goal with
  | |- safe (v _ (Some _) _ _ _) => apply Hv
  end.

Lemma validateInto_safe nots child schema st :
  plain child -> compiles host schema ->
  safe (validateInto v nots child schema st).
Proof. intros Hp Hc. unfold validateInto. safe_with call. all: safety. Qed.

Lemma validateProperty_safe nots schema propertyName propertySchema child st :
  plain child -> compiles host (asSchema propertySchema) ->
  (exists keyNode, keyNodeOfParent child = Ok keyNode) ->
  safe (validateProperty v nots schema propertyName propertySchema child st).
Proof.
  intros Hp Hc Hk. unfold validateProperty.
  safe_with
    ltac:(idtac;
          match goal with
          | |- safe (validateInto _ _ _ _ _) => apply validateInto_safe
          | |- safe (disallowedExtraProp _ _ _ _) => apply disallowedExtraProp_safe
          end).
  all: safety.
Qed.

Ltac helpers :=
  idtac;
  match goal with
  | |- safe (validateInto _ _ _ _ _) => apply validateInto_safe
  | |- safe (validateProperty _ _ _ _ _ _ _) => apply validateProperty_safe
  | |- safe (disallowedExtraProp _ _ _ _) => apply disallowedExtraProp_safe
  | |- safe (collectKeys _) => eapply collectKeys_safe; eassumption
  | |- safe (v _ (Some _) _ _ _) => apply Hv
  end.








End Safe.









(** ** Where the records come from *)

Lemma inside_trans (a b c : ASTNode) : inside a b -> inside b c -> inside a c.
Proof.
  intros Hab Hbc. induction Hab as [| a x b Hchild Hin IH]; [exact Hbc |].
  eapply inside_child; [exact Hchild | apply IH, Hbc].
Qed.

Lemma inside_step (root node c : ASTNode) : inside root node -> child node c -> inside root c.
Proof.
  intros Hn Hc. apply (inside_trans _ node); [exact Hn |].
  eapply inside_child; [exact Hc | apply inside_here].
Qed.

Lemma within_step (rootSchema s : JSONSchema) (r : JSONSchemaRef) :
  within rootSchema s -> part s r -> within rootSchema (asSchema r).
Proof.
  intros Hs Hr. apply (within_trans _ s); [exact Hs |].
  eapply within_part; [exact Hr | apply within_here].
Qed.

Lemma seen_is_child (base : Base.t) (properties : list PropertyASTNodeImpl)
  (seenKeys : gmap string (option ASTNode)) (unprocessed : list string)
  (name : string) (value : ASTNode) :
  collectKeys properties = Ok (seenKeys, unprocessed) ->
  seen seenKeys name = Some value ->
  child (ObjectASTNode base properties) value.
Proof.
  intros Hrun Hseen.
  destruct (collectKeys_seen _ _ _ _ _ Hrun Hseen) as (p & Hp & Ev).
  eapply child_value; eassumption.
Qed.

Lemma holds_NoOp (P : IApplicableSchema -> Prop) : holds P NoOpSchemaCollector.
Proof. constructor. Qed.

Lemma holds_newSub (P : IApplicableSchema -> Prop) (matchingSchemas : ISchemaCollector) :
  holds P (Collector.newSub matchingSchemas).
Proof. destruct matchingSchemas; constructor. Qed.

Lemma holds_add (P : IApplicableSchema -> Prop) (matchingSchemas : ISchemaCollector)
  (r : IApplicableSchema) :
  P r -> holds P matchingSchemas -> holds P (Collector.add matchingSchemas r).
Proof.
  intros Hr Hms. destruct matchingSchemas; [| constructor].
  apply Forall_app. split; [exact Hms | constructor; [exact Hr | constructor]].
Qed.

Lemma holds_merge (P : IApplicableSchema -> Prop) (matchingSchemas sub : ISchemaCollector) :
  holds P sub -> holds P matchingSchemas -> holds P (Collector.merge matchingSchemas sub).
Proof.
  intros Hsub Hms. destruct matchingSchemas; [| constructor].
  apply Forall_app. split; assumption.
Qed.

Lemma holds_flip (P : IApplicableSchema -> Prop) (matchingSchemas sub : ISchemaCollector) :
  (forall r, P r -> P (flip r)) ->
  holds P sub -> holds P matchingSchemas ->
  holds P
    (fold_left (fun matchingSchemas ms => Collector.add matchingSchemas (flip ms))
       (Collector.schemas sub) matchingSchemas).
Proof.
  intros Hflip Hsub. unfold holds in Hsub. revert matchingSchemas.
  induction Hsub as [| r rest Hr _ IH]; intros ms Hms; simpl; [exact Hms |].
  apply IH, holds_add; [apply Hflip, Hr | exact Hms].
Qed.

Lemma recording_any {A : Type} `{Recorded A} (P : IApplicableSchema -> Prop)
  (o : outcome A) :
  (forall a, recorded P a) -> recording P o.
Proof. intros Hall. destruct o; simpl; auto. Qed.

Lemma recording_bind {A B : Type} `{Recorded A} `{Recorded B}
  (P : IApplicableSchema -> Prop) (m : outcome A) (f : A -> outcome B) :
  recording P m -> (forall a, m = Ok a -> recorded P a -> recording P (f a)) ->
  recording P (bind m f).
Proof.
  intros Hm Hf. destruct m as [a | e |]; simpl; try exact I.
  apply Hf; [reflexivity | exact Hm].
Qed.

(** A call whose collector is dropped. *)
Lemma recording_dropped {B : Type} `{Recorded B} (P : IApplicableSchema -> Prop)
  (m : outcome State) (f : State -> outcome B) :
  (forall a, recording P (f a)) -> recording P (bind m f).
Proof. intros Hf. destruct m as [a | e |]; simpl; try exact I. apply Hf. Qed.

Lemma recording_forEach {A S : Type} `{Recorded S} (P : IApplicableSchema -> Prop)
  (xs : list A) (body : A -> S -> outcome S) (s : S) :
  (forall x s, In x xs -> recorded P s -> recording P (body x s)) ->
  recorded P s -> recording P (forEach xs body s).
Proof. intros Hbody Hs. apply post_forEach; assumption. Qed.

Ltac recorded_simpl :=
  unfold recorded, recorded_State, recorded_unprocessed, recorded_best,
    recorded_result, recorded_bool, recorded_keys in *;
  cbn [fst snd] in *.

Ltac record_with helper :=
  repeat first
    [ helper
    | match goal with
      | |- @recording ValidationResult _ _ _ => apply recording_any; intros ?; exact I
      | |- @recording bool _ _ _ => apply recording_any; intros ?; exact I
      | |- @recording (gmap string (option ASTNode) * list string) _ _ _ =>
          apply recording_any; intros ?; exact I
      | |- @recording _ _ _ (Throw _) => exact I
      | |- @recording _ _ _ (Ok _) => apply post_Ok
      | |- @recording _ _ _ (bind _ _) => apply recording_bind; [| intros ? ? ?]
      | |- @recording _ _ _ (forEach _ _ _) =>
          apply recording_forEach; [intros ? ? ? ? |]
      | |- @recording _ _ _ (match ?x with _ => _ end) => destruct x eqn:?
      end
    | progress cbv beta zeta ].

Section Records.

Context (host : Host) (v : Validator) (root : ASTNode) (rootSchema : JSONSchema).

Hypothesis Hv :
  forall nots n s vr ms,
    inside root n -> within rootSchema s -> holds (fromHere root rootSchema) ms ->
    recording (fromHere root rootSchema) (v nots (Some n) s vr ms).

Lemma fromHere_flip (r : IApplicableSchema) :
  fromHere root rootSchema r -> fromHere root rootSchema (flip r).
Proof. intros H. exact H. Qed.

Ltac placed :=
  part_facts; recorded_simpl;
  repeat match goal with
         | p : _ * _ |- _ => destruct p
         | p : State |- _ => destruct p
         end;
  cbn [fst snd] in *;
  repeat match goal with
         | E : collectKeys ?ps = Ok (?sk, ?u), H : seen ?sk ?name = Some ?value,
           _ : inside _ (ObjectASTNode ?b ?ps) |- _ =>
             learn (seen_is_child b ps sk u name value E H)
         end;
  repeat match goal with
         | |- context [match ?x with _ => _ end] => destruct x
         end;
  repeat match goal with
         | |- context [fold_left ?step ?xs ?st] =>
             rewrite (snd_fold_left step xs st)
               by (intros [? ?] ?; simpl;
                   repeat match goal with
                          | |- context [match ?x with _ => _ end] => destruct x
                          end;
                   reflexivity)
         end;
  cbn [fst snd];
  match goal with
  | |- True => exact I
  | |- within _ _ => assumption
  | Hs : within ?S ?s0 |- within ?S (asSchema ?r) =>
      apply (within_step S s0 r Hs); solve [eauto using part]
  | Hs : within ?S ?s0, E : context [SchemaObj ?s] |- within ?S ?s =>
      apply (within_step S s0 (SchemaObj s) Hs); solve [eauto using part]
  | |- inside _ _ => assumption
  | Hn : inside ?N ?n |- inside ?N ?c =>
      apply (inside_step N n c Hn); solve [eauto using child]
  | |- holds _ _ =>
      repeat match goal with
             | |- holds _ (Collector.newSub _) => apply holds_newSub
             | |- holds _ NoOpSchemaCollector => apply holds_NoOp
             | |- holds _ (Collector.merge _ _) => apply holds_merge
             | |- holds _ (fold_left _ (Collector.schemas _) _) =>
                 apply holds_flip; [exact fromHere_flip | |]
             end;
      assumption
  end.

Ltac call :=
  idtac;
  match goal with
  | |- @recording _ _ _ (bind (v _ _ _ _ NoOpSchemaCollector) _) =>
      apply recording_dropped; intros ?
  | |- @recording _ _ _ (v _ (Some _) _ _ _) => apply Hv
  end.

Lemma validateInto_records nots child schema st :
  inside root child -> within rootSchema schema ->
  recorded (fromHere root rootSchema) st ->
  recording (fromHere root rootSchema) (validateInto v nots child schema st).
Proof.
  intros Hn Hs Hst. unfold validateInto. record_with call. all: placed.
Qed.

Lemma validateProperty_records nots schema propertyName propertySchema child st :
  inside root child -> within rootSchema (asSchema propertySchema) ->
  recorded (fromHere root rootSchema) st ->
  recording (fromHere root rootSchema)
    (validateProperty v nots schema propertyName propertySchema child st).
Proof.
  intros Hn Hs Hst. unfold validateProperty.
  record_with
    ltac:(idtac;
          match goal with
          | |- @recording _ _ _ (validateInto _ _ _ _ _) => apply validateInto_records
          end).
  all: placed.
Qed.

Ltac helpers :=
  idtac;
  match goal with
  | |- @recording _ _ _ (validateInto _ _ _ _ _) => apply validateInto_records
  | |- @recording _ _ _ (validateProperty _ _ _ _ _ _ _) =>
      apply validateProperty_records
  | |- @recording _ _ _ (bind (v _ _ _ _ NoOpSchemaCollector) _) =>
      apply recording_dropped; intros ?
  | |- @recording _ _ _ (v _ (Some _) _ _ _) => apply Hv
  end.

Lemma validateItems_records nots base items schema st :
  inside root (ArrayASTNode base items) -> within rootSchema schema ->
  recorded (fromHere root rootSchema) st ->
  recording (fromHere root rootSchema)
    (validateItems v nots (ArrayASTNode base items) items schema st).
Proof.
  intros Hn Hs Hst. unfold validateItems. record_with helpers. all: placed.
Qed.

Lemma _validateArrayNode_records nots base items schema st :
  inside root (ArrayASTNode base items) -> within rootSchema schema ->
  recorded (fromHere root rootSchema) st ->
  recording (fromHere root rootSchema)
    (_validateArrayNode v nots (ArrayASTNode base items) items schema st).
Proof.
  intros Hn Hs Hst. unfold _validateArrayNode.
  record_with ltac:(idtac;
                    match goal with
                    | |- @recording _ _ _ (validateItems _ _ _ _ _ _) =>
                        apply validateItems_records; assumption
                    end).
  all: placed.
Qed.

Lemma _validateObjectNode_records nots base properties schema st :
  inside root (ObjectASTNode base properties) -> within rootSchema schema ->
  recorded (fromHere root rootSchema) st ->
  recording (fromHere root rootSchema)
    (_validateObjectNode host v nots (ObjectASTNode base properties) properties
       schema st).
Proof.
  intros Hn Hs Hst. unfold _validateObjectNode. record_with helpers. all: placed.
Qed.

Lemma testBranch_records nots node schema st :
  inside root node -> within rootSchema schema ->
  recorded (fromHere root rootSchema) st ->
  recording (fromHere root rootSchema) (testBranch v nots node schema st).
Proof.
  intros Hn Hs Hst. unfold testBranch. record_with call. all: placed.
Qed.

Lemma testCondition_records nots node ifSchema thenSchema elseSchema st :
  inside root node -> within rootSchema ifSchema ->
  (forall s, thenSchema = Some s -> within rootSchema s) ->
  (forall s, elseSchema = Some s -> within rootSchema s) ->
  recorded (fromHere root rootSchema) st ->
  recording (fromHere root rootSchema)
    (testCondition v nots node ifSchema thenSchema elseSchema st).
Proof.
  intros Hn Hif Hthen Helse Hst. unfold testCondition.
  record_with ltac:(first [ call
                          | match goal with
                            | |- @recording _ _ _ (testBranch _ _ _ _ _) =>
                                apply testBranch_records
                            end ]).
  all: try solve [placed].
  - apply Hthen. reflexivity.
  - apply Helse. reflexivity.
Qed.

Lemma testAlternatives_records nots node alternatives maxOneMatch st :
  inside root node ->
  (forall r, In r alternatives -> within rootSchema (asSchema r)) ->
  recorded (fromHere root rootSchema) st ->
  recording (fromHere root rootSchema)
    (testAlternatives v nots node alternatives maxOneMatch st).
Proof.
  intros Hn Hs Hst. unfold testAlternatives. record_with call.
  all: try solve [placed]. apply Hs. assumption.
Qed.

Lemma _validateNode_records nots node schema st :
  inside root node -> within rootSchema schema ->
  recorded (fromHere root rootSchema) st ->
  recording (fromHere root rootSchema) (_validateNode v nots node schema st).
Proof.
  intros Hn Hs Hst. unfold _validateNode.
  record_with
    ltac:(first [ call
                | match goal with
                  | |- @recording _ _ _ (testAlternatives _ _ _ _ _ _) =>
                      apply testAlternatives_records; [| intros ? ? |]
                  | |- @recording _ _ _ (testCondition _ _ _ _ _ _ _) =>
                      apply testCondition_records; [| | intros ? ? | intros ? ? |]
                  end ]).
  all: placed.
Qed.

End Records.


Lemma validate_records (host : Host) (root : ASTNode) (rootSchema : JSONSchema)
  (fuel : nat) :
  forall nots node schema validationResult matchingSchemas,
    inside root node -> within rootSchema schema ->
    holds (fromHere root rootSchema) matchingSchemas ->
    recording (fromHere root rootSchema)
      (validate host fuel nots (Some node) schema validationResult matchingSchemas).
Proof.
  induction fuel as [| fuel IH]; intros nots node schema vr ms Hn Hs Hms.
  - simpl. destruct (negb (Collector.include ms node)); [exact Hms | exact I].
  - destruct (Collector.include ms node) eqn:Hinc;
      [| simpl; rewrite Hinc; exact Hms].
    destruct (isProperty node) eqn:Hprop.
    + destruct node as [| | | | | p |]; try discriminate Hprop.
      simpl. rewrite Hinc. cbn [negb].
      destruct (valueNode p) as [value |] eqn:Ev.
      * apply IH; [| exact Hs | exact Hms].
        apply (inside_step root _ _ Hn). apply child_of_property. exact Ev.
      * destruct fuel; exact Hms.
    + rewrite validate_unfold by assumption.
      apply recording_bind; [| intros st _ Hst; apply recording_bind].
      * unfold validateByType.
        destruct node as [| | base items | base isInteger value | stringNode | p
                          | base properties]; try exact Hms.
        -- apply (_validateArrayNode_records (validate host fuel) root rootSchema IH);
             assumption.
        -- destruct (_validateStringNode host stringNode schema (vr, ms).1);
             simpl; try exact I. exact Hms.
        -- apply (_validateObjectNode_records host (validate host fuel) root rootSchema
                    IH); assumption.
      * apply (_validateNode_records (validate host fuel) root rootSchema IH);
          assumption.
      * intros [vr' ms'] _ Hms'. apply post_Ok.
        apply holds_add; [split; assumption | exact Hms'].
Qed.

(** X16.  The records of [getMatchingSchemas] pair nodes of the document with
    schemas of the schema: every record is for the root or a node below
    it (an item of an array, the value of a property), and for the schema
    or a schema held within it, a boolean counting as the schema
    [asSchema] makes of it. *)
Theorem records_come_from_the_document (host : Host) (this : JSONDocument)
  (rootSchema : JSONSchema) (focusOffset : Z) (exclude : option ASTNode)
  (rootNode : ASTNode) (records : list IApplicableSchema) :
  root this = Some rootNode ->
  Document.getMatchingSchemas host this (Some rootSchema) focusOffset exclude
  = Ok records ->
  Forall (fromHere rootNode rootSchema) records.
Proof.
  intros Hroot. unfold Document.getMatchingSchemas. rewrite Hroot.
  pose proof (validate_records host rootNode rootSchema (enough rootNode rootSchema) O
                rootNode rootSchema ValidationResult.new
                (SchemaCollector focusOffset exclude [])
                (inside_here rootNode) (within_here rootSchema)
                (List.Forall_nil _)) as H.
  destruct (validate host (enough rootNode rootSchema) O (Some rootNode) rootSchema
              ValidationResult.new (SchemaCollector focusOffset exclude []))
    as [[vr ms] | e |]; simpl; try discriminate.
  intros [= <-]. exact H.
Qed.

Lemma records_come_from_the_document_witness :
  Forall (fromHere five notNot) [innermostRecord; innerRecord; outerRecord].
Proof.
  apply (records_come_from_the_document sampleHost (newJSONDocument (Some five) [])
           notNot (-1) None five);
    vm_compute; reflexivity.
Defined.


(** ** Properties the schema does not name *)

Lemma forEach_fst {A U S : Type} (step : A -> U -> U) (xs : list A)
  (body : A -> U * S -> outcome (U * S)) :
  (forall x u s u' s', In x xs -> body x (u, s) = Ok (u', s') -> u' = step x u) ->
  forall u s u' s',
    forEach xs body (u, s) = Ok (u', s') -> u' = fold_left (fun u x => step x u) xs u.
Proof.
  induction xs as [| x xs IH]; intros Hbody u s u' s'; simpl.
  - intros [= <- <-]. reflexivity.
  - destruct (body x (u, s)) as [[u1 s1] | e |] eqn:E; simpl; try discriminate.
    intros Hrest. apply Hbody in E; [| left; reflexivity]. subst u1.
    eapply IH; [| exact Hrest]. intros y v t v' t' Hy. apply Hbody. right. exact Hy.
Qed.

Lemma filter_filter {A : Type} (f g : A -> bool) (xs : list A) :
  List.filter f (List.filter g xs) = List.filter (fun x => g x && f x) xs.
Proof.
  induction xs as [| x xs IH]; simpl; [reflexivity |].
  destruct (g x); simpl; [destruct (f x); simpl; now rewrite IH | exact IH].
Qed.

Lemma filter_all {A : Type} (f : A -> bool) (xs : list A) :
  (forall x, f x = true) -> List.filter f xs = xs.
Proof.
  intros H. induction xs as [| x xs IH]; simpl; [reflexivity |].
  rewrite H, IH. reflexivity.
Qed.

Lemma propertyProcessed_all (names : list (string * JSONSchemaRef)) :
  forall unprocessed : list string,
    fold_left (fun u (entry : string * JSONSchemaRef) => propertyProcessed (fst entry) u)
      names unprocessed
    = List.filter
        (fun name =>
           negb (existsb (fun entry : string * JSONSchemaRef =>
                            String.eqb name (fst entry)) names))
        unprocessed.
Proof.
  induction names as [| [k r] rest IH]; intros u; simpl.
  - symmetry. apply filter_all. reflexivity.
  - rewrite IH. unfold propertyProcessed. rewrite filter_filter.
    apply filter_ext. intros name. cbn [fst]. rewrite negb_orb. reflexivity.
Qed.

Lemma matching_processed (test : string -> bool) (snapshot : list string) :
  forall unprocessed : list string,
    fold_left (fun u name => if test name then propertyProcessed name u else u)
      snapshot unprocessed
    = List.filter
        (fun name => negb (existsb (fun m => test m && String.eqb name m) snapshot))
        unprocessed.
Proof.
  induction snapshot as [| m rest IH]; intros u; simpl.
  - symmetry. apply filter_all. reflexivity.
  - rewrite IH. destruct (test m); cbn [andb orb].
    + unfold propertyProcessed. rewrite filter_filter. apply filter_ext.
      intros name. rewrite negb_orb. reflexivity.
    + reflexivity.
Qed.

Lemma matching_processed_self (test : string -> bool) (unprocessed : list string) :
  fold_left (fun u name => if test name then propertyProcessed name u else u)
    unprocessed unprocessed
  = List.filter (fun name => negb (test name)) unprocessed.
Proof.
  rewrite matching_processed.
  assert (H : forall snapshot,
             (forall n, In n unprocessed -> In n snapshot) ->
             List.filter
               (fun name =>
                  negb (existsb (fun m => test m && String.eqb name m) snapshot))
               unprocessed
             = List.filter (fun name => negb (test name)) unprocessed).
  { intros snapshot. induction unprocessed as [| x u IH]; intros Hin; [reflexivity |].
    cbn [List.filter]. rewrite IH by (intros n Hn; apply Hin; right; exact Hn).
    replace (existsb (fun m => test m && String.eqb x m) snapshot) with (test x);
      [reflexivity |].
    destruct (test x) eqn:Ex; symmetry.
    - apply existsb_exists. exists x. split; [apply Hin; left; reflexivity |].
      rewrite Ex, String.eqb_refl. reflexivity.
    - apply not_true_is_false. intros H. apply existsb_exists in H.
      destruct H as (m & _ & Hm). apply andb_true_iff in Hm. destruct Hm as [Hm He].
      apply String.eqb_eq in He. subst m. congruence. }
  apply H. auto.
Qed.


Lemma disallowed_loop (schema : JSONSchema) (properties : list PropertyASTNodeImpl)
  (seenKeys : gmap string (option ASTNode)) (names : list string) :
  (forall name, seen seenKeys name = lastValue name (List.filter entered properties) None) ->
  forall st after : State,
    forEach names
      (fun propertyName (st : State) =>
         match seen seenKeys propertyName with
         | Some child =>
             let* validationResult :=
               disallowedExtraProp schema child propertyName (fst st) in
             Ok (validationResult, snd st)
         | None => Ok st
         end) st
    = Ok after ->
    snd after = snd st
    /\ exists warnings,
         ValidationResult.problems (fst after)
         = (ValidationResult.problems (fst st) ++ warnings)%list
         /\ Forall2 (disallows schema properties)
              (List.filter (fun name => hasValue name properties) names) warnings.
Proof.
  intros Hseen. induction names as [| name rest IH]; intros st after; cbn [forEach].
  - intros [= <-]. split; [reflexivity |]. exists []. split; [| constructor].
    now rewrite app_nil_r.
  - cbn [List.filter]. unfold hasValue at 1. rewrite <- Hseen.
    destruct (seen seenKeys name) as [value |] eqn:Ev.
    + unfold disallowedExtraProp.
      destruct (keyNodeOfParent value) as [keyNode | e |] eqn:Ek; cbn [bind];
        try discriminate.
      intros Hrest. apply IH in Hrest. destruct Hrest as (Hsnd & warnings & Hp & Hw).
      cbn [fst snd] in *. split; [exact Hsnd |].
      exists (disallowedExtraPropWarning schema keyNode name :: warnings). split.
      * rewrite Hp. unfold ValidationResult.push.
        cbn [ValidationResult.problems ValidationResult.set_problems].
        rewrite <- app_assoc. reflexivity.
      * constructor; [| exact Hw]. exists value, keyNode.
        rewrite <- Hseen. repeat split; assumption.
    + cbn [bind]. apply IH.
Qed.

Section Additional.

Context (host : Host) (v : Validator).
Hypothesis Hv :
  forall nots n s vr ms, post (extends (vr, ms)) (v nots n s vr ms).

Ltac call :=
  idtac;
  match goal with
  | |- @extending _ _ _ (bind (v _ _ _ ValidationResult.new _) _) =>
      apply (sub_extends v Hv); intros ? ?
  | |- @extending _ _ _ (bind (v _ _ _ _ NoOpSchemaCollector) _) =>
      apply (sub_extends v Hv); intros ? ?
  | |- @extending _ _ _ (v _ _ _ _ _) => apply (call_extends v Hv)
  end.

Ltac walk :=
  grow_with
    ltac:(first [ apply (validateInto_extends v Hv)
                | apply (validateProperty_extends v Hv)
                | match goal with
                  | |- @extending _ _ ?base (disallowedExtraProp _ _ _ _) =>
                      apply (disallowedExtraProp_grows base)
                  end
                | call ]).

Lemma _validateObjectNode_additional (nots : nat) (node : ASTNode)
  (properties : list PropertyASTNodeImpl) (schema : JSONSchema) (st after : State) :
  Schema.additionalProperties schema = Some (SchemaBool false) ->
  _validateObjectNode host v nots node properties schema st = Ok after ->
  exists earlier warnings rest,
    ValidationResult.problems (fst after)
    = (ValidationResult.problems (fst st) ++ earlier ++ warnings ++ rest)%list
    /\ Forall2 (disallows schema properties)
         (List.filter (fun name => hasValue name properties)
            (additional host schema properties))
         warnings.
Proof.
  intros Hadd. unfold _validateObjectNode. rewrite Hadd.
  pose proof (collectKeys_spec properties) as Hkeys.
  destruct (existsb merges properties).
  { destruct Hkeys as (e & ->). discriminate. }
  destruct Hkeys as (seenKeys & -> & Hseen). cbn [bind]. cbv zeta.
  (* the state after [required] *)
  match goal with
  | |- bind (match Schema.properties schema with
             | Some l => forEach l ?body (?u, ?st0)
             | None => _
             end) ?k = _ -> _ =>
      assert (H0 : extends st st0)
        by (pose proof (extends_refl st); extension);
      remember st0 as st1 eqn:Est1; clear Est1;
      set (unprocessed := u)
  end.
  (* [properties] *)
  match goal with
  | |- bind ?m ?k = _ -> _ =>
      assert (H1 : @extending (list string * State) _ st1 m)
        by (pose proof (extends_refl st1); walk; extension);
      assert (U1 : forall u s, m = Ok (u, s) ->
                               u = List.filter (fun name => negb (named schema name))
                                     unprocessed);
      [| destruct m as [[u1 st2] | e |]; cbn [bind]; try discriminate;
         specialize (U1 u1 st2 eq_refl) ]
  end.
  { intros u s. unfold named.
    destruct (Schema.properties schema) as [schemaProperties |].
    - intros Hrun.
      rewrite <- (propertyProcessed_all schemaProperties unprocessed).
      revert Hrun. apply forEach_fst. intros [k r] u0 s0 u' s' _. cbn [fst].
      destruct (seen seenKeys k); [| now intros [= <- <-]].
      destruct (validateProperty v nots schema k r a s0); cbn [bind];
        try discriminate. now intros [= <- <-].
    - intros [= <- <-]. symmetry. apply filter_all. reflexivity. }
  (* [patternProperties] *)
  match goal with
  | |- bind ?m ?k = _ -> _ =>
      assert (H2 : @extending (list string * State) _ st2 m)
        by (pose proof (extends_refl st2); walk; extension);
      assert (U2 : forall u s, m = Ok (u, s) ->
                               u = List.filter
                                     (fun name => negb (patterned host schema name)) u1);
      [| destruct m as [[u2 st3] | e |]; cbn [bind]; try discriminate;
         specialize (U2 u2 st3 eq_refl) ]
  end.
  { intros u s. unfold patterned.
    destruct (Schema.patternProperties schema) as [patternProperties |].
    - intros Hrun.
      assert (Hfold : u = fold_left
                            (fun u (entry : string * JSONSchemaRef) =>
                               match RegExp host (fst entry) with
                               | Some test =>
                                   List.filter (fun name => negb (test name)) u
                               | None => u
                               end) patternProperties u1).
      { revert Hrun. apply forEach_fst. intros [pattern r] u0 s0 u' s' _. cbn [fst].
        destruct (RegExp host pattern) as [test |]; [| discriminate].
        intros Hinner. rewrite <- matching_processed_self.
        revert Hinner. apply forEach_fst. intros name u3 s3 u4 s4 _.
        destruct (test name); [| now intros [= <- <-]].
        destruct (seen seenKeys name); [| now intros [= <- <-]].
        destruct (validateProperty v nots schema name r a s3); cbn [bind];
          try discriminate. now intros [= <- <-]. }
      rewrite Hfold. clear. revert u1.
      induction patternProperties as [| [pattern r] rest IH]; intros u1; simpl.
      + symmetry. apply filter_all. reflexivity.
      + rewrite IH. destruct (RegExp host pattern) as [test |]; cbn [orb].
        * rewrite filter_filter. apply filter_ext. intros name.
          rewrite negb_orb. reflexivity.
        * reflexivity.
    - intros [= <- <-]. symmetry. apply filter_all. reflexivity. }
  (* [additionalProperties: false] *)
  match goal with
  | |- bind ?m ?k = _ -> _ =>
      destruct m as [st4 | e |] eqn:Hloop; cbn [bind]; try discriminate
  end.
  apply (disallowed_loop schema properties seenKeys u2 Hseen) in Hloop.
  destruct Hloop as (Hsnd & warnings & Hp & Hw).
  (* what follows *)
  match goal with
  | |- ?run = Ok after -> _ =>
      assert (H4 : @extending State _ st4 run)
        by (pose proof (extends_refl st4); walk; extension)
  end.
  intros Hrun. rewrite Hrun in H4.
  destruct (extends_problems _ _ H0) as (a0 & E0).
  destruct (extends_problems _ _ H1) as (a1 & E1).
  destruct (extends_problems _ _ H2) as (a2 & E2).
  destruct (extends_problems _ _ H4) as (rest & E4).
  cbn [fst snd] in *.
  exists (a0 ++ a1 ++ a2)%list, warnings, rest. split.
  - rewrite E4, Hp, E2, E1, E0, <- !app_assoc. reflexivity.
  - replace (additional host schema properties) with u2; [exact Hw |].
    rewrite U2, U1. unfold additional, unprocessed. rewrite filter_filter.
    apply filter_ext. intros name. rewrite negb_orb. reflexivity.
Qed.

End Additional.


(** X17.  With [additionalProperties: false] the properties the schema does
    not provide for are reported whatever else the schema says: one
    warning for each key of the object that [properties] does not name
    and that matches no key of [patternProperties], in the order of the
    object.  A key that occurs twice is reported twice, both times at the
    key of its last occurrence; a key whose last occurrence has no value
    is not reported. *)
Theorem additional_properties_are_reported (host : Host) (fuel nots : nat)
  (base : Base.t) (properties : list PropertyASTNodeImpl) (schema : JSONSchema)
  (before after : ValidationResult)
  (matchingSchemas matchingSchemas' : ISchemaCollector) :
  Schema.additionalProperties schema = Some (SchemaBool false) ->
  Collector.include matchingSchemas (ObjectASTNode base properties) = true ->
  validate host (S fuel) nots (Some (ObjectASTNode base properties)) schema before
    matchingSchemas
  = Ok (after, matchingSchemas') ->
  exists earlier warnings rest,
    ValidationResult.problems after
    = (ValidationResult.problems before ++ earlier ++ warnings ++ rest)%list
    /\ Forall2 (disallows schema properties)
         (List.filter (fun name => hasValue name properties)
            (additional host schema properties))
         warnings.
Proof.
  intros Hadd Hinc. rewrite validate_unfold by (exact Hinc || reflexivity).
  unfold validateByType.
  destruct (_validateObjectNode host (validate host fuel) nots
              (ObjectASTNode base properties) properties schema
              (before, matchingSchemas)) as [st1 | e |] eqn:Hobject;
    cbn [bind]; try discriminate.
  destruct (_validateObjectNode_additional host (validate host fuel)
              (validate_extends host fuel) nots _ _ _ _ _ Hadd Hobject)
    as (earlier & warnings & rest & Hrest & Hw).
  pose proof (_validateNode_extends (validate host fuel) (validate_extends host fuel) st1
                nots (ObjectASTNode base properties) schema st1 (extends_refl st1))
    as Hnode.
  destruct (_validateNode (validate host fuel) nots (ObjectASTNode base properties)
              schema st1) as [[vr2 ms2] | e |]; cbn [bind]; try discriminate.
  intros [= <- <-]. destruct (extends_problems _ _ Hnode) as (more & Hmore).
  cbn [fst] in *. exists earlier, warnings, (rest ++ more)%list. split; [| exact Hw].
  rewrite Hmore, Hrest, <- !app_assoc. reflexivity.
Qed.

Lemma additional_properties_are_reported_witness :
  exists earlier warnings rest,
    ValidationResult.problems
      (ValidationResult.push
         (disallowedExtraPropWarning noneAdditional (IRange.mk 1 3) "a")
         ValidationResult.new)
    = (ValidationResult.problems ValidationResult.new
       ++ earlier ++ warnings ++ rest)%list
    /\ Forall2 (disallows noneAdditional aOneProperties)
         (List.filter (fun name => hasValue name aOneProperties)
            (additional sampleHost noneAdditional aOneProperties))
         warnings.
Proof.
  apply (additional_properties_are_reported sampleHost 1 0 (Base.mk 0 0 7 None)
           aOneProperties noneAdditional _ _ NoOpSchemaCollector NoOpSchemaCollector);
    vm_compute; reflexivity.
Defined.


(** ** The items of an array *)






(** ** The properties the schema names *)



Section Properties.

Context (host : Host) (v : Validator).
Hypothesis Hv :
  forall nots n s vr ms, post (extends (vr, ms)) (v nots n s vr ms).

Ltac call :=
  idtac;
  match goal with
  | |- @extending _ _ _ (bind (v _ _ _ ValidationResult.new _) _) =>
      apply (sub_extends v Hv); intros ? ?
  | |- @extending _ _ _ (bind (v _ _ _ _ NoOpSchemaCollector) _) =>
      apply (sub_extends v Hv); intros ? ?
  | |- @extending _ _ _ (v _ _ _ _ _) => apply (call_extends v Hv)
  end.

Ltac walk :=
  grow_with
    ltac:(first [ apply (validateInto_extends v Hv)
                | apply (validateProperty_extends v Hv)
                | match goal with
                  | |- @extending _ _ ?base (disallowedExtraProp _ _ _ _) =>
                      apply (disallowedExtraProp_grows base)
                  end
                | call ]).


End Properties.




(** ** [not] *)

Lemma validateByType_not (host : Host) (v : Validator) (nots : nat) (node : ASTNode)
  (r : JSONSchemaRef) (st : State) :
  mergeFree node = true ->
  validateByType host v nots node (Schema.set_not r Schema.empty) st = Ok st.
Proof.
  intros Hfree. destruct st as [vr ms].
  destruct node as [| | b items | | | p | b properties]; try reflexivity.
  destruct (collectKeys_mergeFree b properties Hfree) as ([sk u] & Hk).
  unfold validateByType, _validateObjectNode. rewrite Hk. reflexivity.
Qed.

(** X20.  [not] alone.  A node the schema under [not] has no problem with
    draws the one warning that it matches a schema that is not allowed; a
    node it has problems with draws nothing, and those problems are
    dropped.  The records made under [not] are kept, each of them
    flipped, before the record of the node itself. *)
Theorem not_reports_what_the_schema_accepts (host : Host) (fuel nots : nat)
  (node : ASTNode) (r : JSONSchemaRef) (validationResult sub : ValidationResult)
  (matchingSchemas subMatchingSchemas : ISchemaCollector) :
  Collector.include matchingSchemas node = true ->
  isProperty node = false -> mergeFree node = true ->
  validate host fuel (S nots) (Some node) (asSchema r) ValidationResult.new
    (Collector.newSub matchingSchemas)
  = Ok (sub, subMatchingSchemas) ->
  validate host (S fuel) nots (Some node) (Schema.set_not r Schema.empty)
    validationResult matchingSchemas
  = Ok (if ValidationResult.hasProblems sub then validationResult
        else ValidationResult.push (notSchemaWarning node) validationResult,
        Collector.add
          (fold_left (fun matchingSchemas ms => Collector.add matchingSchemas (flip ms))
             (Collector.schemas subMatchingSchemas) matchingSchemas)
          (record node (Schema.set_not r Schema.empty) nots)).
Proof.
  intros Hinc Hprop Hfree Hsub. rewrite validate_unfold by assumption.
  rewrite validateByType_not by exact Hfree. cbn [bind].
  unfold _validateNode. cbn [Schema.type Schema.allOf Schema.not Schema.set_not
    Schema.empty Schema.anyOf Schema.oneOf Schema.if_ Schema.enum Schema.const
    Schema.deprecationMessage asSchema_opt option_map bind].
  rewrite Hsub. cbn [bind]. destruct (ValidationResult.hasProblems sub); reflexivity.
Qed.

Lemma not_reports_what_the_schema_accepts_witness :
  validate sampleHost 2 0 (Some five)
    (Schema.set_not (SchemaObj stringSchema) Schema.empty) ValidationResult.new
    NoOpSchemaCollector
  = Ok (if ValidationResult.hasProblems
             (ValidationResult.push (typeMismatchString (IRange.mk 0 1))
                ValidationResult.new)
        then ValidationResult.new
        else ValidationResult.push (notSchemaWarning five) ValidationResult.new,
        Collector.add
          (fold_left (fun matchingSchemas ms => Collector.add matchingSchemas (flip ms))
             (Collector.schemas NoOpSchemaCollector) NoOpSchemaCollector)
          (record five (Schema.set_not (SchemaObj stringSchema) Schema.empty) 0)).
Proof.
  apply (not_reports_what_the_schema_accepts sampleHost 1 0 five
           (SchemaObj stringSchema));
    vm_compute; reflexivity.
Defined.
